(** * lazyapp_lighthouse: the asynchronous audit job lifecycle

    A shallow embedding of [src/index.ts]: the HTTP request handler
    (validation, identifier generation, immediate acknowledgement), the
    background audit [executeLighthouse] and the delivery routine
    [sendResultsToAPI].

    - JavaScript values are an inductive type [value]; numbers are IEEE-754
      binary64 values, taken from the Standard Library's [SpecFloat].
    - Effectful code is a tree of operations ([prog]): every call into the
      Node runtime, puppeteer, lighthouse, axios or the console is a node
      whose children are indexed by the answer of the environment.  [run]
      executes a tree against an [oracle] and yields the list of operations
      performed, in program order, with the answers received.
    - A promise that never settles has no answer: [run_pending] executes a
      tree up to the first such promise.
    - [server.listen] and the signal handlers are start-up and shutdown glue
      and are not modelled. *)

From Stdlib Require Import ZArith List String Ascii Bool Lia.
From Stdlib Require Import SpecFloat DecimalString DecimalZ DecimalFacts DecimalPos.
Import ListNotations.
Local Open Scope string_scope.
Local Open Scope Z_scope.

(** ** Numbers: IEEE-754 binary64 *)

Module Num.

Definition number := spec_float.

Definition prec : Z := 53.
Definition emax : Z := 1024.

(** The double nearest to an integer (exact below 2^53). *)
Definition of_Z (z : Z) : number := binary_normalize prec emax z 0 false.

Definition mul : number -> number -> number := SFmul prec emax.

(** [x >= y] of JavaScript: false as soon as one side is NaN. *)
Definition geb (x y : number) : bool :=
  match SFcompare x y with
  | Some Gt | Some Eq => true
  | _ => false
  end.

Definition leb : number -> number -> bool := SFleb.

Definition well_formed (x : number) : bool := valid_binary prec emax x.

(** Falsy numbers: [+0], [-0] and [NaN]. *)
Definition truthy (x : number) : bool :=
  match x with
  | S754_zero _ | S754_nan => false
  | _ => true
  end.

(** [floor (x + 1/2)] for the finite double [(-1)^s * m * 2^e], computed
    exactly over [Z]. *)
Definition round_half_up (s : bool) (m : positive) (e : Z) : Z :=
  if 0 <=? e then cond_Zopp s (Zpos m) * 2 ^ e
  else (2 * cond_Zopp s (Zpos m) + 2 ^ (- e)) / (2 * 2 ^ (- e)).

(** [Math.round]: the nearest integer, ties towards +infinity; NaN, the
    infinities and the zeros are returned unchanged, and a result of zero
    keeps the sign of the argument. *)
Definition Math_round (x : number) : number :=
  match x with
  | S754_finite s m e =>
      if 0 <=? e then x
      else match round_half_up s m e with
           | 0 => S754_zero s
           | z => of_Z z
           end
  | _ => x
  end.

(** The integer a double stands for, when it is one. *)
Definition to_Z (x : number) : option Z :=
  match x with
  | S754_zero _ => Some 0
  | S754_finite s m e =>
      if 0 <=? e then Some (cond_Zopp s (Zpos m) * 2 ^ e)
      else if Zpos m mod 2 ^ (- e) =? 0 then Some (cond_Zopp s (Zpos m) / 2 ^ (- e))
      else None
  | _ => None
  end.

(** Decimal numeral of an integer, as JavaScript prints the integers that
    are doubles of magnitude up to 2^53. *)
Definition decimal (z : Z) : string := NilZero.string_of_int (Z.to_int z).

End Num.

Export Num.

(** ** JavaScript values *)

Local Set Warnings "-register-all".

(** Objects are association lists in enumeration order, as
    [Object.entries] walks them; arrays are lists.  Strings are byte
    strings: indexing agrees with JavaScript on ASCII text. *)
Inductive value : Type :=
| VUndefined
| VNull
| VBool (b : bool)
| VNum (x : number)
| VStr (s : string)
| VArr (items : list value)
| VObj (fields : list (string * value)).

(** Completion of a call: it returns (a promise is fulfilled) or it throws
    (a promise is rejected) with a JavaScript value. *)
Inductive outcome (A : Type) : Type :=
| Normal (a : A)
| Thrown (e : value).
Arguments Normal {A} a.
Arguments Thrown {A} e.

(** The parts of the JavaScript runtime and of the process environment that
    the program relies on and that are left abstract: printing a number that
    is not an integer of magnitude up to 2^53 (the shortest digits that
    read back as the same double), printing a number in radix 36, reading a
    number from a string, and the environment variables of the process. *)
Class Runtime : Type := {
  Number_toString_other : number -> string;
  Number_toString36 : number -> string;
  StringToNumber : string -> number;
  process_env : string -> option string
}.

Definition nullish (v : value) : bool :=
  match v with
  | VUndefined | VNull => true
  | _ => false
  end.

(** ToBoolean. *)
Definition truthy (v : value) : bool :=
  match v with
  | VUndefined | VNull => false
  | VBool b => b
  | VNum x => Num.truthy x
  | VStr s => negb (String.eqb s "")
  | VArr _ | VObj _ => true
  end.

(** [a || b] on already evaluated operands. *)
Definition or_else (a b : value) : value := if truthy a then a else b.

Fixpoint lookup (k : string) (fields : list (string * value)) : option value :=
  match fields with
  | [] => None
  | (k', v) :: rest => if String.eqb k k' then Some v else lookup k rest
  end.

(** The error thrown by a property read on [undefined] or [null]. *)
Definition TypeError (message : string) : value :=
  VObj [("name", VStr "TypeError"); ("message", VStr message)].

Definition cannot_read (v : value) (k : string) : value :=
  TypeError ("Cannot read properties of "
             ++ (match v with VNull => "null" | _ => "undefined" end)
             ++ " (reading '" ++ k ++ "')").

(** Property read [v.k] or [v[k]].  Only own properties are looked up: none
    of the names the program reads ([url], [options], [lhr], [finalUrl],
    [requestedUrl], [categories], [audits], [score], [displayValue],
    [message] and the three audit ids) is defined on a built-in prototype,
    nor is one an index or [length]. *)
Definition get (v : value) (k : string) : outcome value :=
  match v with
  | VUndefined | VNull => Thrown (cannot_read v k)
  | VObj fields =>
      match lookup k fields with
      | Some x => Normal x
      | None => Normal VUndefined
      end
  | _ => Normal VUndefined
  end.

(** Optional chaining [v?.[k]]. *)
Definition get_opt (v : value) (k : string) : value :=
  match v with
  | VObj fields =>
      match lookup k fields with
      | Some x => x
      | None => VUndefined
      end
  | _ => VUndefined
  end.

Fixpoint indexed {A : Type} (i : nat) (l : list A) : list (string * A) :=
  match l with
  | [] => []
  | x :: rest => (decimal (Z.of_nat i), x) :: indexed (S i) rest
  end.

Fixpoint chars (s : string) : list value :=
  match s with
  | EmptyString => []
  | String c rest => VStr (String c EmptyString) :: chars rest
  end.

(** [Object.entries v] for a value that is neither [undefined] nor [null]:
    own enumerable properties, in order. *)
Definition Object_entries (v : value) : list (string * value) :=
  match v with
  | VObj fields => fields
  | VArr items => indexed 0 items
  | VStr s => indexed 0 (chars s)
  | _ => []
  end.

(** A key that is an array index: the canonical numeral of an integer from
    0 to 2^32 - 2.  Such keys are enumerated first, in ascending order;
    the other keys follow in the order of their creation. *)
Definition array_index (k : string) : option Z :=
  match NilZero.int_of_string k with
  | Some d =>
      let z := Z.of_int d in
      if (0 <=? z) && (z <? 4294967295) && String.eqb (decimal z) k
      then Some z else None
  | None => None
  end.

(** A new value for a key that the object has: the key keeps its place. *)
Fixpoint replace_field (k : string) (v : value) (fields : list (string * value))
  : list (string * value) :=
  match fields with
  | [] => []
  | (k', v') :: rest =>
      if String.eqb k k' then (k, v) :: rest else (k', v') :: replace_field k v rest
  end.

(** A new array index [i]: it goes before the first key that is not a
    smaller index. *)
Fixpoint insert_index (i : Z) (k : string) (v : value) (fields : list (string * value))
  : list (string * value) :=
  match fields with
  | [] => [(k, v)]
  | (k', v') :: rest =>
      match array_index k' with
      | Some j => if j <? i then (k', v') :: insert_index i k v rest
                  else (k, v) :: fields
      | None => (k, v) :: fields
      end
  end.

(** Assignment of one property, as an object literal or a spread does it. *)
Definition set_field (k : string) (v : value) (fields : list (string * value))
  : list (string * value) :=
  match lookup k fields with
  | Some _ => replace_field k v fields
  | None =>
      match array_index k with
      | Some i => insert_index i k v fields
      | None => fields ++ [(k, v)]
      end
  end.

(** The properties that a spread [...v] copies: none for [undefined] and
    [null]. *)
Definition own_entries (v : value) : list (string * value) :=
  match v with
  | VUndefined | VNull => []
  | _ => Object_entries v
  end.

(** [{ ...base, ...extra }] on an object literal [base]. *)
Definition spread (base : list (string * value)) (extra : value) : value :=
  VObj (fold_left (fun acc kv => set_field (fst kv) (snd kv) acc)
                  (own_entries extra) base).

(** The characters that JSON escapes. *)
Definition double_quote : ascii := "034"%char.
Definition backslash : ascii := "092"%char.

Definition hex_digit (n : nat) : ascii :=
  nth n ["0"; "1"; "2"; "3"; "4"; "5"; "6"; "7"; "8"; "9";
         "a"; "b"; "c"; "d"; "e"; "f"]%char "0"%char.

(** One character of a JSON string: the quote, the backslash and the
    control characters are escaped. *)
Definition json_escape_char (c : ascii) : string :=
  let n := nat_of_ascii c in
  if Nat.eqb n 34 then String backslash (String double_quote "")
  else if Nat.eqb n 92 then String backslash (String backslash "")
  else if Nat.eqb n 8 then String backslash "b"
  else if Nat.eqb n 9 then String backslash "t"
  else if Nat.eqb n 10 then String backslash "n"
  else if Nat.eqb n 12 then String backslash "f"
  else if Nat.eqb n 13 then String backslash "r"
  else if Nat.ltb n 32 then
    String backslash
      ("u00" ++ String (hex_digit (n / 16)) (String (hex_digit (n mod 16)) ""))
  else String c "".

Fixpoint json_escape (s : string) : string :=
  match s with
  | EmptyString => ""
  | String c rest => json_escape_char c ++ json_escape rest
  end.

(** QuoteJSONString. *)
Definition json_quote (s : string) : string :=
  String double_quote (json_escape s ++ String double_quote "").

(** A character that JSON leaves as it is. *)
Definition json_plain (c : ascii) : bool :=
  let n := nat_of_ascii c in
  negb (Nat.ltb n 32) && negb (Nat.eqb n 34) && negb (Nat.eqb n 92).

Section Conversions.
Context `{Runtime}.

(** Number::toString in radix 10. *)
Definition number_to_string (x : number) : string :=
  match x with
  | S754_nan => "NaN"
  | S754_infinity false => "Infinity"
  | S754_infinity true => "-Infinity"
  | S754_zero _ => "0"
  | S754_finite _ _ _ =>
      match Num.to_Z x with
      | Some z =>
          if Z.abs z <=? 9007199254740992 then decimal z
          else Number_toString_other x
      | None => Number_toString_other x
      end
  end.

(** The error of ToPrimitive on an object that yields no primitive. *)
Definition cannot_convert : value :=
  TypeError "Cannot convert object to primitive value".

(** ToString, as a template literal applies it.  The values of the model
    hold no function: an object with an own [toString] property hides
    [Object.prototype.toString] behind a value that cannot be called, and
    [valueOf] returns the object itself, so that the conversion throws;
    without one it prints as "[object Object]".  An array is joined. *)
Fixpoint to_string (v : value) : outcome string :=
  match v with
  | VUndefined => Normal "undefined"
  | VNull => Normal "null"
  | VBool true => Normal "true"
  | VBool false => Normal "false"
  | VNum x => Normal (number_to_string x)
  | VStr s => Normal s
  | VArr items =>
      (fix join (l : list value) : outcome string :=
         match l with
         | [] => Normal ""
         | x :: rest =>
             match (if nullish x then Normal "" else to_string x) with
             | Thrown e => Thrown e
             | Normal s =>
                 match rest with
                 | [] => Normal s
                 | _ => match join rest with
                        | Normal t => Normal (s ++ "," ++ t)
                        | Thrown e => Thrown e
                        end
                 end
             end
         end) items
  | VObj fields =>
      match lookup "toString" fields with
      | Some _ => Thrown cannot_convert
      | None => Normal "[object Object]"
      end
  end.

(** ToNumber, as [*] applies it to an operand. *)
Definition to_number (v : value) : outcome number :=
  match v with
  | VUndefined => Normal S754_nan
  | VNull => Normal (S754_zero false)
  | VBool true => Normal (Num.of_Z 1)
  | VBool false => Normal (S754_zero false)
  | VNum x => Normal x
  | VStr s => Normal (StringToNumber s)
  | VArr _ | VObj _ =>
      match to_string v with
      | Normal s => Normal (StringToNumber s)
      | Thrown e => Thrown e
      end
  end.

(** How an error message shows a primitive value. *)
Definition primitive_text (v : value) : string :=
  match v with
  | VUndefined => "undefined"
  | VNull => "null"
  | VBool true => "true"
  | VBool false => "false"
  | VNum x => number_to_string x
  | VStr s => s
  | VArr _ | VObj _ => ""
  end.

(** [k in v], for a key [k] that no built-in prototype defines and that is
    neither an index nor [length]: a type error on a primitive. *)
Definition has_property (k : string) (v : value) : outcome bool :=
  match v with
  | VObj fields =>
      Normal (match lookup k fields with Some _ => true | None => false end)
  | VArr _ => Normal false
  | _ => Thrown (TypeError ("Cannot use 'in' operator to search for '" ++ k
                            ++ "' in " ++ primitive_text v))
  end.

(** The members of an object and the elements of an array in JSON, given
    the serialization of values: a property without a serialization is left
    out, an element without one is written [null]. *)
Definition json_members (serialize : value -> option string)
  : list (string * value) -> list string :=
  fix members (l : list (string * value)) : list string :=
    match l with
    | [] => []
    | (k, x) :: rest =>
        match serialize x with
        | Some t => (json_quote k ++ ":" ++ t) :: members rest
        | None => members rest
        end
    end.

Definition json_elements (serialize : value -> option string)
  : list value -> list string :=
  fix elements (l : list value) : list string :=
    match l with
    | [] => []
    | x :: rest =>
        match serialize x with
        | Some t => t
        | None => "null"
        end :: elements rest
    end.

(** [JSON.stringify v], without indentation: [None] stands for the result
    [undefined], which only [undefined] has here (the values hold no
    function and no [toJSON] method).  A number that is not finite is
    written [null]. *)
Fixpoint JSON_stringify (v : value) : option string :=
  match v with
  | VUndefined => None
  | VNull => Some "null"
  | VBool true => Some "true"
  | VBool false => Some "false"
  | VNum x =>
      Some (match x with
            | S754_nan | S754_infinity _ => "null"
            | _ => number_to_string x
            end)
  | VStr s => Some (json_quote s)
  | VArr items =>
      Some ("[" ++ String.concat "," (json_elements JSON_stringify items) ++ "]")
  | VObj fields =>
      Some ("{" ++ String.concat "," (json_members JSON_stringify fields) ++ "}")
  end.

End Conversions.

(** ** Operations on the environment *)

(** A browser instance started by puppeteer, named by a handle. *)
Definition browser : Type := nat.

(** The two fields of a parsed WHATWG URL that the program reads. *)
Record URL : Type := { pathname : string; port : string }.

(** What the handler reads of an incoming request. *)
Record request : Type := {
  req_method : string;
  req_url : string;
  req_host : option string
}.

(** One constructor per call that leaves the program; the index is the type
    of what the environment answers.  Calls that may throw, and promises,
    answer an [outcome]. *)
Inductive effect : Type -> Type :=
| ConsoleLog (args : list value) : effect unit
| ConsoleError (args : list value) : effect unit
| SetHeader (name val : string) : effect unit
| WriteHead (status : Z) (headers : list (string * string)) : effect unit
    (* [End (Some data)] is [res.end(JSON.stringify(data))], [End None] is [res.end()] *)
| End (body : option value) : effect unit
| NewURL (input : value) (base : option string) : effect (outcome URL)
| DateNow : effect Z
| MathRandom : effect number
| DateToISOString : effect string
| ParseJSONBody : effect (outcome value)
| Launch (options : value) : effect (outcome browser)
| WsEndpoint (b : browser) : effect string
| Lighthouse (url flags : value) : effect (outcome value)
| Close (b : browser) : effect (outcome unit)
| AxiosPost (url : string) (data : value) : effect (outcome value)
    (* a rejected promise that nothing handles: Node reports it on the
       process and, by default, terminates *)
| UnhandledRejection (reason : value) : effect unit.

(** Effectful code: it returns, throws, or performs an operation and goes on
    with the answer. *)
Inductive prog (A : Type) : Type :=
| Ret (a : A)
| Throw (e : value)
| Vis {X : Type} (op : effect X) (k : X -> prog A).
Arguments Ret {A} a.
Arguments Throw {A} e.
Arguments Vis {A X} op k.

Fixpoint bind {A B : Type} (p : prog A) (f : A -> prog B) : prog B :=
  match p with
  | Ret a => f a
  | Throw e => Throw e
  | Vis op k => Vis op (fun x => bind (k x) f)
  end.

Declare Scope prog_scope.
Delimit Scope prog_scope with prog.
Bind Scope prog_scope with prog.
Notation "x <- p ;; q" := (bind p (fun x => q))
  (at level 61, p at next level, right associativity) : prog_scope.
Notation "p ;; q" := (bind p (fun _ => q))
  (at level 61, right associativity) : prog_scope.
Local Open Scope prog_scope.

(** [try { p } catch (e) { h e }]. *)
Fixpoint try_catch {A : Type} (p : prog A) (h : value -> prog A) : prog A :=
  match p with
  | Ret a => Ret a
  | Throw e => h e
  | Vis op k => Vis op (fun x => try_catch (k x) h)
  end.

(** [try { p } finally { f }]: [f] runs on both exits of [p]; when [f]
    itself throws, that exception replaces the completion of [p]. *)
Fixpoint try_finally {A : Type} (p : prog A) (f : prog unit) : prog A :=
  match p with
  | Ret a => f ;; Ret a
  | Throw e => f ;; Throw e
  | Vis op k => Vis op (fun x => try_finally (k x) f)
  end.

Definition lift {A : Type} (r : outcome A) : prog A :=
  match r with
  | Normal a => Ret a
  | Thrown e => Throw e
  end.

(** A call that cannot fail. *)
Definition perform {X : Type} (op : effect X) : prog X := Vis op Ret.

(** A synchronous call that may throw. *)
Definition call {A : Type} (op : effect (outcome A)) : prog A := Vis op lift.

(** [await] of the promise an asynchronous call returns: the function is
    suspended here, and resumes with the value or with the rejection
    thrown. *)
Definition await {A : Type} (op : effect (outcome A)) : prog A := Vis op lift.

(** A promise that is neither awaited nor returned: its operations take
    place, in order, but its completion reaches nobody; a rejection is
    reported as unhandled. *)
Definition fire_and_forget {A : Type} (p : prog A) : prog unit :=
  try_catch (p ;; Ret tt) (fun e => perform (UnhandledRejection e)).

(** [entries.forEach(f)]. *)
Fixpoint forEach {A : Type} (l : list A) (f : A -> prog unit) : prog unit :=
  match l with
  | [] => Ret tt
  | x :: rest => f x ;; forEach rest f
  end.

(** ** Runs and traces *)

(** An operation together with the answer it received. *)
Inductive event : Type :=
| Event {X : Type} (op : effect X) (answer : X).

(** The environment, as one request sees it: the answer to each operation.
    Within the handling of one request no operation with an answer other
    than [tt] is performed twice, but for [NewURL], which is a function of
    its arguments; the runs of different requests take different oracles.
    An oracle answers every operation: [run] describes the executions in
    which every promise settles, [run_pending] the others. *)
Definition oracle : Type := forall X : Type, effect X -> X.

Fixpoint run {A : Type} (o : oracle) (p : prog A) : list event * outcome A :=
  match p with
  | Ret a => ([], Normal a)
  | Throw e => ([], Thrown e)
  | Vis op k =>
      let x := o _ op in
      let (tr, r) := run o (k x) in
      (Event op x :: tr, r)
  end.

(** The operations performed, in program order.  Operations of different
    requests may interleave at the awaits; those of one request occur in
    the order of its trace. *)
Definition trace {A : Type} (o : oracle) (p : prog A) : list event :=
  fst (run o p).

Definition completion {A : Type} (o : oracle) (p : prog A) : outcome A :=
  snd (run o p).

(** The operations that return a promise. *)
Definition is_promise {X : Type} (op : effect X) : bool :=
  match op with
  | ParseJSONBody | Launch _ | Lighthouse _ _ | Close _ | AxiosPost _ _ => true
  | _ => false
  end.

(** An execution in which the promises selected by [never] do not settle:
    [parseJSONBody] settles only on the ['end'] event of the request, and
    nothing bounds the time that puppeteer, lighthouse or axios take.  The
    function that awaits such a promise stays suspended: the run stops
    there, without a completion.  Each detached promise of the program
    ([fire_and_forget]) is the last thing its caller does, so that nothing
    of the caller is left to run past the suspension. *)
Fixpoint run_pending {A : Type} (o : oracle) (never : forall X : Type, effect X -> bool)
         (p : prog A) : list event * option (outcome A) :=
  match p with
  | Ret a => ([], Some (Normal a))
  | Throw e => ([], Some (Thrown e))
  | Vis op k =>
      if is_promise op && never _ op then ([], None)
      else
        let x := o _ op in
        let (tr, r) := run_pending o never (k x) in
        (Event op x :: tr, r)
  end.

(** *** What a trace shows *)

(** Writes to the HTTP response. *)
Definition writes_response (ev : event) : bool :=
  match ev with
  | Event op _ =>
      match op with
      | SetHeader _ _ | WriteHead _ _ | End _ => true
      | _ => false
      end
  end.

(** Operations on the browser and on the audit engine. *)
Definition engine_operation (ev : event) : bool :=
  match ev with
  | Event op _ =>
      match op with
      | Launch _ | WsEndpoint _ | Lighthouse _ _ | Close _ => true
      | _ => false
      end
  end.

(** Operations of the audit and of the delivery. *)
Definition audit_operation (ev : event) : bool :=
  match ev with
  | Event op _ =>
      match op with
      | Launch _ | WsEndpoint _ | Lighthouse _ _ | Close _ | AxiosPost _ _ => true
      | _ => false
      end
  end.

(** The browser an operation acts on. *)
Definition browser_of (ev : event) : option browser :=
  match ev with
  | Event op _ =>
      match op with
      | WsEndpoint b | Close b => Some b
      | _ => None
      end
  end.

Definition is_unhandled (ev : event) : bool :=
  match ev with
  | Event op _ => match op with UnhandledRejection _ => true | _ => false end
  end.

(** The requests sent to the collector: address and payload. *)
Fixpoint posts (tr : list event) : list (string * value) :=
  match tr with
  | [] => []
  | Event op _ :: rest =>
      match op with
      | AxiosPost url data => (url, data) :: posts rest
      | _ => posts rest
      end
  end.

(** The status lines and bodies written to the HTTP response. *)
Fixpoint statuses (tr : list event) : list Z :=
  match tr with
  | [] => []
  | Event op _ :: rest =>
      match op with
      | WriteHead status _ => status :: statuses rest
      | _ => statuses rest
      end
  end.

Fixpoint bodies (tr : list event) : list (option value) :=
  match tr with
  | [] => []
  | Event op _ :: rest =>
      match op with
      | End body => body :: bodies rest
      | _ => bodies rest
      end
  end.

(** The arguments of each [console.error]. *)
Fixpoint errors_logged (tr : list event) : list (list value) :=
  match tr with
  | [] => []
  | Event op _ :: rest =>
      match op with
      | ConsoleError args => args :: errors_logged rest
      | _ => errors_logged rest
      end
  end.

(** The arguments of each [console.log]. *)
Fixpoint lines_logged (tr : list event) : list (list value) :=
  match tr with
  | [] => []
  | Event op _ :: rest =>
      match op with
      | ConsoleLog args => args :: lines_logged rest
      | _ => lines_logged rest
      end
  end.

(** The calls of the audit engine: page and flags. *)
Fixpoint engine_calls (tr : list event) : list (value * value) :=
  match tr with
  | [] => []
  | Event op _ :: rest =>
      match op with
      | Lighthouse url flags => (url, flags) :: engine_calls rest
      | _ => engine_calls rest
      end
  end.

(** ** The program: [src/index.ts] *)

Section Program.
Context `{Runtime}.

(** [process.env.API_URL || 'http://localhost:3000'] *)
Definition API_URL : string :=
  match process_env "API_URL" with
  | Some s => if String.eqb s "" then "http://localhost:3000" else s
  | None => "http://localhost:3000"
  end.

Definition launch_options : value :=
  VObj [("headless", VBool true);
        ("args", VArr [VStr "--no-sandbox"; VStr "--disable-setuid-sandbox"])].

Definition default_categories : value :=
  VArr [VStr "performance"; VStr "accessibility"; VStr "best-practices"; VStr "seo"].

(** The default of the parameter [options = {}]. *)
Definition default_options (options : value) : value :=
  match options with
  | VUndefined => VObj []
  | _ => options
  end.

(** The flags object of the [lighthouse] call: three fixed keys, then the
    caller's options spread over them. *)
Definition lighthouse_flags (endpoint : URL) (options : value) : value :=
  spread [("port", VNum (StringToNumber (port endpoint)));
          ("output", VStr "json");
          ("onlyCategories", default_categories)] options.

(** [runnerResult && 'lhr' in runnerResult ? runnerResult.lhr : undefined] *)
Definition lhr_of (runnerResult : value) : outcome value :=
  if truthy runnerResult then
    match has_property "lhr" runnerResult with
    | Normal true => get runnerResult "lhr"
    | Normal false => Normal VUndefined
    | Thrown e => Thrown e
    end
  else Normal VUndefined.

(** The [try] block of [executeLighthouse]. *)
Definition executeLighthouse_try (browser : browser) (url options : value)
  : prog value :=
  ws <- perform (WsEndpoint browser) ;;
  endpoint <- call (NewURL (VStr ws) None) ;;
  runnerResult <- await (Lighthouse url (lighthouse_flags endpoint options)) ;;
  lhr <- lift (lhr_of runnerResult) ;;
  Ret lhr.

(** [async function executeLighthouse(url, options = {})] *)
Definition executeLighthouse (url options : value) : prog value :=
  let options := default_options options in
  browser <- await (Launch launch_options) ;;
  try_finally
    (executeLighthouse_try browser url options)
    (await (Close browser)).

(** The tier mark of a rounded score. *)
Definition emoji_of (score : number) : string :=
  if Num.geb score (Num.of_Z 90) then "🟢"
  else if Num.geb score (Num.of_Z 50) then "🟡"
  else "🔴".

(** [Math.round((data.score || 0) * 100)] on the value read from
    [data.score]; the multiplication converts its operand to a number. *)
Definition score_of (raw : value) : outcome number :=
  match to_number (or_else raw (VNum (Num.of_Z 0))) with
  | Normal x => Normal (Math_round (Num.mul x (Num.of_Z 100)))
  | Thrown e => Thrown e
  end.

(** The body of the [forEach] callback over [Object.entries(results.categories)]. *)
Definition log_category (entry : string * value) : prog unit :=
  let (category, data) := entry in
  raw <- lift (get data "score") ;;
  score <- lift (score_of raw) ;;
  let emoji := emoji_of score in
  perform (ConsoleLog
    [VStr ("  " ++ emoji ++ " " ++ category ++ ": " ++ number_to_string score ++ "/100")]).

(** [results.audits?.[id]?.displayValue || 'N/A'], once [results] is known
    not to be [undefined] or [null]. *)
Definition metric (audits : value) (id : string) : value :=
  or_else (get_opt (get_opt audits id) "displayValue") (VStr "N/A").

(** The summary of the scores: the header lines and one line per
    category. *)
Definition log_scores (testId : string) (results : value) : prog unit :=
  perform (ConsoleLog [VStr "📊 Résultats Lighthouse pour"; VStr testId; VStr ":"]) ;;
  finalUrl <- lift (get results "finalUrl") ;;
  tested <- (if truthy finalUrl then Ret finalUrl
             else lift (get results "requestedUrl")) ;;
  perform (ConsoleLog [VStr "URL testée:"; tested]) ;;
  perform (ConsoleLog [VStr "Scores:"]) ;;
  categories <- lift (get results "categories") ;;
  if truthy categories
  then forEach (Object_entries categories) log_category
  else Ret tt.

(** The summary of the three metrics; each template literal converts its
    metric to a string when its line is printed. *)
Definition log_metrics (results : value) : prog unit :=
  audits <- lift (get results "audits") ;;
  let fcp := metric audits "first-contentful-paint" in
  let lcp := metric audits "largest-contentful-paint" in
  let totalSize := metric audits "total-byte-weight" in
  perform (ConsoleLog [VStr "⚡ Métriques de performance:"]) ;;
  fcp <- lift (to_string fcp) ;;
  perform (ConsoleLog [VStr ("  First Contentful Paint: " ++ fcp)]) ;;
  lcp <- lift (to_string lcp) ;;
  perform (ConsoleLog [VStr ("  Largest Contentful Paint: " ++ lcp)]) ;;
  totalSize <- lift (to_string totalSize) ;;
  perform (ConsoleLog [VStr ("  Taille totale: " ++ totalSize)]) ;;
  perform (ConsoleLog [VStr "---"]).

(** The body of the request to the collector. *)
Definition envelope (testId : string) (results : value) (timestamp : string) : value :=
  VObj [("testId", VStr testId);
        ("results", results);
        ("timestamp", VStr timestamp)].

(** [`${API_URL}/api/lighthouse/results`] *)
Definition collector_endpoint : string := API_URL ++ "/api/lighthouse/results".

(** The call to the collector and the line that follows it. *)
Definition post_results (testId : string) (results : value) : prog unit :=
  timestamp <- perform DateToISOString ;;
  await (AxiosPost collector_endpoint (envelope testId results timestamp)) ;;
  perform (ConsoleLog [VStr "✅ Résultats envoyés avec succès à l'API"]).

(** [async function sendResultsToAPI(testId, results)] *)
Definition sendResultsToAPI (testId : string) (results : value) : prog unit :=
  try_catch
    (log_scores testId results ;;
     log_metrics results ;;
     post_results testId results)
    (fun error =>
       perform (ConsoleError
         [VStr "❌ Erreur lors de l'envoi des résultats à l'API:"; error])).

(** [function sendJSONResponse(res, data, statusCode = 200)] *)
Definition sendJSONResponse (data : value) (statusCode : Z) : prog unit :=
  perform (WriteHead statusCode [("Content-Type", "application/json")]) ;;
  perform (End (Some data)).

(** [Math.random().toString(36).substr(2, 9)] on the number drawn. *)
Definition suffix (random : number) : string :=
  substring 2 9 (Number_toString36 random).

(** [`test_${Date.now()}_${Math.random().toString(36).substr(2, 9)}`] *)
Definition make_testId (now : Z) (random : number) : string :=
  "test_" ++ decimal now ++ "_" ++ suffix random.

(** The detached promise chain
    [executeLighthouse(url, options).then(...).catch(...)]. *)
Definition background_job (testId : string) (url options : value) : prog unit :=
  fire_and_forget
    (try_catch
       (results <- executeLighthouse url options ;;
        perform (ConsoleLog [VStr "🎯 Test Lighthouse terminé pour"; VStr testId]) ;;
        fire_and_forget (sendResultsToAPI testId results))
       (fun error =>
          message <- lift (get error "message") ;;
          perform (ConsoleError
            [VStr "❌ Erreur Lighthouse pour"; VStr testId; VStr ":"; message]))).

(** The body of the immediate answer to an accepted request. *)
Definition accepted (testId : string) : value :=
  VObj [("id", VStr testId);
        ("status", VStr "pending");
        ("message", VStr "Test Lighthouse en cours...")].

(** The [POST /analyze] branch of the request handler. *)
Definition analyze : prog unit :=
  body <- await ParseJSONBody ;;
  url <- lift (get body "url") ;;
  if negb (truthy url) then
    sendJSONResponse (VObj [("error", VStr "URL requise")]) 400
  else
    valid <- try_catch (call (NewURL url None) ;; Ret true) (fun _ => Ret false) ;;
    if negb valid then
      sendJSONResponse (VObj [("error", VStr "URL invalide")]) 400
    else
      now <- perform DateNow ;;
      random <- perform MathRandom ;;
      let testId := make_testId now random in
      perform (ConsoleLog
        [VStr "🚀 Démarrage du test Lighthouse pour:"; url; VStr "(ID:";
         VStr testId; VStr ")"]) ;;
      sendJSONResponse (accepted testId) 200 ;;
      options <- lift (get body "options") ;;
      background_job testId url options.

Definition health : prog unit :=
  timestamp <- perform DateToISOString ;;
  sendJSONResponse
    (VObj [("status", VStr "OK");
           ("timestamp", VStr timestamp);
           ("service", VStr "Lighthouse Microservice")]) 200.

Definition not_found : prog unit :=
  sendJSONResponse
    (VObj [("error", VStr "Endpoint non trouvé");
           ("availableEndpoints",
            VArr [VStr "POST /analyze - Lancer un test Lighthouse";
                  VStr "GET /health - Vérification de santé"])]) 404.

(** [`http://${req.headers.host}`] *)
Definition request_base (req : request) : string :=
  "http://" ++ match req_host req with
               | Some h => h
               | None => "undefined"
               end.

(** The listener given to [createServer]. *)
Definition requestHandler (req : request) : prog unit :=
  perform (SetHeader "Access-Control-Allow-Origin" "*") ;;
  perform (SetHeader "Access-Control-Allow-Methods" "GET, POST, OPTIONS") ;;
  perform (SetHeader "Access-Control-Allow-Headers" "Content-Type") ;;
  if String.eqb (req_method req) "OPTIONS" then
    perform (WriteHead 200 []) ;;
    perform (End None)
  else
    url <- call (NewURL (VStr (req_url req)) (Some (request_base req))) ;;
    let path := pathname url in
    try_catch
      (if String.eqb (req_method req) "POST" && String.eqb path "/analyze" then
         analyze
       else if String.eqb (req_method req) "GET" && String.eqb path "/health" then
         health
       else
         not_found)
      (fun error =>
         perform (ConsoleError [VStr "❌ Erreur serveur:"; error]) ;;
         sendJSONResponse (VObj [("error", VStr "Erreur interne du serveur")]) 500).

(** One ['request'] event: the server calls the listener and drops the
    promise it returns. *)
Definition on_request (req : request) : prog unit :=
  fire_and_forget (requestHandler req).

End Program.

(** ** Vocabulary of the statements *)

(** The tier of an integer score: good from 90, medium from 50, poor
    below. *)
Definition tier (n : Z) : string :=
  if (90 <=? n)%Z then "🟢" else if (50 <=? n)%Z then "🟡" else "🔴".

(** The line of the summary for a category with integer score [n]. *)
Definition score_line (category : string) (n : Z) : string :=
  "  " ++ tier n ++ " " ++ category ++ ": " ++ decimal n ++ "/100".

(** A field of an object, when the value is an object that has it. *)
Definition field (v : value) (k : string) : option value :=
  match v with
  | VObj fields => lookup k fields
  | _ => None
  end.

(** The display value of an audit of a report, when the report has audits,
    the audit is among them and it has a display value. *)
Definition display_value (results : value) (id : string) : option value :=
  match field results "audits" with
  | Some audits =>
      match field audits id with
      | Some audit => field audit "displayValue"
      | None => None
      end
  | None => None
  end.

(** [contains needle s]: the string [needle] occurs in [s]. *)
Fixpoint contains (needle s : string) : bool :=
  prefix needle s
  || match s with
     | EmptyString => false
     | String _ rest => contains needle rest
     end.

(** [mentions needle v]: a string or a key inside [v] contains [needle]. *)
Fixpoint mentions (needle : string) (v : value) : bool :=
  match v with
  | VStr s => contains needle s
  | VArr items => existsb (mentions needle) items
  | VObj fields =>
      existsb (fun kv => contains needle (fst kv) || mentions needle (snd kv)) fields
  | _ => false
  end.

(** The operations every request starts with: the three CORS headers and
    the parsing of the request target. *)
Definition preamble (req : request) (answer : outcome URL) : list event :=
  [Event (SetHeader "Access-Control-Allow-Origin" "*") tt;
   Event (SetHeader "Access-Control-Allow-Methods" "GET, POST, OPTIONS") tt;
   Event (SetHeader "Access-Control-Allow-Headers" "Content-Type") tt;
   Event (NewURL (VStr (req_url req)) (Some (request_base req))) answer].

(** The two operations of [sendJSONResponse]. *)
Definition response (data : value) (status : Z) : list event :=
  [Event (WriteHead status [("Content-Type", "application/json")]) tt;
   Event (End (Some data)) tt].

(** What the outer [catch] of the listener does with an error. *)
Definition server_error (error : value) : list event :=
  Event (ConsoleError [VStr "❌ Erreur serveur:"; error]) tt
  :: response (VObj [("error", VStr "Erreur interne du serveur")]) 500.

(** The operations of [analyze] up to the immediate answer, for a request
    that is accepted at time [now] with random number [random]. *)
Definition acceptance (body url : value) (target : URL) (now : Z)
                      (random : number) (testId : string) : list event :=
  [Event ParseJSONBody (Normal body);
   Event (NewURL url None) (Normal target);
   Event DateNow now;
   Event MathRandom random;
   Event (ConsoleLog [VStr "🚀 Démarrage du test Lighthouse pour:"; url;
                      VStr "(ID:"; VStr testId; VStr ")"]) tt].

(** The entry that [sendResultsToAPI] logs for an error. *)
Definition delivery_error (error : value) : event :=
  Event (ConsoleError
           [VStr "❌ Erreur lors de l'envoi des résultats à l'API:"; error]) tt.

(** The browsers closed, in order. *)
Fixpoint closed (tr : list event) : list browser :=
  match tr with
  | [] => []
  | Event op _ :: rest =>
      match op with
      | Close b => b :: closed rest
      | _ => closed rest
      end
  end.

Fixpoint has_char (c : ascii) (s : string) : bool :=
  match s with
  | EmptyString => false
  | String c' rest => Ascii.eqb c c' || has_char c rest
  end.

(** The five lines of the summary of the metrics. *)
Definition metric_lines (fcp lcp totalSize : string) : list event :=
  [Event (ConsoleLog [VStr "⚡ Métriques de performance:"]) tt;
   Event (ConsoleLog [VStr ("  First Contentful Paint: " ++ fcp)]) tt;
   Event (ConsoleLog [VStr ("  Largest Contentful Paint: " ++ lcp)]) tt;
   Event (ConsoleLog [VStr ("  Taille totale: " ++ totalSize)]) tt;
   Event (ConsoleLog [VStr "---"]) tt].

(** The entry that the background job logs when the audit fails. *)
Definition audit_error (testId : string) (message : value) : event :=
  Event (ConsoleError [VStr "❌ Erreur Lighthouse pour"; VStr testId;
                       VStr ":"; message]) tt.

Definition is_post (ev : event) : bool :=
  match ev with
  | Event op _ => match op with AxiosPost _ _ => true | _ => false end
  end.

Definition is_console (ev : event) : bool :=
  match ev with
  | Event op _ =>
      match op with
      | ConsoleLog _ | ConsoleError _ => true
      | _ => false
      end
  end.

(** A score as the data model has it: a well-formed double between 0 and
    1. *)
Definition unit_score (data : value) (x : number) : Prop :=
  get data "score" = Normal (VNum x) /\
  well_formed x = true /\ Num.leb (of_Z 0) x = true /\ Num.leb x (of_Z 1) = true.

(** [nearest_integer x n]: the integer [n] is the one nearest to the double
    [x = (-1)^s * m * 2^e], a half going up: [n - 1/2 <= x < n + 1/2]. *)
Definition nearest_integer (x : number) (n : Z) : Prop :=
  match x with
  | S754_zero _ => n = 0
  | S754_finite s m e =>
      if 0 <=? e then n = cond_Zopp s (Zpos m) * 2 ^ e
      else (2 * n - 1) * 2 ^ (- e) <= 2 * cond_Zopp s (Zpos m)
           /\ 2 * cond_Zopp s (Zpos m) < (2 * n + 1) * 2 ^ (- e)
  | _ => False
  end.

(** The percentage of a category: the score of the entry times 100, as a
    double, rounded to the nearest integer; 0 for an entry without a
    score. *)
Definition percentage (data : value) (n : Z) : Prop :=
  (exists x, unit_score data x /\ nearest_integer (Num.mul x (of_Z 100)) n) \/
  (nullish data = false /\ nullish (get_opt data "score") = true /\ n = 0).

(** An entry of the categories as the data model has it: an object whose
    score is a number between 0 and 1, or is missing or [null]. *)
Definition well_scored (data : value) : Prop :=
  (exists x, unit_score data x) \/
  (nullish data = false /\ nullish (get_opt data "score") = true).

(** The first three lines of the summary. *)
Definition summary_header (testId : string) (results : value) : list event :=
  [Event (ConsoleLog [VStr "📊 Résultats Lighthouse pour"; VStr testId; VStr ":"]) tt;
   Event (ConsoleLog [VStr "URL testée:";
                      or_else (get_opt results "finalUrl")
                              (get_opt results "requestedUrl")]) tt;
   Event (ConsoleLog [VStr "Scores:"]) tt].

(** An entry of the categories whose line can be printed: it is an object
    (or any value other than [undefined] and [null]) and its score converts
    to a number. *)
Definition printable `{Runtime} (data : value) : Prop :=
  nullish data = false /\
  exists x, to_number (or_else (get_opt data "score") (VNum (of_Z 0))) = Normal x.

(** The text that stands for a metric in the summary: the display value of
    its audit, as a string, and "N/A" when the report has no audits, no
    such audit, or an audit without a display value (none at all, or one
    that is [undefined], [null] or otherwise falsy). *)
Definition metric_text `{Runtime} (results : value) (id : string) : outcome string :=
  match display_value results id with
  | Some v => if truthy v then to_string v else Normal "N/A"
  | None => Normal "N/A"
  end.

(** A metric without a display value. *)
Definition missing (results : value) (id : string) : Prop :=
  match display_value results id with
  | Some v => truthy v = false
  | None => True
  end.

(** The summary of the metrics, from the three texts: the lines are printed
    in order, up to the first text that could not be computed. *)
Definition metrics_summary (fcp lcp totalSize : outcome string)
  : list event * outcome unit :=
  let header := Event (ConsoleLog [VStr "⚡ Métriques de performance:"]) tt in
  match fcp with
  | Thrown e => ([header], Thrown e)
  | Normal a =>
      let first := Event (ConsoleLog [VStr ("  First Contentful Paint: " ++ a)]) tt in
      match lcp with
      | Thrown e => ([header; first], Thrown e)
      | Normal b =>
          let second :=
            Event (ConsoleLog [VStr ("  Largest Contentful Paint: " ++ b)]) tt in
          match totalSize with
          | Thrown e => ([header; first; second], Thrown e)
          | Normal c => (metric_lines a b c, Normal tt)
          end
      end
  end.

(** The address of the collector, from the environment of the process. *)
Definition collector_address `{Runtime} : string :=
  match process_env "API_URL" with
  | Some "" | None => "http://localhost:3000/api/lighthouse/results"
  | Some base => base ++ "/api/lighthouse/results"
  end.

(** What axios guarantees of the rejection of a request: the error carries
    the configuration of the request, whose [data] is the body as it was
    serialized for sending, the JSON text of the payload. *)
Definition axios_rejection `{Runtime} (payload error : value) : Prop :=
  exists config text,
    field error "config" = Some config /\
    field config "data" = Some (VStr text) /\
    JSON_stringify payload = Some text.

(** Every operation of the run of [p] against [o] satisfies [P]. *)
Definition every {A : Type} (o : oracle) (P : event -> Prop) (p : prog A) : Prop :=
  Forall P (fst (run o p)).

(** The three headers set on every response. *)
Definition cors_headers : list event :=
  [Event (SetHeader "Access-Control-Allow-Origin" "*") tt;
   Event (SetHeader "Access-Control-Allow-Methods" "GET, POST, OPTIONS") tt;
   Event (SetHeader "Access-Control-Allow-Headers" "Content-Type") tt].

(** The body of the answer to [GET /health]. *)
Definition health_body (timestamp : string) : value :=
  VObj [("status", VStr "OK");
        ("timestamp", VStr timestamp);
        ("service", VStr "Lighthouse Microservice")].

(** The body of the answer 404. *)
Definition not_found_body : value :=
  VObj [("error", VStr "Endpoint non trouvé");
        ("availableEndpoints",
         VArr [VStr "POST /analyze - Lancer un test Lighthouse";
               VStr "GET /health - Vérification de santé"])].

(** The two tests of the router, on the method and on the parsed path. *)
Definition is_analyze (req : request) (home : URL) : bool :=
  String.eqb (req_method req) "POST" && String.eqb (pathname home) "/analyze".

Definition is_health (req : request) (home : URL) : bool :=
  String.eqb (req_method req) "GET" && String.eqb (pathname home) "/health".

(** The line printed after a fulfilled request to the collector. *)
Definition is_success (ev : event) : bool :=
  match ev with
  | Event op _ =>
      match op with
      | ConsoleLog [VStr s] => String.eqb s "✅ Résultats envoyés avec succès à l'API"
      | _ => false
      end
  end.

(** ** Sample environments and inputs *)

(** The doubles nearest to 0.95, to 0.40 and to 0.57, and one half. *)
Definition double_0_95 : number := S754_finite false 8556839292003942 (-53).
Definition double_0_40 : number := S754_finite false 7205759403792794 (-54).
Definition double_0_57 : number := S754_finite false 5134103575202365 (-53).
Definition one_half : number := S754_finite false 4503599627370496 (-53).

Definition same_double (x y : number) : bool :=
  match SFcompare x y with
  | Some Eq => true
  | _ => false
  end.

(** The value of a string of decimal digits. *)
Fixpoint digits_value (acc : Z) (s : string) : option Z :=
  match s with
  | EmptyString => Some acc
  | String c rest =>
      let n := nat_of_ascii c in
      if Nat.leb 48 n && Nat.leb n 57
      then digits_value (10 * acc + Z.of_nat (n - 48)) rest
      else None
  end.

(** A runtime for the examples.  It agrees with JavaScript on the inputs
    that the examples reach: the decimal numerals of 0.95 and 0.4, the
    radix-36 numeral of one half (18/36), and the number read from a string
    of digits (the port of the browser).  On other inputs, which no
    example reaches, its answers are arbitrary: the empty string, and NaN
    for a string that is not made of digits. *)
Definition sample_runtime : Runtime :=
  {| Number_toString_other := fun x =>
       if same_double x double_0_95 then "0.95"
       else if same_double x double_0_40 then "0.4"
       else "";
     Number_toString36 := fun x =>
       if same_double x one_half then "0.i" else "";
     StringToNumber := fun s =>
       match digits_value 0 s with
       | Some z => Num.of_Z z
       | None => S754_nan
       end;
     process_env := fun _ => None |}.

(** What the environment answers to one request. *)
Record answers : Type := {
  ans_url : value -> option string -> outcome URL;
  ans_now : Z;
  ans_random : number;
  ans_iso : string;
  ans_body : outcome value;
  ans_launch : outcome browser;
  ans_ws : string;
  ans_lighthouse : outcome value;
  ans_close : outcome unit;
  ans_post : outcome value
}.

Definition oracle_of (a : answers) : oracle :=
  fun X op =>
    match op in effect X return X with
    | ConsoleLog _ | ConsoleError _ | SetHeader _ _ | WriteHead _ _
    | End _ | UnhandledRejection _ => tt
    | NewURL input base => ans_url a input base
    | DateNow => ans_now a
    | MathRandom => ans_random a
    | DateToISOString => ans_iso a
    | ParseJSONBody => ans_body a
    | Launch _ => ans_launch a
    | WsEndpoint _ => ans_ws a
    | Lighthouse _ _ => ans_lighthouse a
    | Close _ => ans_close a
    | AxiosPost _ _ => ans_post a
    end.

Definition sample_report : value :=
  VObj [("finalUrl", VStr "https://example.com/");
        ("categories",
         VObj [("performance", VObj [("score", VNum double_0_95)]);
               ("seo", VObj [("score", VNum double_0_40)])]);
        ("audits",
         VObj [("largest-contentful-paint", VObj [("displayValue", VStr "1.2 s")]);
               ("total-byte-weight", VObj [("numericValue", VNum (Num.of_Z 1000))])])].

(** A parser that accepts the strings starting with a scheme of the
    examples and resolves a path against a base. *)
Definition sample_url (input : value) (base : option string) : outcome URL :=
  match input, base with
  | VStr s, Some _ => Normal {| pathname := s; port := "" |}
  | VStr s, None =>
      if prefix "https://" s then Normal {| pathname := "/"; port := "" |}
      else if prefix "ws://" s then Normal {| pathname := "/devtools/browser/1"; port := "9222" |}
      else Thrown (TypeError "Invalid URL")
  | _, _ => Thrown (TypeError "Invalid URL")
  end.

Definition sample_answers : answers :=
  {| ans_url := sample_url;
     ans_now := 1712345678901;
     ans_random := one_half;
     ans_iso := "2024-04-05T19:34:38.901Z";
     ans_body := Normal (VObj [("url", VStr "https://example.com")]);
     ans_launch := Normal 1%nat;
     ans_ws := "ws://127.0.0.1:9222/devtools/browser/1";
     ans_lighthouse := Normal (VObj [("lhr", sample_report)]);
     ans_close := Normal tt;
     ans_post := Normal (VObj [("status", VNum (Num.of_Z 200))]) |}.

Definition with_body (body : outcome value) (a : answers) : answers :=
  {| ans_url := ans_url a; ans_now := ans_now a; ans_random := ans_random a;
     ans_iso := ans_iso a; ans_body := body; ans_launch := ans_launch a;
     ans_ws := ans_ws a; ans_lighthouse := ans_lighthouse a;
     ans_close := ans_close a; ans_post := ans_post a |}.

Definition with_lighthouse (r : outcome value) (a : answers) : answers :=
  {| ans_url := ans_url a; ans_now := ans_now a; ans_random := ans_random a;
     ans_iso := ans_iso a; ans_body := ans_body a; ans_launch := ans_launch a;
     ans_ws := ans_ws a; ans_lighthouse := r;
     ans_close := ans_close a; ans_post := ans_post a |}.

Definition with_launch (r : outcome browser) (a : answers) : answers :=
  {| ans_url := ans_url a; ans_now := ans_now a; ans_random := ans_random a;
     ans_iso := ans_iso a; ans_body := ans_body a; ans_launch := r;
     ans_ws := ans_ws a; ans_lighthouse := ans_lighthouse a;
     ans_close := ans_close a; ans_post := ans_post a |}.

Definition with_post (r : outcome value) (a : answers) : answers :=
  {| ans_url := ans_url a; ans_now := ans_now a; ans_random := ans_random a;
     ans_iso := ans_iso a; ans_body := ans_body a; ans_launch := ans_launch a;
     ans_ws := ans_ws a; ans_lighthouse := ans_lighthouse a;
     ans_close := ans_close a; ans_post := r |}.

Definition sample_request : request :=
  {| req_method := "POST"; req_url := "/analyze"; req_host := Some "localhost:3001" |}.

Definition engine_error : value :=
  VObj [("name", VStr "Error"); ("message", VStr "net::ERR_NAME_NOT_RESOLVED")].

Definition sample_home : URL := {| pathname := "/analyze"; port := "" |}.
Definition sample_target : URL := {| pathname := "/"; port := "" |}.
Definition sample_endpoint : URL :=
  {| pathname := "/devtools/browser/1"; port := "9222" |}.
Definition sample_body : value := VObj [("url", VStr "https://example.com")].
Definition sample_id : string := "test_1712345678901_i".

Definition sample_entries : list (string * value) :=
  [("performance", VObj [("score", VNum double_0_95)]);
   ("seo", VObj [("score", VNum double_0_40)])].

Definition with_close (r : outcome unit) (a : answers) : answers :=
  {| ans_url := ans_url a; ans_now := ans_now a; ans_random := ans_random a;
     ans_iso := ans_iso a; ans_body := ans_body a; ans_launch := ans_launch a;
     ans_ws := ans_ws a; ans_lighthouse := ans_lighthouse a;
     ans_close := r; ans_post := ans_post a |}.

Definition with_url (parse : value -> option string -> outcome URL) (a : answers)
  : answers :=
  {| ans_url := parse; ans_now := ans_now a; ans_random := ans_random a;
     ans_iso := ans_iso a; ans_body := ans_body a; ans_launch := ans_launch a;
     ans_ws := ans_ws a; ans_lighthouse := ans_lighthouse a;
     ans_close := ans_close a; ans_post := ans_post a |}.

Definition health_request : request :=
  {| req_method := "GET"; req_url := "/health"; req_host := Some "localhost:3001" |}.

Definition options_request : request :=
  {| req_method := "OPTIONS"; req_url := "/analyze"; req_host := Some "localhost:3001" |}.

Definition unknown_request : request :=
  {| req_method := "GET"; req_url := "/status"; req_host := Some "localhost:3001" |}.

Definition close_error : value :=
  VObj [("name", VStr "Error"); ("message", VStr "Protocol error: Connection closed")].

Definition broken_report : value :=
  VObj [("finalUrl", VStr "https://example.com/");
        ("categories",
         VObj [("performance", VObj [("score", VNum double_0_95)]);
               ("seo", VNull)])].

(** What a rejection of axios looks like for the request that carries
    [payload]. *)
Definition axios_error (message : string) (address : string) (payload : value) : value :=
  VObj [("name", VStr "AxiosError");
        ("message", VStr message);
        ("code", VStr "ECONNREFUSED");
        ("config",
         VObj [("method", VStr "post");
               ("url", VStr address);
               ("data",
                VStr (match @JSON_stringify sample_runtime payload with
                      | Some text => text
                      | None => ""
                      end))])].

(** The rejection of the request that delivers the sample report. *)
Definition refused_delivery : value :=
  axios_error "connect ECONNREFUSED 127.0.0.1:3000"
    "http://localhost:3000/api/lighthouse/results"
    (VObj [("testId", VStr sample_id);
           ("results", sample_report);
           ("timestamp", VStr "2024-04-05T19:34:38.901Z")]).

(** A report with a category that is [null] before one without a score. *)
Definition report_with_null_category : value :=
  VObj [("finalUrl", VStr "https://example.com/");
        ("categories",
         VObj [("seo", VNull); ("pwa", VObj [("title", VStr "PWA")])])].

(** A runtime that prints every number as "0" in radix 36. *)
Definition zero_runtime : Runtime :=
  {| Number_toString_other := fun _ => "";
     Number_toString36 := fun _ => "0";
     StringToNumber := fun _ => S754_nan;
     process_env := fun _ => None |}.

(** ** Properties of runs *)

Local Open Scope list_scope.

Section Runs.
Variable o : oracle.

Lemma run_bind {A B : Type} (p : prog A) (f : A -> prog B) :
  run o (bind p f) =
  match run o p with
  | (tr, Normal a) => let (tr', r) := run o (f a) in (tr ++ tr', r)
  | (tr, Thrown e) => (tr, Thrown e)
  end.
Proof.
  induction p as [a | e | X op k IH]; simpl.
  - destruct (run o (f a)); reflexivity.
  - reflexivity.
  - rewrite IH. destruct (run o (k (o X op))) as [tr [a | e]].
    + destruct (run o (f a)); reflexivity.
    + reflexivity.
Qed.

Lemma run_try_catch {A : Type} (p : prog A) (h : value -> prog A) :
  run o (try_catch p h) =
  match run o p with
  | (tr, Normal a) => (tr, Normal a)
  | (tr, Thrown e) => let (tr', r) := run o (h e) in (tr ++ tr', r)
  end.
Proof.
  induction p as [a | e | X op k IH]; simpl.
  - reflexivity.
  - destruct (run o (h e)); reflexivity.
  - rewrite IH. destruct (run o (k (o X op))) as [tr [a | e]].
    + reflexivity.
    + destruct (run o (h e)); reflexivity.
Qed.

Lemma run_try_finally {A : Type} (p : prog A) (f : prog unit) :
  run o (try_finally p f) =
  let (tr, r) := run o p in
  let (tr', r') := run o f in
  (tr ++ tr', match r' with Normal _ => r | Thrown e => Thrown e end).
Proof.
  induction p as [a | e | X op k IH]; simpl.
  - rewrite run_bind. destruct (run o f) as [tr [[] | e]]; simpl.
    + rewrite List.app_nil_r. reflexivity.
    + reflexivity.
  - rewrite run_bind. destruct (run o f) as [tr [[] | e']]; simpl.
    + rewrite List.app_nil_r. reflexivity.
    + reflexivity.
  - rewrite IH. destruct (run o (k (o X op))) as [tr r].
    destruct (run o f) as [tr' r']. reflexivity.
Qed.

Lemma unit_answer (op : effect unit) : o unit op = tt.
Proof. destruct (o unit op). reflexivity. Qed.

Lemma run_fire_and_forget {A : Type} (p : prog A) :
  run o (fire_and_forget p) =
  match run o p with
  | (tr, Normal _) => (tr, Normal tt)
  | (tr, Thrown e) => (tr ++ [Event (UnhandledRejection e) tt], Normal tt)
  end.
Proof.
  unfold fire_and_forget. rewrite run_try_catch, run_bind.
  destruct (run o p) as [tr [a | e]]; simpl.
  - rewrite List.app_nil_r. reflexivity.
  - rewrite unit_answer. reflexivity.
Qed.

End Runs.

(** ** Runs with promises that never settle *)

Section Pending.
Variable o : oracle.
Variable never : forall X : Type, effect X -> bool.

Lemma run_pending_bind {A B : Type} (p : prog A) (f : A -> prog B) :
  run_pending o never (bind p f) =
  match run_pending o never p with
  | (tr, Some (Normal a)) =>
      let (tr', r) := run_pending o never (f a) in (tr ++ tr', r)
  | (tr, Some (Thrown e)) => (tr, Some (Thrown e))
  | (tr, None) => (tr, None)
  end.
Proof.
  induction p as [a | e | X op k IH]; simpl.
  - destruct (run_pending o never (f a)); reflexivity.
  - reflexivity.
  - destruct (is_promise op && never X op); [reflexivity |].
    rewrite IH. destruct (run_pending o never (k (o X op))) as [tr [[a | e] |]].
    + destruct (run_pending o never (f a)); reflexivity.
    + reflexivity.
    + reflexivity.
Qed.

Lemma run_pending_try_catch {A : Type} (p : prog A) (h : value -> prog A) :
  run_pending o never (try_catch p h) =
  match run_pending o never p with
  | (tr, Some (Thrown e)) =>
      let (tr', r) := run_pending o never (h e) in (tr ++ tr', r)
  | other => other
  end.
Proof.
  induction p as [a | e | X op k IH]; simpl.
  - reflexivity.
  - destruct (run_pending o never (h e)); reflexivity.
  - destruct (is_promise op && never X op); [reflexivity |].
    rewrite IH. destruct (run_pending o never (k (o X op))) as [tr [[a | e] |]].
    + reflexivity.
    + destruct (run_pending o never (h e)); reflexivity.
    + reflexivity.
Qed.

Lemma run_pending_perform {X : Type} (op : effect X) :
  is_promise op = false ->
  run_pending o never (perform op) = ([Event op (o _ op)], Some (Normal (o _ op))).
Proof. intros Hp. simpl. rewrite Hp. reflexivity. Qed.

Lemma run_pending_call {A : Type} (op : effect (outcome A)) :
  is_promise op = false ->
  run_pending o never (call op) = ([Event op (o _ op)], Some (o _ op)).
Proof. intros Hp. simpl. rewrite Hp. simpl. destruct (o _ op); reflexivity. Qed.

Lemma run_pending_try_finally {A : Type} (p : prog A) (f : prog unit) :
  run_pending o never (try_finally p f) =
  match run_pending o never p with
  | (tr, Some r) =>
      let (tr', r') := run_pending o never f in
      (tr ++ tr', match r' with
                  | Some (Normal _) => Some r
                  | Some (Thrown e) => Some (Thrown e)
                  | None => None
                  end)
  | (tr, None) => (tr, None)
  end.
Proof.
  induction p as [a | e | X op k IH]; simpl.
  - rewrite run_pending_bind.
    destruct (run_pending o never f) as [tr [[[] | e] |]]; simpl;
      rewrite ?List.app_nil_r; reflexivity.
  - rewrite run_pending_bind.
    destruct (run_pending o never f) as [tr [[[] | e'] |]]; simpl;
      rewrite ?List.app_nil_r; reflexivity.
  - destruct (is_promise op && never X op); [reflexivity |].
    rewrite IH. destruct (run_pending o never (k (o X op))) as [tr [r |]].
    + destruct (run_pending o never f) as [tr' r']. reflexivity.
    + reflexivity.
Qed.

Lemma run_pending_await {A : Type} (op : effect (outcome A)) :
  never _ op = false ->
  run_pending o never (await op) = ([Event op (o _ op)], Some (o _ op)).
Proof.
  intros Hn. simpl. rewrite Hn, andb_false_r. simpl. destruct (o _ op); reflexivity.
Qed.

Lemma run_pending_await_never {A : Type} (op : effect (outcome A)) :
  is_promise op = true -> never _ op = true ->
  run_pending o never (await op) = ([], None).
Proof. intros Hp Hn. simpl. rewrite Hp, Hn. reflexivity. Qed.

(** What happens before a suspension is the beginning of what happens when
    every promise settles. *)
Lemma run_pending_prefix {A : Type} (p : prog A) :
  exists rest, fst (run o p) = fst (run_pending o never p) ++ rest.
Proof.
  induction p as [a | e | X op k IH]; simpl.
  - exists []. reflexivity.
  - exists []. reflexivity.
  - destruct (is_promise op && never X op).
    + eexists. reflexivity.
    + destruct (IH (o X op)) as [rest Hrest].
      destruct (run o (k (o X op))) as [tr r].
      destruct (run_pending o never (k (o X op))) as [tr' r'].
      cbn [fst] in *. exists rest. rewrite Hrest. reflexivity.
Qed.

End Pending.

(** ** Rounding of binary64 products

    [Num.mul] rounds the exact product to the nearest double.  For a score
    between 0 and 1 the rounded product stays between 0 and 100, so that
    [Math.round] yields an integer percentage. *)

Lemma digits2_pos_bounds (p : positive) :
  2 ^ (Zpos (digits2_pos p) - 1) <= Zpos p < 2 ^ Zpos (digits2_pos p).
Proof.
  induction p as [p IH | p IH |]; simpl digits2_pos.
  - rewrite Pos2Z.inj_succ.
    replace (Z.succ (Zpos (digits2_pos p)) - 1) with (Z.succ (Zpos (digits2_pos p) - 1)) by lia.
    rewrite !Z.pow_succ_r by lia. lia.
  - rewrite Pos2Z.inj_succ.
    replace (Z.succ (Zpos (digits2_pos p)) - 1) with (Z.succ (Zpos (digits2_pos p) - 1)) by lia.
    rewrite !Z.pow_succ_r by lia. lia.
  - simpl. lia.
Qed.

Lemma shr_1_m (r : shr_record) :
  0 <= shr_m r -> 0 <= shr_m (shr_1 r) /\ shr_m (shr_1 r) = shr_m r / 2.
Proof.
  destruct r as [m r s]. simpl. intros Hm.
  destruct m as [| [p | p |] | p]; simpl; try lia.
  - split; [lia | reflexivity].
  - split; [lia |]. apply Z.div_unique with (r := 1); lia.
  - split; [lia |]. apply Z.div_unique with (r := 0); lia.
  - split; [lia | reflexivity].
Qed.

Lemma iter_shr_1_m (n : positive) :
  forall r, 0 <= shr_m r ->
    0 <= shr_m (iter_pos shr_1 n r) /\
    shr_m (iter_pos shr_1 n r) = shr_m r / 2 ^ Zpos n.
Proof.
  induction n as [n IH | n IH |]; intros r Hr; simpl iter_pos.
  - destruct (shr_1_m r Hr) as [H0 H1].
    destruct (IH _ H0) as [H2 H3]. destruct (IH _ H2) as [H4 H5].
    split; [exact H4 |].
    assert (E : 2 ^ Z.pos n~1 = 2 * (2 ^ Z.pos n * 2 ^ Z.pos n)).
    { replace (Z.pos n~1) with (1 + Z.pos n + Z.pos n) by lia.
      rewrite !Z.pow_add_r by lia. change (2 ^ 1) with 2. lia. }
    assert (0 < 2 ^ Z.pos n) by (apply Z.pow_pos_nonneg; lia).
    rewrite H5, H3, H1, !Z.div_div, E by lia. reflexivity.
  - destruct (IH _ Hr) as [H2 H3]. destruct (IH _ H2) as [H4 H5].
    split; [exact H4 |].
    assert (E : 2 ^ Z.pos n~0 = 2 ^ Z.pos n * 2 ^ Z.pos n).
    { replace (Z.pos n~0) with (Z.pos n + Z.pos n) by lia.
      rewrite !Z.pow_add_r by lia. change (2 ^ 1) with 2. lia. }
    assert (0 < 2 ^ Z.pos n) by (apply Z.pow_pos_nonneg; lia).
    rewrite H5, H3, !Z.div_div, E by lia. reflexivity.
  - destruct (shr_1_m r Hr) as [H0 H1]. split; [exact H0 |]. rewrite H1. reflexivity.
Qed.

Lemma Zdigits2_le (m k : Z) : 0 <= m -> 0 <= k -> m < 2 ^ k -> Zdigits2 m <= k.
Proof.
  intros Hm Hk Hlt. destruct m as [| p | p]; simpl; try lia.
  destruct (digits2_pos_bounds p) as [Hlo _].
  destruct (Z_le_gt_dec (Zpos (digits2_pos p)) k) as [Hle | Hgt]; [exact Hle |].
  exfalso.
  assert (2 ^ k <= 2 ^ (Zpos (digits2_pos p) - 1)) by (apply Z.pow_le_mono_r; lia).
  lia.
Qed.

Lemma shr_record_of_loc_m (m : Z) (l : location) : shr_m (shr_record_of_loc m l) = m.
Proof. destruct l as [| []]; reflexivity. Qed.

(** One alignment step keeps the exponent negative and the mantissa below
    [B * 2^(-e)], for a bound [B] of at most [2^7]. *)
Lemma shr_fexp_bound (B mz ez : Z) (l : location) (mrs : shr_record) (e1 : Z) :
  0 < B <= 128 -> 0 <= mz -> ez < 0 -> mz <= B * 2 ^ (- ez) ->
  shr_fexp prec emax mz ez l = (mrs, e1) ->
  e1 < 0 /\ 0 <= shr_m mrs /\ shr_m mrs <= B * 2 ^ (- e1) /\
  (mz < B * 2 ^ (- ez) -> shr_m mrs < B * 2 ^ (- e1)).
Proof.
  intros HB Hm He Hle. unfold shr_fexp, shr.
  assert (Hpow : 0 < 2 ^ (- ez)) by (apply Z.pow_pos_nonneg; lia).
  assert (Hd : Zdigits2 mz + ez <= 8).
  { assert (Zdigits2 mz <= 8 - ez); [| lia].
    apply Zdigits2_le; [lia | lia |].
    replace (8 - ez) with (8 + - ez) by lia. rewrite Z.pow_add_r by lia.
    change (2 ^ 8) with 256. nia. }
  assert (Hf : fexp prec emax (Zdigits2 mz + ez) <= -45).
  { unfold fexp, emin, prec, emax. lia. }
  destruct (fexp prec emax (Zdigits2 mz + ez) - ez) as [| p | p] eqn:Hn; intros E;
    injection E as <- <-.
  - rewrite shr_record_of_loc_m. repeat split; lia.
  - assert (Hmrs := iter_shr_1_m p (shr_record_of_loc mz l)).
    rewrite shr_record_of_loc_m in Hmrs. destruct (Hmrs Hm) as [H0 H1].
    assert (Hp : 0 < 2 ^ Zpos p) by (apply Z.pow_pos_nonneg; lia).
    assert (Hsplit : 2 ^ (- ez) = 2 ^ Zpos p * 2 ^ (- (ez + Zpos p))).
    { rewrite <- Z.pow_add_r by lia. f_equal. lia. }
    split; [lia |]. split; [exact H0 |]. rewrite H1. split.
    + apply Z.div_le_upper_bound; [exact Hp |]. rewrite Hsplit in Hle. lia.
    + intros Hlt. apply Z.div_lt_upper_bound; [exact Hp |]. rewrite Hsplit in Hlt. lia.
  - rewrite shr_record_of_loc_m. repeat split; lia.
Qed.

Lemma round_nearest_even_bounds (q : Z) (l : location) :
  q <= round_nearest_even q l <= q + 1.
Proof.
  destruct l as [| []]; simpl; try lia. destruct (Z.even q); lia.
Qed.

(** Rounding a nonnegative quantity below 100 yields zero or a finite
    positive double that is at most 100 and has a negative exponent. *)
Lemma binary_round_aux_below_100 (mz ez : Z) :
  0 <= mz -> ez < 0 -> mz < 100 * 2 ^ (- ez) ->
  binary_round_aux prec emax false mz ez loc_Exact = S754_zero false \/
  exists m2 e2,
    binary_round_aux prec emax false mz ez loc_Exact = S754_finite false m2 e2 /\
    e2 < 0 /\ Zpos m2 <= 100 * 2 ^ (- e2).
Proof.
  intros Hm He Hlt. unfold binary_round_aux.
  destruct (shr_fexp prec emax mz ez loc_Exact) as [mrs1 e1] eqn:E1.
  destruct (shr_fexp_bound 100 mz ez loc_Exact mrs1 e1) as (He1 & Hq0 & _ & Hq);
    [lia | exact Hm | exact He | lia | exact E1 |].
  specialize (Hq Hlt).
  pose proof (round_nearest_even_bounds (shr_m mrs1) (loc_of_shr_record mrs1)) as Hr.
  set (m1 := round_nearest_even (shr_m mrs1) (loc_of_shr_record mrs1)) in *.
  destruct (shr_fexp prec emax m1 e1 loc_Exact) as [mrs2 e2] eqn:E2.
  destruct (shr_fexp_bound 100 m1 e1 loc_Exact mrs2 e2) as (He2 & Hm2 & Hle2 & _);
    [lia | lia | exact He1 | lia | exact E2 |].
  destruct (shr_m mrs2) as [| m2 | m2] eqn:Em2.
  - left. reflexivity.
  - right. exists m2, e2.
    replace (e2 <=? emax - prec) with true
      by (symmetry; apply Z.leb_le; unfold emax, prec; lia).
    repeat split; assumption.
  - lia.
Qed.

Lemma round_half_up_percent (m : positive) (e : Z) :
  e < 0 -> Zpos m <= 100 * 2 ^ (- e) -> 0 <= round_half_up false m e <= 100.
Proof.
  intros He Hm. unfold round_half_up.
  replace (0 <=? e) with false by (symmetry; apply Z.leb_gt; exact He).
  simpl cond_Zopp.
  assert (Hp : 0 < 2 ^ (- e)) by (apply Z.pow_pos_nonneg; lia).
  split.
  - apply Z.div_pos; lia.
  - assert ((2 * Zpos m + 2 ^ (- e)) / (2 * 2 ^ (- e)) < 101); [| lia].
    apply Z.div_lt_upper_bound; lia.
Qed.

Lemma compare_cont_Eq_spec (p q : positive) :
  match Pos.compare_cont Eq p q with
  | Eq => p = q
  | Lt => (p < q)%positive
  | Gt => (q < p)%positive
  end.
Proof.
  rewrite Pos.compare_cont_spec. simpl Pos.switch_Eq.
  destruct (Pos.compare_spec p q); assumption.
Qed.

(** A well-formed double between 0 and 1 other than 1 itself: its mantissa
    is below [2^(-e)]. *)
Lemma below_one (m : positive) (e : Z) :
  well_formed (S754_finite false m e) = true ->
  leb (S754_finite false m e) (of_Z 1) = true ->
  S754_finite false m e = of_Z 1 \/ Zpos m < 2 ^ (- e).
Proof.
  unfold well_formed, valid_binary, bounded, canonical_mantissa, leb, SFleb.
  intros Hv Hle. apply andb_prop in Hv. destruct Hv as [Hc _].
  apply Z.eqb_eq in Hc. unfold fexp, emin, prec, emax in Hc.
  destruct (digits2_pos_bounds m) as [Hlo Hhi].
  assert (Hd : Zpos (digits2_pos m) <= 53) by lia.
  assert (H53 : Zpos m < 2 ^ 53).
  { eapply Z.lt_le_trans; [exact Hhi |]. apply Z.pow_le_mono_r; lia. }
  assert (Hone : of_Z 1 = S754_finite false 4503599627370496 (-52)) by (vm_compute; reflexivity).
  rewrite Hone in *. clear Hone.
  remember 4503599627370496%positive as c eqn:Ec.
  cbv beta iota delta [SFcompare] in Hle.
  pose proof (compare_cont_Eq_spec m c) as Hcmp.
  destruct (Z.compare_spec e (-52)) as [Heq | Hlt | Hgt].
  - subst e.
    destruct (Pos.compare_cont Eq m c); try discriminate.
    + left. subst m. reflexivity.
    + right. assert (E52 : 2 ^ (- -52) = Zpos c) by (subst c; vm_compute; reflexivity).
      rewrite E52. lia.
  - right. eapply Z.lt_le_trans; [exact H53 |]. apply Z.pow_le_mono_r; lia.
  - discriminate.
Qed.

Lemma round_half_up_nearest (m : positive) (e : Z) :
  e < 0 -> nearest_integer (S754_finite false m e) (round_half_up false m e).
Proof.
  intros He. unfold nearest_integer, round_half_up.
  replace (0 <=? e) with false by (symmetry; apply Z.leb_gt; exact He).
  cbn [cond_Zopp].
  assert (Hk : 0 < 2 ^ (- e)) by (apply Z.pow_pos_nonneg; lia).
  remember (2 ^ (- e)) as k eqn:Ek. clear Ek.
  pose proof (Z.div_mod (2 * Zpos m + k) (2 * k) ltac:(lia)) as Hdm.
  pose proof (Z.mod_pos_bound (2 * Zpos m + k) (2 * k) ltac:(lia)) as Hmod.
  remember ((2 * Zpos m + k) / (2 * k)) as q eqn:Eq. clear Eq.
  remember ((2 * Zpos m + k) mod (2 * k)) as r eqn:Er. clear Er.
  split; nia.
Qed.

Lemma Math_round_percent (m : positive) (e : Z) :
  e < 0 -> Zpos m <= 100 * 2 ^ (- e) ->
  exists n, 0 <= n <= 100 /\ Math_round (S754_finite false m e) = of_Z n /\
            nearest_integer (S754_finite false m e) n.
Proof.
  intros He Hm. exists (round_half_up false m e).
  split; [apply round_half_up_percent; assumption |].
  split; [| apply round_half_up_nearest; exact He].
  unfold Math_round.
  replace (0 <=? e) with false by (symmetry; apply Z.leb_gt; exact He).
  destruct (round_half_up false m e); reflexivity.
Qed.

(** The percentage of a score between 0 and 1: [Math.round] of the double
    [x * 100] is an integer from 0 to 100, the one nearest to that
    double. *)
Lemma score_of_percent `{Runtime} (x : number) :
  well_formed x = true ->
  leb (of_Z 0) x = true -> leb x (of_Z 1) = true ->
  exists n, 0 <= n <= 100 /\ score_of (VNum x) = Normal (of_Z n) /\
            nearest_integer (Num.mul x (of_Z 100)) n.
Proof.
  intros Hv H0 H1. destruct x as [s | s | | s m e].
  - exists 0. split; [lia |]. destruct s; split; vm_compute; reflexivity.
  - destruct s; discriminate.
  - discriminate.
  - destruct s; [discriminate |].
    destruct (below_one m e Hv H1) as [-> | Hlt].
    + exists 100. split; [lia |]. split; [vm_compute; reflexivity |].
      vm_compute. split; [discriminate | reflexivity].
    + assert (He : e < 0).
      { destruct (Z_lt_ge_dec e 0) as [Hneg | Hpos]; [exact Hneg |].
        assert (2 ^ (- e) <= 1); [| lia].
        destruct (Z.eq_dec e 0) as [-> | Hne]; [simpl; lia |].
        rewrite Z.pow_neg_r by lia. lia. }
      assert (Hp : 0 < 2 ^ (- e)) by (apply Z.pow_pos_nonneg; lia).
      assert (Hs : score_of (VNum (S754_finite false m e)) =
                   Normal (Math_round (Num.mul (S754_finite false m e) (of_Z 100))))
        by reflexivity.
      rewrite Hs. clear Hs.
      change (Num.mul (S754_finite false m e) (of_Z 100))
        with (binary_round_aux prec emax false
                (Zpos (m * 7036874417766400)) (e + -46) loc_Exact).
      destruct (binary_round_aux_below_100 (Zpos (m * 7036874417766400)) (e + -46))
        as [-> | (m2 & e2 & -> & He2 & Hm2)].
      * lia.
      * lia.
      * replace (- (e + -46)) with (46 + - e) by lia.
        rewrite Z.pow_add_r by lia. change (2 ^ 46) with 70368744177664.
        rewrite Pos2Z.inj_mul. nia.
      * exists 0. split; [lia |]. split; reflexivity.
      * destruct (Math_round_percent m2 e2 He2 Hm2) as (n & Hn & Hr & Hnear).
        exists n. split; [exact Hn |]. split; [rewrite Hr; reflexivity | exact Hnear].
Qed.


Lemma percent_rendering `{Runtime} (n : Z) :
  0 <= n <= 100 ->
  emoji_of (of_Z n) = tier n /\ number_to_string (of_Z n) = decimal n.
Proof.
  intros Hn.
  assert (Hall : forallb (fun k => let n := Z.of_nat k in
                    String.eqb (emoji_of (of_Z n)) (tier n)
                    && String.eqb (number_to_string (of_Z n)) (decimal n))
                   (seq 0 101) = true) by (vm_compute; reflexivity).
  rewrite forallb_forall in Hall.
  specialize (Hall (Z.to_nat n)).
  rewrite Z2Nat.id in Hall by lia.
  assert (Hin : In (Z.to_nat n) (seq 0 101)) by (apply in_seq; lia).
  apply Hall in Hin. apply andb_prop in Hin. destruct Hin as [Ha Hb].
  apply String.eqb_eq in Ha, Hb. split; assumption.
Qed.

(** ** The request handler *)

Section Handler.
Context `{Runtime} (o : oracle).

Lemma run_lift {A : Type} (r : outcome A) : run o (lift r) = ([], r).
Proof. destruct r; reflexivity. Qed.

Lemma run_await {A : Type} (op : effect (outcome A)) :
  run o (await op) = ([Event op (o _ op)], o _ op).
Proof. unfold await. simpl. rewrite run_lift. reflexivity. Qed.

Lemma run_call {A : Type} (op : effect (outcome A)) :
  run o (call op) = ([Event op (o _ op)], o _ op).
Proof. exact (run_await op). Qed.

Lemma run_perform {X : Type} (op : effect X) :
  run o (perform op) = ([Event op (o _ op)], Normal (o _ op)).
Proof. reflexivity. Qed.

Lemma run_sendJSONResponse (data : value) (status : Z) :
  run o (sendJSONResponse data status) = (response data status, Normal tt).
Proof.
  unfold sendJSONResponse. rewrite run_bind, !run_perform, !unit_answer. reflexivity.
Qed.

(** Routing of [POST /analyze]: the listener performs the preamble, then
    the operations of [analyze]; when [analyze] throws, the error is logged
    and answered with status 500. *)
Lemma run_on_request_analyze (req : request) (home : URL) :
  req_method req = "POST" ->
  o _ (NewURL (VStr (req_url req)) (Some (request_base req))) = Normal home ->
  pathname home = "/analyze" ->
  run o (on_request req) =
  (preamble req (Normal home) ++ fst (run o analyze) ++
     match snd (run o analyze) with
     | Normal _ => []
     | Thrown e => server_error e
     end,
   Normal tt).
Proof.
  intros Hm Hhome Hpath. unfold on_request. rewrite run_fire_and_forget.
  unfold requestHandler.
  rewrite run_bind, run_perform, unit_answer. cbv beta iota.
  rewrite run_bind, run_perform, unit_answer. cbv beta iota.
  rewrite run_bind, run_perform, unit_answer. cbv beta iota.
  rewrite Hm. simpl (String.eqb "POST" "OPTIONS"). cbv iota.
  rewrite run_bind, run_call, Hhome. cbv beta iota.
  rewrite run_try_catch, Hpath.
  simpl (String.eqb "POST" "POST" && String.eqb "/analyze" "/analyze"). cbv iota.
  destruct (run o analyze) as [tr [[] | e]]; simpl fst; simpl snd.
  - rewrite List.app_nil_r. reflexivity.
  - rewrite run_bind, run_perform, unit_answer. cbv beta iota.
    rewrite run_sendJSONResponse. reflexivity.
Qed.

Lemma get_total (v : value) (k k' : string) (x : value) :
  get v k = Normal x -> get v k' = Normal (get_opt v k').
Proof.
  destruct v; simpl; intros E; try discriminate; try reflexivity.
  destruct (lookup k' fields); reflexivity.
Qed.

Lemma run_background_job_completes (testId : string) (url options : value) :
  snd (run o (background_job testId url options)) = Normal tt.
Proof.
  unfold background_job. rewrite run_fire_and_forget.
  destruct (run o _) as [tr [a | e]]; reflexivity.
Qed.

Lemma run_analyze_accepted (body url : value) (target : URL) :
  o _ ParseJSONBody = Normal body ->
  get body "url" = Normal url -> truthy url = true ->
  o _ (NewURL url None) = Normal target ->
  let testId := make_testId (o _ DateNow) (o _ MathRandom) in
  run o analyze =
  (acceptance body url target (o _ DateNow) (o _ MathRandom) testId ++ response (accepted testId) 200 ++
     fst (run o (background_job testId url (get_opt body "options"))),
   Normal tt).
Proof.
  intros Hb Hu Ht Hn testId. unfold analyze.
  rewrite run_bind, run_await, Hb. cbv beta iota.
  rewrite run_bind, run_lift, Hu. cbv beta iota.
  rewrite Ht. simpl negb. cbv iota.
  rewrite run_bind, run_try_catch, run_bind, run_call, Hn. cbv beta iota.
  simpl (run o (Ret true)). cbv beta iota. simpl negb. cbv iota.
  rewrite run_bind, run_perform. cbv beta iota.
  rewrite run_bind, run_perform. cbv beta iota.
  rewrite run_bind, run_perform, unit_answer. cbv beta iota.
  rewrite run_bind, run_sendJSONResponse. cbv beta iota.
  rewrite run_bind, run_lift, (get_total body "url" "options" url Hu). cbv beta iota.
  fold testId.
  pose proof (run_background_job_completes testId url (get_opt body "options")) as Hc.
  destruct (run o (background_job testId url (get_opt body "options"))) as [tr r].
  simpl in Hc. subst r. reflexivity.
Qed.
End Handler.


(** ** Properties kept by every operation of a run *)

Section Every.
Variable o : oracle.
Variable P : event -> Prop.

Lemma every_ret {A : Type} (a : A) : every o P (Ret a).
Proof. constructor. Qed.

Lemma every_throw {A : Type} (e : value) : every o P (@Throw A e).
Proof. constructor. Qed.

Lemma every_lift {A : Type} (r : outcome A) : every o P (lift r).
Proof. destruct r; constructor. Qed.

Lemma every_perform {X : Type} (op : effect X) :
  P (Event op (o _ op)) -> every o P (perform op).
Proof. intros Hop. repeat constructor. exact Hop. Qed.

Lemma every_await {A : Type} (op : effect (outcome A)) :
  P (Event op (o _ op)) -> every o P (await op).
Proof.
  intros Hop. unfold every, await. simpl.
  destruct (o _ op); simpl; repeat constructor; exact Hop.
Qed.

Lemma every_bind {A B : Type} (p : prog A) (f : A -> prog B) :
  every o P p -> (forall a, every o P (f a)) -> every o P (bind p f).
Proof.
  unfold every. intros Hp Hf. rewrite run_bind.
  destruct (run o p) as [tr [a | e]]; simpl in *.
  - specialize (Hf a). destruct (run o (f a)) as [tr' r]. simpl in *.
    apply Forall_app. split; assumption.
  - exact Hp.
Qed.

Lemma every_try_catch {A : Type} (p : prog A) (h : value -> prog A) :
  every o P p -> (forall e, every o P (h e)) -> every o P (try_catch p h).
Proof.
  unfold every. intros Hp Hh. rewrite run_try_catch.
  destruct (run o p) as [tr [a | e]]; simpl in *.
  - exact Hp.
  - specialize (Hh e). destruct (run o (h e)) as [tr' r]. simpl in *.
    apply Forall_app. split; assumption.
Qed.

Lemma every_try_finally {A : Type} (p : prog A) (f : prog unit) :
  every o P p -> every o P f -> every o P (try_finally p f).
Proof.
  unfold every. intros Hp Hf. rewrite run_try_finally.
  destruct (run o p) as [tr r]. destruct (run o f) as [tr' r']. simpl in *.
  apply Forall_app. split; assumption.
Qed.

Lemma every_fire_and_forget {A : Type} (p : prog A) :
  every o P p -> (forall e, P (Event (UnhandledRejection e) tt)) ->
  every o P (fire_and_forget p).
Proof.
  unfold every. intros Hp Hu. rewrite run_fire_and_forget.
  destruct (run o p) as [tr [a | e]]; simpl in *.
  - exact Hp.
  - apply Forall_app. split; [exact Hp | repeat constructor; apply Hu].
Qed.

Lemma every_forEach {A : Type} (l : list A) (f : A -> prog unit) :
  (forall x, every o P (f x)) -> every o P (forEach l f).
Proof.
  intros Hf. induction l as [| x rest IH]; simpl.
  - constructor.
  - apply every_bind; [apply Hf | intros _; exact IH].
Qed.

End Every.

Section Job.
Context `{Runtime} (o : oracle).

Lemma every_log_category (P : event -> Prop) (entry : string * value) :
  (forall ev, is_console ev = true -> P ev) -> every o P (log_category entry).
Proof.
  intros HP. destruct entry as [category data]. unfold log_category.
  apply every_bind; [apply every_lift |]. intros raw.
  apply every_bind; [apply every_lift |]. intros score.
  apply every_perform. apply HP. reflexivity.
Qed.

Lemma every_log_scores (P : event -> Prop) (testId : string) (results : value) :
  (forall ev, is_console ev = true -> P ev) -> every o P (log_scores testId results).
Proof.
  intros HP. unfold log_scores.
  apply every_bind; [apply every_perform, HP; reflexivity | intros _].
  apply every_bind; [apply every_lift | intros finalUrl].
  apply every_bind;
    [destruct (truthy finalUrl); [apply every_ret | apply every_lift] | intros tested].
  apply every_bind; [apply every_perform, HP; reflexivity | intros _].
  apply every_bind; [apply every_perform, HP; reflexivity | intros _].
  apply every_bind; [apply every_lift | intros categories].
  destruct (truthy categories); [| apply every_ret].
  apply every_forEach. intros entry. apply every_log_category. exact HP.
Qed.

Lemma every_log_metrics (P : event -> Prop) (results : value) :
  (forall ev, is_console ev = true -> P ev) -> every o P (log_metrics results).
Proof.
  intros HP. unfold log_metrics.
  apply every_bind; [apply every_lift | intros audits].
  repeat (apply every_bind;
          [first [apply every_lift | apply every_perform, HP; reflexivity] | intros ?]).
  apply every_perform, HP; reflexivity.
Qed.

End Job.


Section Audit.
Context `{Runtime} (o : oracle).

(** The operations of the [try] block: the endpoint is read and parsed,
    then the engine is called. *)
Lemma run_executeLighthouse_try (b : browser) (url options : value) :
  run o (executeLighthouse_try b url options) =
  let ws := o _ (WsEndpoint b) in
  let parsed := o _ (NewURL (VStr ws) None) in
  let opened := [Event (WsEndpoint b) ws; Event (NewURL (VStr ws) None) parsed] in
  match parsed with
  | Thrown e => (opened, Thrown e)
  | Normal endpoint =>
      let flags := lighthouse_flags endpoint options in
      let answer := o _ (Lighthouse url flags) in
      (opened ++ [Event (Lighthouse url flags) answer],
       match answer with
       | Normal runnerResult => lhr_of runnerResult
       | Thrown e => Thrown e
       end)
  end.
Proof.
  unfold executeLighthouse_try.
  rewrite run_bind, run_perform. cbv beta iota zeta.
  rewrite run_bind, run_call.
  destruct (o _ (NewURL (VStr (o _ (WsEndpoint b))) None)) as [endpoint | e];
    cbv beta iota; [| reflexivity].
  rewrite run_bind, run_await.
  destruct (o _ (Lighthouse url (lighthouse_flags endpoint options)))
    as [runnerResult | e]; cbv beta iota; [| reflexivity].
  rewrite run_bind, run_lift.
  destruct (lhr_of runnerResult); reflexivity.
Qed.

Lemma run_executeLighthouse (url options : value) (b : browser) :
  o _ (Launch launch_options) = Normal b ->
  run o (executeLighthouse url options) =
  let (tr, r) := run o (executeLighthouse_try b url (default_options options)) in
  (Event (Launch launch_options) (Normal b)
     :: tr ++ [Event (Close b) (o _ (Close b))],
   match o _ (Close b) with
   | Normal _ => r
   | Thrown e => Thrown e
   end).
Proof.
  intros Hl. unfold executeLighthouse. cbv zeta.
  rewrite run_bind, run_await, Hl. cbv beta iota.
  rewrite run_try_finally, run_await.
  destruct (run o (executeLighthouse_try b url (default_options options))) as [tr r].
  reflexivity.
Qed.

Lemma run_executeLighthouse_no_browser (url options e : value) :
  o _ (Launch launch_options) = Thrown e ->
  run o (executeLighthouse url options) =
  ([Event (Launch launch_options) (Thrown e)], Thrown e).
Proof.
  intros Hl. unfold executeLighthouse. cbv zeta.
  rewrite run_bind, run_await, Hl. reflexivity.
Qed.

Lemma every_executeLighthouse_try (P : event -> Prop) (b : browser)
      (url options : value) :
  (forall ws, P (Event (WsEndpoint b) ws)) ->
  (forall input base r, P (Event (NewURL input base) r)) ->
  (forall u flags r, P (Event (Lighthouse u flags) r)) ->
  every o P (executeLighthouse_try b url options).
Proof.
  intros Hws Hurl Hlh. unfold executeLighthouse_try.
  apply every_bind; [apply every_perform, Hws | intros ws].
  apply every_bind; [apply every_await, Hurl | intros endpoint].
  apply every_bind; [apply every_await, Hlh | intros runnerResult].
  apply every_bind; [apply every_lift | intros lhr]. apply every_ret.
Qed.

Lemma every_executeLighthouse (P : event -> Prop) (url options : value) :
  (forall ev, engine_operation ev = true -> P ev) ->
  (forall input base r, P (Event (NewURL input base) r)) ->
  every o P (executeLighthouse url options).
Proof.
  intros Ha Hurl. unfold executeLighthouse. cbv zeta.
  apply every_bind; [apply every_await, Ha; reflexivity | intros b].
  apply every_try_finally.
  - apply every_executeLighthouse_try; intros; try apply Hurl; apply Ha; reflexivity.
  - apply every_await, Ha. reflexivity.
Qed.

(** ** The delivery *)

Lemma run_post_results (testId : string) (results : value) :
  run o (post_results testId results) =
  let timestamp := o _ DateToISOString in
  let target := collector_endpoint in
  let answer := o _ (AxiosPost target (envelope testId results timestamp)) in
  (Event DateToISOString timestamp
     :: Event (AxiosPost target (envelope testId results timestamp)) answer
     :: match answer with
        | Normal _ =>
            [Event (ConsoleLog [VStr "✅ Résultats envoyés avec succès à l'API"]) tt]
        | Thrown _ => []
        end,
   match answer with
   | Normal _ => Normal tt
   | Thrown e => Thrown e
   end).
Proof.
  unfold post_results. rewrite run_bind, run_perform. cbv beta iota zeta.
  rewrite run_bind, run_await.
  destruct (o _ (AxiosPost _ _)) as [a | e]; cbv beta iota; [| reflexivity].
  rewrite run_perform, unit_answer. reflexivity.
Qed.

(** The shape of every run of [sendResultsToAPI]: the summary, then the
    request to the collector when the summary did not throw, then the entry
    for the error if there was one.  It never throws. *)
Lemma run_sendResultsToAPI (testId : string) (results : value) :
  run o (sendResultsToAPI testId results) =
  match run o (log_scores testId results) with
  | (scores, Thrown e) => (scores ++ [delivery_error e], Normal tt)
  | (scores, Normal _) =>
      match run o (log_metrics results) with
      | (metrics, Thrown e) => (scores ++ (metrics ++ [delivery_error e]), Normal tt)
      | (metrics, Normal _) =>
          let (sent, r) := run o (post_results testId results) in
          (scores ++ (metrics ++ (sent ++
             match r with
             | Normal _ => []
             | Thrown e => [delivery_error e]
             end)), Normal tt)
      end
  end.
Proof.
  unfold sendResultsToAPI. rewrite run_try_catch, run_bind.
  destruct (run o (log_scores testId results)) as [scores [[] | e]].
  - rewrite run_bind.
    destruct (run o (log_metrics results)) as [metrics [[] | e]].
    + destruct (run o (post_results testId results)) as [sent [[] | e]].
      * rewrite !List.app_nil_r. reflexivity.
      * rewrite run_perform, unit_answer. unfold delivery_error.
        rewrite <- !List.app_assoc. reflexivity.
    + rewrite run_perform, unit_answer. unfold delivery_error.
      rewrite <- !List.app_assoc. reflexivity.
  - rewrite run_perform, unit_answer. reflexivity.
Qed.

Lemma sendResultsToAPI_completes (testId : string) (results : value) :
  snd (run o (sendResultsToAPI testId results)) = Normal tt.
Proof.
  rewrite run_sendResultsToAPI.
  destruct (run o (log_scores testId results)) as [scores [[] | e]]; [| reflexivity].
  destruct (run o (log_metrics results)) as [metrics [[] | e]]; [| reflexivity].
  destruct (run o (post_results testId results)) as [sent r]. reflexivity.
Qed.

(** The shape of every run of the background job. *)
Lemma run_background_job (testId : string) (url options : value) :
  run o (background_job testId url options) =
  match run o (executeLighthouse url options) with
  | (tr, Normal results) =>
      (tr ++ Event (ConsoleLog [VStr "🎯 Test Lighthouse terminé pour"; VStr testId]) tt
          :: fst (run o (sendResultsToAPI testId results)), Normal tt)
  | (tr, Thrown error) =>
      (tr ++ [match get error "message" with
              | Normal message =>
                  Event (ConsoleError [VStr "❌ Erreur Lighthouse pour"; VStr testId;
                                       VStr ":"; message]) tt
              | Thrown e => Event (UnhandledRejection e) tt
              end], Normal tt)
  end.
Proof.
  unfold background_job. rewrite run_fire_and_forget, run_try_catch, run_bind.
  destruct (run o (executeLighthouse url options)) as [tr [results | error]].
  - rewrite run_bind, run_perform, unit_answer. cbv beta iota.
    rewrite run_fire_and_forget.
    pose proof (sendResultsToAPI_completes testId results) as Hc.
    destruct (run o (sendResultsToAPI testId results)) as [sent r].
    simpl in Hc. subst r. reflexivity.
  - rewrite run_bind, run_lift.
    destruct (get error "message") as [message | e]; cbv beta iota.
    + rewrite run_perform, unit_answer. reflexivity.
    + rewrite List.app_nil_r. reflexivity.
Qed.

End Audit.


(** ** Job identifiers *)

Lemma decimal_injective (z1 z2 : Z) : decimal z1 = decimal z2 -> z1 = z2.
Proof.
  unfold decimal. intros E.
  assert (Hn : forall z, Z.to_int z <> Decimal.Pos Decimal.Nil /\
                         Z.to_int z <> Decimal.Neg Decimal.Nil).
  { intros [| p | p]; simpl; split; try discriminate;
      intros [= Hp]; exact (Unsigned.to_uint_nonnil p Hp). }
  assert (Hi : forall z, NilZero.int_of_string (NilZero.string_of_int (Z.to_int z))
                         = Some (Z.to_int z)).
  { intros z. destruct (Hn z). apply NilZero.isi; assumption. }
  pose proof (Hi z1) as H1. rewrite E, Hi in H1. injection H1 as H1.
  rewrite <- (DecimalZ.of_to z1), <- (DecimalZ.of_to z2), H1. reflexivity.
Qed.

Lemma uint_no_underscore (d : Decimal.uint) :
  has_char "_" (NilEmpty.string_of_uint d) = false.
Proof. induction d; simpl; try assumption; reflexivity. Qed.

Lemma decimal_no_underscore (z : Z) : has_char "_" (decimal z) = false.
Proof.
  unfold decimal, NilZero.string_of_int, NilZero.string_of_uint.
  destruct (Z.to_int z) as [d | d]; destruct d; simpl;
    try reflexivity; apply uint_no_underscore.
Qed.

Lemma split_at_underscore (a a' s s' : string) :
  has_char "_" a = false -> has_char "_" a' = false ->
  (a ++ String "_" s)%string = (a' ++ String "_" s')%string ->
  a = a' /\ s = s'.
Proof.
  revert a'. induction a as [| c a IH]; intros [| c' a'] Ha Ha' E; simpl in *.
  - injection E as E. split; [reflexivity | exact E].
  - injection E as Ec E. subst c'. simpl in Ha'. discriminate.
  - injection E as Ec E. subst c. simpl in Ha. discriminate.
  - injection E as Ec E. subst c'.
    apply orb_false_elim in Ha, Ha'. destruct Ha as [_ Ha]. destruct Ha' as [_ Ha'].
    destruct (IH a' Ha Ha' E) as [-> ->]. split; reflexivity.
Qed.

Section Identifiers.
Context `{Runtime}.

Lemma make_testId_eq (t1 t2 : Z) (r1 r2 : number) :
  make_testId t1 r1 = make_testId t2 r2 <-> t1 = t2 /\ suffix r1 = suffix r2.
Proof.
  unfold make_testId, suffix. split.
  - intros E. simpl in E. injection E as E.
    apply split_at_underscore in E; try apply decimal_no_underscore.
    destruct E as [Ed Es]. split; [apply decimal_injective, Ed | exact Es].
  - intros [-> ->]. reflexivity.
Qed.

End Identifiers.


Lemma statuses_app (a b : list event) : statuses (a ++ b) = statuses a ++ statuses b.
Proof.
  induction a as [| [X op x] a IH]; simpl; [reflexivity |].
  destruct op; simpl; rewrite IH; reflexivity.
Qed.

Lemma bodies_app (a b : list event) : bodies (a ++ b) = bodies a ++ bodies b.
Proof.
  induction a as [| [X op x] a IH]; simpl; [reflexivity |].
  destruct op; simpl; rewrite IH; reflexivity.
Qed.

Lemma posts_app (a b : list event) : posts (a ++ b) = posts a ++ posts b.
Proof.
  induction a as [| [X op x] a IH]; simpl; [reflexivity |].
  destruct op; simpl; rewrite IH; reflexivity.
Qed.

Lemma closed_app (a b : list event) : closed (a ++ b) = closed a ++ closed b.
Proof.
  induction a as [| [X op x] a IH]; simpl; [reflexivity |].
  destruct op; simpl; rewrite IH; reflexivity.
Qed.

Lemma no_writes_no_answer (tr : list event) :
  Forall (fun ev => writes_response ev = false) tr ->
  statuses tr = [] /\ bodies tr = [].
Proof.
  induction 1 as [| [X op x] tr Hev _ [IHs IHb]]; [split; reflexivity |].
  destruct op; simpl in *; try discriminate; split; assumption.
Qed.

Lemma no_post_posts (tr : list event) :
  Forall (fun ev => is_post ev = false) tr -> posts tr = [].
Proof.
  induction 1 as [| [X op x] tr Hev _ IH]; [reflexivity |].
  destruct op; simpl in *; try discriminate; assumption.
Qed.

(** ** The gateway *)

Section Gateway.
Context `{Runtime} (o : oracle).

Lemma background_job_leaves_response (testId : string) (url options : value) :
  Forall (fun ev => writes_response ev = false)
         (trace o (background_job testId url options)).
Proof.
  change (every o (fun ev => writes_response ev = false)
                (background_job testId url options)).
  assert (Hc : forall ev, is_console ev = true -> writes_response ev = false).
  { intros [X op x] Hev. destruct op; (discriminate || reflexivity). }
  assert (Ha : forall ev, engine_operation ev = true -> writes_response ev = false).
  { intros [X op x] Hev. destruct op; (discriminate || reflexivity). }
  unfold background_job.
  apply every_fire_and_forget; [| reflexivity].
  apply every_try_catch.
  - apply every_bind; [apply every_executeLighthouse; [exact Ha | reflexivity] |].
    intros results.
    apply every_bind; [apply every_perform; reflexivity | intros _].
    apply every_fire_and_forget; [| reflexivity].
    unfold sendResultsToAPI. apply every_try_catch.
    + apply every_bind; [apply every_log_scores, Hc | intros _].
      apply every_bind; [apply every_log_metrics, Hc | intros _].
      unfold post_results.
      apply every_bind; [apply every_perform; reflexivity | intros timestamp].
      apply every_bind; [apply every_await; reflexivity | intros _].
      apply every_perform. reflexivity.
    + intros e. apply every_perform. reflexivity.
  - intros error.
    apply every_bind; [apply every_lift | intros message].
    apply every_perform. reflexivity.
Qed.

Lemma background_job_begins_with_launch (testId : string) (url options : value) :
  exists rest,
    trace o (background_job testId url options) =
    Event (Launch launch_options) (o _ (Launch launch_options)) :: rest.
Proof.
  unfold trace. rewrite run_background_job.
  destruct (o _ (Launch launch_options)) as [b | e] eqn:Hl.
  - rewrite (run_executeLighthouse o url options b Hl).
    destruct (run o (executeLighthouse_try b url (default_options options))) as [tr r].
    destruct (match o _ (Close b) with Normal _ => r | Thrown e => Thrown e end);
      simpl; eexists; reflexivity.
  - rewrite (run_executeLighthouse_no_browser o url options e Hl).
    simpl. eexists. reflexivity.
Qed.

(** C1.  A valid audit request ([POST /analyze] whose body carries a
    truthy [url] that [new URL] accepts) is answered with status 200 and the
    body [{id, status: "pending", message: "Test Lighthouse en cours..."}]
    before any operation of the audit: no browser, engine or collector
    operation precedes the answer, the whole background job of that
    identifier follows it, starting with the launch of the browser, and
    whatever its outcome the job never writes to the response.  The listener
    itself completes normally. *)
Theorem response_before_audit (req : request) (home target : URL)
        (body url : value) :
  req_method req = "POST" ->
  o _ (NewURL (VStr (req_url req)) (Some (request_base req))) = Normal home ->
  pathname home = "/analyze" ->
  o _ ParseJSONBody = Normal body ->
  get body "url" = Normal url ->
  truthy url = true ->
  o _ (NewURL url None) = Normal target ->
  exists testId before after,
    trace o (on_request req) =
      before
      ++ [Event (WriteHead 200 [("Content-Type", "application/json")]) tt;
          Event (End (Some (VObj [("id", VStr testId);
                                  ("status", VStr "pending");
                                  ("message", VStr "Test Lighthouse en cours...")]))) tt]
      ++ after /\
    Forall (fun ev => audit_operation ev = false) before /\
    after = trace o (background_job testId url (get_opt body "options")) /\
    (exists rest,
       after = Event (Launch launch_options) (o _ (Launch launch_options)) :: rest) /\
    Forall (fun ev => writes_response ev = false) after /\
    completion o (on_request req) = Normal tt.
Proof.
  intros Hm Hhome Hpath Hb Hu Ht Hn.
  pose proof (run_on_request_analyze o req home Hm Hhome Hpath) as Hrun.
  rewrite (run_analyze_accepted o body url target Hb Hu Ht Hn) in Hrun.
  cbv zeta in Hrun. cbn [fst snd] in Hrun.
  set (testId := make_testId (o _ DateNow) (o _ MathRandom)) in *.
  exists testId,
    (preamble req (Normal home)
       ++ acceptance body url target (o _ DateNow) (o _ MathRandom) testId),
    (trace o (background_job testId url (get_opt body "options"))).
  unfold trace at 1, completion. rewrite Hrun. cbn [fst snd].
  split; [rewrite List.app_nil_r, <- !List.app_assoc; reflexivity |].
  split; [repeat constructor |].
  split; [reflexivity |].
  split; [apply background_job_begins_with_launch |].
  split; [apply background_job_leaves_response | reflexivity].
Qed.

(** C2, amended.  For a [POST /analyze] request whose body parses to a
    value other than [null]: when [url] is missing or falsy the answer is
    status 400 with error "URL requise", and [new URL] is not even called;
    otherwise, when [new URL(url)] throws, the answer is status 400 with
    error "URL invalide".  In both cases these are all the operations of the
    request: no background job is started. *)
Theorem invalid_url_rejected (req : request) (home : URL) (body url : value) :
  req_method req = "POST" ->
  o _ (NewURL (VStr (req_url req)) (Some (request_base req))) = Normal home ->
  pathname home = "/analyze" ->
  o _ ParseJSONBody = Normal body ->
  get body "url" = Normal url ->
  (truthy url = false ->
   run o (on_request req) =
   (preamble req (Normal home)
      ++ Event ParseJSONBody (Normal body)
      :: response (VObj [("error", VStr "URL requise")]) 400,
    Normal tt)) /\
  (truthy url = true ->
   forall e, o _ (NewURL url None) = Thrown e ->
   run o (on_request req) =
   (preamble req (Normal home)
      ++ Event ParseJSONBody (Normal body)
      :: Event (NewURL url None) (Thrown e)
      :: response (VObj [("error", VStr "URL invalide")]) 400,
    Normal tt)).
Proof.
  intros Hm Hhome Hpath Hb Hu.
  pose proof (run_on_request_analyze o req home Hm Hhome Hpath) as Hrun.
  split.
  - intros Ht. rewrite Hrun. clear Hrun.
    assert (Ha : run o analyze =
                 (Event ParseJSONBody (Normal body)
                    :: response (VObj [("error", VStr "URL requise")]) 400,
                  Normal tt)).
    { unfold analyze.
      rewrite run_bind, run_await, Hb. cbv beta iota.
      rewrite run_bind, run_lift, Hu. cbv beta iota.
      rewrite Ht. simpl negb. cbv iota.
      rewrite run_sendJSONResponse. reflexivity. }
    rewrite Ha. simpl fst. simpl snd. cbv iota.
    rewrite List.app_nil_r. reflexivity.
  - intros Ht e He. rewrite Hrun. clear Hrun.
    assert (Ha : run o analyze =
                 (Event ParseJSONBody (Normal body)
                    :: Event (NewURL url None) (Thrown e)
                    :: response (VObj [("error", VStr "URL invalide")]) 400,
                  Normal tt)).
    { unfold analyze.
      rewrite run_bind, run_await, Hb. cbv beta iota.
      rewrite run_bind, run_lift, Hu. cbv beta iota.
      rewrite Ht. simpl negb. cbv iota.
      rewrite run_bind, run_try_catch, run_bind, run_call, He. cbv beta iota.
      simpl (run o (Ret false)). cbv beta iota. simpl negb. cbv iota.
      rewrite run_sendJSONResponse. reflexivity. }
    rewrite Ha. simpl fst. simpl snd. cbv iota.
    rewrite List.app_nil_r. reflexivity.
Qed.

(** C8, amended.  Two identifiers are equal exactly when they were made in
    the same millisecond from random numbers with the same nine-character
    base-36 suffix; an identifier is never empty; and an accepted request is
    answered, once, with status 200 and a body that carries the identifier
    made from the clock and the random number of that request, with status
    "pending". *)
Theorem job_ids_differ_iff (req : request) (home target : URL)
        (body url : value) :
  (forall t1 t2 r1 r2,
     make_testId t1 r1 = make_testId t2 r2 <-> t1 = t2 /\ suffix r1 = suffix r2) /\
  (forall t r, make_testId t r <> "") /\
  (req_method req = "POST" ->
   o _ (NewURL (VStr (req_url req)) (Some (request_base req))) = Normal home ->
   pathname home = "/analyze" ->
   o _ ParseJSONBody = Normal body ->
   get body "url" = Normal url ->
   truthy url = true ->
   o _ (NewURL url None) = Normal target ->
   statuses (trace o (on_request req)) = [200] /\
   bodies (trace o (on_request req)) =
   [Some (VObj [("id", VStr (make_testId (o _ DateNow) (o _ MathRandom)));
                ("status", VStr "pending");
                ("message", VStr "Test Lighthouse en cours...")])]).
Proof.
  split; [intros; apply make_testId_eq |].
  split; [intros t r; unfold make_testId; discriminate |].
  intros Hm Hhome Hpath Hb Hu Ht Hn.
  pose proof (run_on_request_analyze o req home Hm Hhome Hpath) as Hrun.
  rewrite (run_analyze_accepted o body url target Hb Hu Ht Hn) in Hrun.
  cbv zeta in Hrun. cbn [fst snd] in Hrun.
  unfold trace. rewrite Hrun. cbn [fst].
  destruct (no_writes_no_answer _
              (background_job_leaves_response
                 (make_testId (o _ DateNow) (o _ MathRandom)) url
                 (get_opt body "options"))) as [Hs Hbd].
  unfold trace in Hs, Hbd.
  rewrite !statuses_app, !bodies_app, Hs, Hbd. split; reflexivity.
Qed.

End Gateway.


(** ** Objects *)

Lemma lookup_app (k : string) (a b : list (string * value)) :
  lookup k (a ++ b) = match lookup k a with
                      | Some v => Some v
                      | None => lookup k b
                      end.
Proof.
  induction a as [| [k' v'] a IH]; simpl; [reflexivity |].
  destruct (String.eqb k k'); [reflexivity | exact IH].
Qed.

Lemma lookup_replace_field (k k' : string) (v : value) (fields : list (string * value)) :
  lookup k (replace_field k' v fields) =
  if String.eqb k k'
  then match lookup k fields with Some _ => Some v | None => None end
  else lookup k fields.
Proof.
  induction fields as [| [k1 v1] rest IH]; simpl.
  - destruct (String.eqb k k'); reflexivity.
  - destruct (String.eqb_spec k' k1) as [-> | Hne]; simpl.
    + destruct (String.eqb k k1); reflexivity.
    + rewrite IH. destruct (String.eqb_spec k k') as [-> | Hk].
      * destruct (String.eqb_spec k' k1); [contradiction | reflexivity].
      * reflexivity.
Qed.

Lemma lookup_insert_index (k k' : string) (i : Z) (v : value)
      (fields : list (string * value)) :
  lookup k' fields = None ->
  lookup k (insert_index i k' v fields) =
  if String.eqb k k' then Some v else lookup k fields.
Proof.
  induction fields as [| [k1 v1] rest IH]; simpl; intros Hnone.
  - reflexivity.
  - destruct (String.eqb_spec k' k1) as [-> | Hne]; [discriminate |].
    destruct (array_index k1) as [j |]; [destruct (j <? i) |]; simpl.
    + rewrite (IH Hnone).
      destruct (String.eqb_spec k k') as [-> | Hk]; [| reflexivity].
      destruct (String.eqb_spec k' k1); [contradiction | reflexivity].
    + reflexivity.
    + reflexivity.
Qed.

Lemma lookup_set_field_same (k : string) (v : value) (fields : list (string * value)) :
  lookup k (set_field k v fields) = Some v.
Proof.
  unfold set_field. destruct (lookup k fields) as [x |] eqn:Hl.
  - rewrite lookup_replace_field, String.eqb_refl, Hl. reflexivity.
  - destruct (array_index k) as [i |].
    + rewrite (lookup_insert_index k k i v fields Hl), String.eqb_refl. reflexivity.
    + rewrite lookup_app, Hl. simpl. rewrite String.eqb_refl. reflexivity.
Qed.

Lemma lookup_set_field_other (k k' : string) (v : value)
      (fields : list (string * value)) :
  k <> k' -> lookup k (set_field k' v fields) = lookup k fields.
Proof.
  intros Hne. apply String.eqb_neq in Hne.
  unfold set_field. destruct (lookup k' fields) as [x |] eqn:Hl.
  - rewrite lookup_replace_field, Hne. reflexivity.
  - destruct (array_index k') as [i |].
    + rewrite (lookup_insert_index k k' i v fields Hl), Hne. reflexivity.
    + rewrite lookup_app. simpl. rewrite Hne.
      destruct (lookup k fields); reflexivity.
Qed.

(** Assignments in sequence: the last assignment to a key is what a read
    finds; a key never assigned keeps its former value. *)
Lemma lookup_assignments (k : string) (entries base : list (string * value)) :
  lookup k (fold_left (fun acc kv => set_field (fst kv) (snd kv) acc) entries base) =
  match lookup k (rev entries) with
  | Some v => Some v
  | None => lookup k base
  end.
Proof.
  revert base. induction entries as [| [k' v'] rest IH]; intros base; simpl.
  - reflexivity.
  - rewrite IH. clear IH. rewrite lookup_app. simpl.
    destruct (lookup k (rev rest)) as [v |]; [reflexivity |].
    destruct (String.eqb_spec k k') as [-> | Hne].
    + apply lookup_set_field_same.
    + apply lookup_set_field_other. exact Hne.
Qed.

Lemma lookup_rev_none (k : string) (fields : list (string * value)) :
  lookup k fields = None -> lookup k (rev fields) = None.
Proof.
  induction fields as [| [k' v'] rest IH]; simpl; [reflexivity |].
  destruct (String.eqb k k') eqn:E; [discriminate |]. intros Hn.
  rewrite lookup_app, (IH Hn). simpl. rewrite E. reflexivity.
Qed.

Lemma lookup_rev_nodup (k : string) (fields : list (string * value)) :
  NoDup (map fst fields) -> lookup k (rev fields) = lookup k fields.
Proof.
  induction fields as [| [k' v'] rest IH]; intros Hnd; simpl; [reflexivity |].
  inversion Hnd as [| ? ? Hnot Hrest]; subst.
  rewrite lookup_app, (IH Hrest). simpl.
  destruct (String.eqb_spec k k') as [-> | Hne].
  - assert (Hnone : lookup k' rest = None).
    { clear -Hnot. induction rest as [| [k1 v1] rest IHr]; simpl; [reflexivity |].
      destruct (String.eqb_spec k' k1) as [-> | Hk].
      - exfalso. apply Hnot. left. reflexivity.
      - apply IHr. intros Hin. apply Hnot. right. exact Hin. }
    rewrite Hnone. reflexivity.
  - destruct (lookup k rest); reflexivity.
Qed.

(** A flag of the engine: the caller's option of that name when there is
    one, the default otherwise. *)
Lemma field_lighthouse_flags `{Runtime} (endpoint : URL) (options : value) (k : string) :
  field (lighthouse_flags endpoint options) k =
  match lookup k (rev (own_entries options)) with
  | Some v => Some v
  | None => lookup k [("port", VNum (StringToNumber (port endpoint)));
                      ("output", VStr "json");
                      ("onlyCategories",
                       VArr [VStr "performance"; VStr "accessibility";
                             VStr "best-practices"; VStr "seo"])]
  end.
Proof. unfold lighthouse_flags, spread, field. apply lookup_assignments. Qed.

Lemma errors_logged_app (a b : list event) :
  errors_logged (a ++ b) = errors_logged a ++ errors_logged b.
Proof.
  induction a as [| [X op x] a IH]; simpl; [reflexivity |].
  destruct op; simpl; rewrite IH; reflexivity.
Qed.

Lemma lines_logged_app (a b : list event) :
  lines_logged (a ++ b) = lines_logged a ++ lines_logged b.
Proof.
  induction a as [| [X op x] a IH]; simpl; [reflexivity |].
  destruct op; simpl; rewrite IH; reflexivity.
Qed.

Lemma engine_calls_app (a b : list event) :
  engine_calls (a ++ b) = engine_calls a ++ engine_calls b.
Proof.
  induction a as [| [X op x] a IH]; simpl; [reflexivity |].
  destruct op; simpl; rewrite IH; reflexivity.
Qed.


(** ** The runner *)

Lemma closed_none (tr : list event) :
  Forall (fun ev => closed [ev] = []) tr -> closed tr = [].
Proof.
  induction 1 as [| [X op x] tr Hev _ IH]; [reflexivity |].
  destruct op; simpl in *; try discriminate; assumption.
Qed.

(** An execution acts on no browser but the one it launched, closes it once
    and does so last. *)
Lemma executeLighthouse_own_browser `{Runtime} (o : oracle) (url options : value)
      (b : browser) :
  o _ (Launch launch_options) = Normal b ->
  exists middle,
    trace o (executeLighthouse url options) =
    Event (Launch launch_options) (Normal b)
      :: middle ++ [Event (Close b) (o _ (Close b))] /\
    closed middle = [] /\
    Forall (fun ev => forall b', browser_of ev = Some b' -> b' = b) middle.
Proof.
  intros Hl. unfold trace. rewrite (run_executeLighthouse o url options b Hl).
  pose proof (every_executeLighthouse_try o
                (fun ev => closed [ev] = [] /\
                           forall b', browser_of ev = Some b' -> b' = b)
                b url (default_options options)) as Hev.
  unfold every in Hev.
  destruct (run o (executeLighthouse_try b url (default_options options))) as [tr r].
  cbn [fst] in *. exists tr.
  assert (Hall : Forall (fun ev => closed [ev] = [] /\
                           forall b', browser_of ev = Some b' -> b' = b) tr).
  { apply Hev.
    - intros ws. split; [reflexivity |]. simpl. intros b' [= <-]. reflexivity.
    - intros input base r0. split; [reflexivity | discriminate].
    - intros u flags r0. split; [reflexivity | discriminate]. }
  split; [reflexivity |]. split.
  - apply closed_none. eapply Forall_impl; [| exact Hall]. intros ev [Hc _]. exact Hc.
  - eapply Forall_impl; [| exact Hall]. intros ev [_ Hb]. exact Hb.
Qed.

(** The engine is called at most once, with the page and the flags. *)
Lemma engine_calls_executeLighthouse `{Runtime} (o : oracle) (url options : value)
      (b : browser) :
  o _ (Launch launch_options) = Normal b ->
  engine_calls (trace o (executeLighthouse url options)) =
  match o _ (NewURL (VStr (o _ (WsEndpoint b))) None) with
  | Normal endpoint => [(url, lighthouse_flags endpoint (default_options options))]
  | Thrown _ => []
  end.
Proof.
  intros Hl. unfold trace. rewrite (run_executeLighthouse o url options b Hl).
  rewrite run_executeLighthouse_try. cbv zeta.
  destruct (o _ (NewURL (VStr (o _ (WsEndpoint b))) None)) as [endpoint | e];
    reflexivity.
Qed.

Section Runner.
Context `{Runtime} (o : oracle).

(** C4, amended.  Once the browser is launched, every run of
    [executeLighthouse], whatever the environment answers (the engine
    resolves, rejects, or an exception is raised around it), closes that
    browser exactly once, as its last operation, and calls [wsEndpoint] and
    [close] on no other browser.  The engine is called at most once; it is
    directed to the port of that browser when the caller's options have no
    [port], and to the caller's [port] when they have one. *)
Theorem browser_closed_on_every_path (url options : value) (b : browser) :
  o _ (Launch launch_options) = Normal b ->
  closed (trace o (executeLighthouse url options)) = [b] /\
  (exists before,
     trace o (executeLighthouse url options) =
     before ++ [Event (Close b) (o _ (Close b))]) /\
  Forall (fun ev => forall b', browser_of ev = Some b' -> b' = b)
         (trace o (executeLighthouse url options)) /\
  (List.length (engine_calls (trace o (executeLighthouse url options))) <= 1)%nat /\
  (forall endpoint,
     o _ (NewURL (VStr (o _ (WsEndpoint b))) None) = Normal endpoint ->
     exists flags,
       engine_calls (trace o (executeLighthouse url options)) = [(url, flags)] /\
       (lookup "port" (own_entries (default_options options)) = None ->
        field flags "port" = Some (VNum (StringToNumber (port endpoint)))) /\
       (forall fields p,
          options = VObj fields -> NoDup (map fst fields) ->
          lookup "port" fields = Some p ->
          field flags "port" = Some p)).
Proof.
  intros Hl.
  destruct (executeLighthouse_own_browser o url options b Hl) as (middle & Htr & Hc & Hm).
  pose proof (engine_calls_executeLighthouse o url options b Hl) as Hcalls.
  split; [| split; [| split; [| split]]].
  - rewrite Htr. simpl. rewrite closed_app, Hc. reflexivity.
  - exists (Event (Launch launch_options) (Normal b) :: middle). rewrite Htr. reflexivity.
  - rewrite Htr. constructor; [discriminate |].
    apply Forall_app. split; [exact Hm |].
    repeat constructor. simpl. intros b' [= <-]. reflexivity.
  - rewrite Hcalls.
    destruct (o _ (NewURL (VStr (o _ (WsEndpoint b))) None)); simpl; lia.
  - intros endpoint Hu. rewrite Hcalls, Hu.
    exists (lighthouse_flags endpoint (default_options options)).
    split; [reflexivity |]. split.
    + intros Hnone. rewrite field_lighthouse_flags, (lookup_rev_none _ _ Hnone).
      reflexivity.
    + intros fields p -> Hnd Hp. rewrite field_lighthouse_flags.
      cbn [default_options own_entries Object_entries].
      rewrite (lookup_rev_nodup "port" fields Hnd), Hp. reflexivity.
Qed.

(** C3, amended.  When the engine call rejects, the browser is closed and
    the job ends with one more operation: the error entry made of the job
    id and of the [message] property of the rejection that reaches the
    [catch] callback, which is that of the engine when [browser.close]
    resolves and that of [browser.close] when closing rejects too; when
    that rejection is [undefined] or [null], reading its message throws
    and an unhandled rejection takes the place of the entry.  In every
    case no request is sent to the collector, nothing is printed by the
    delivery routine (no [console.log] at all), nothing is written to the
    response and the job completes normally. *)
Theorem engine_failure_is_logged_not_delivered
        (testId : string) (url options : value) (b : browser) (endpoint : URL)
        (err : value) :
  o _ (Launch launch_options) = Normal b ->
  o _ (NewURL (VStr (o _ (WsEndpoint b))) None) = Normal endpoint ->
  o _ (Lighthouse url (lighthouse_flags endpoint (default_options options)))
    = Thrown err ->
  run o (background_job testId url options) =
  ([Event (Launch launch_options) (Normal b);
    Event (WsEndpoint b) (o _ (WsEndpoint b));
    Event (NewURL (VStr (o _ (WsEndpoint b))) None) (Normal endpoint);
    Event (Lighthouse url (lighthouse_flags endpoint (default_options options)))
          (Thrown err);
    Event (Close b) (o _ (Close b));
    match get (match o _ (Close b) with Normal _ => err | Thrown e => e end)
              "message" with
    | Normal message =>
        Event (ConsoleError [VStr "❌ Erreur Lighthouse pour"; VStr testId;
                             VStr ":"; message]) tt
    | Thrown e => Event (UnhandledRejection e) tt
    end], Normal tt) /\
  posts (trace o (background_job testId url options)) = [] /\
  lines_logged (trace o (background_job testId url options)) = [] /\
  statuses (trace o (background_job testId url options)) = [].
Proof.
  intros Hl Hu He.
  assert (Hrun : run o (background_job testId url options) =
    ([Event (Launch launch_options) (Normal b);
      Event (WsEndpoint b) (o _ (WsEndpoint b));
      Event (NewURL (VStr (o _ (WsEndpoint b))) None) (Normal endpoint);
      Event (Lighthouse url (lighthouse_flags endpoint (default_options options)))
            (Thrown err);
      Event (Close b) (o _ (Close b));
      match get (match o _ (Close b) with Normal _ => err | Thrown e => e end)
                "message" with
      | Normal message =>
          Event (ConsoleError [VStr "❌ Erreur Lighthouse pour"; VStr testId;
                               VStr ":"; message]) tt
      | Thrown e => Event (UnhandledRejection e) tt
      end], Normal tt)).
  { rewrite run_background_job, (run_executeLighthouse o url options b Hl).
    rewrite run_executeLighthouse_try. cbv zeta. rewrite Hu. cbv beta iota.
    rewrite He. cbv beta iota.
    destruct (o _ (Close b)) as [[] | e] eqn:Hc; reflexivity. }
  split; [exact Hrun |]. unfold trace. rewrite Hrun. cbn [fst].
  destruct (get _ "message"); repeat split; reflexivity.
Qed.

(** C9, amended.  When the engine resolves with a result that carries no
    report ([undefined], or an object without [lhr]), what follows depends
    on [browser.close].  When it resolves, the job calls the delivery
    routine with [undefined]: the routine prints its first line, the read
    of [finalUrl] throws, the error is caught and logged.  When it rejects,
    the delivery routine is not called: the job logs the message of that
    rejection under its id (or ends in an unhandled rejection when the
    rejection is [undefined] or [null]).  In both cases no request is sent
    to the collector and the job completes normally. *)
Theorem missing_report_is_caught
        (testId : string) (url options : value) (b : browser) (endpoint : URL)
        (runnerResult : value) :
  o _ (Launch launch_options) = Normal b ->
  o _ (NewURL (VStr (o _ (WsEndpoint b))) None) = Normal endpoint ->
  o _ (Lighthouse url (lighthouse_flags endpoint (default_options options)))
    = Normal runnerResult ->
  truthy runnerResult = false \/ has_property "lhr" runnerResult = Normal false ->
  run o (background_job testId url options) =
  ([Event (Launch launch_options) (Normal b);
    Event (WsEndpoint b) (o _ (WsEndpoint b));
    Event (NewURL (VStr (o _ (WsEndpoint b))) None) (Normal endpoint);
    Event (Lighthouse url (lighthouse_flags endpoint (default_options options)))
          (Normal runnerResult);
    Event (Close b) (o _ (Close b))]
   ++ match o _ (Close b) with
      | Normal _ =>
          [Event (ConsoleLog [VStr "🎯 Test Lighthouse terminé pour"; VStr testId]) tt;
           Event (ConsoleLog [VStr "📊 Résultats Lighthouse pour"; VStr testId;
                              VStr ":"]) tt;
           Event (ConsoleError
                    [VStr "❌ Erreur lors de l'envoi des résultats à l'API:";
                     cannot_read VUndefined "finalUrl"]) tt]
      | Thrown e =>
          [match get e "message" with
           | Normal message =>
               Event (ConsoleError [VStr "❌ Erreur Lighthouse pour"; VStr testId;
                                    VStr ":"; message]) tt
           | Thrown e' => Event (UnhandledRejection e') tt
           end]
      end, Normal tt) /\
  posts (trace o (background_job testId url options)) = [].
Proof.
  intros Hl Hu He Hno.
  assert (Hlhr : lhr_of runnerResult = Normal VUndefined).
  { unfold lhr_of. destruct Hno as [Ht | Hp].
    - rewrite Ht. reflexivity.
    - rewrite Hp. destruct (truthy runnerResult); reflexivity. }
  assert (Hrun : run o (background_job testId url options) =
    ([Event (Launch launch_options) (Normal b);
      Event (WsEndpoint b) (o _ (WsEndpoint b));
      Event (NewURL (VStr (o _ (WsEndpoint b))) None) (Normal endpoint);
      Event (Lighthouse url (lighthouse_flags endpoint (default_options options)))
            (Normal runnerResult);
      Event (Close b) (o _ (Close b))]
     ++ match o _ (Close b) with
        | Normal _ =>
            [Event (ConsoleLog [VStr "🎯 Test Lighthouse terminé pour"; VStr testId]) tt;
             Event (ConsoleLog [VStr "📊 Résultats Lighthouse pour"; VStr testId;
                                VStr ":"]) tt;
             Event (ConsoleError
                      [VStr "❌ Erreur lors de l'envoi des résultats à l'API:";
                       cannot_read VUndefined "finalUrl"]) tt]
        | Thrown e =>
            [match get e "message" with
             | Normal message =>
                 Event (ConsoleError [VStr "❌ Erreur Lighthouse pour"; VStr testId;
                                      VStr ":"; message]) tt
             | Thrown e' => Event (UnhandledRejection e') tt
             end]
        end, Normal tt)).
  { rewrite run_background_job, (run_executeLighthouse o url options b Hl).
    rewrite run_executeLighthouse_try. cbv zeta. rewrite Hu. cbv beta iota.
    rewrite He. cbv beta iota. rewrite Hlhr.
    destruct (o _ (Close b)) as [[] | e] eqn:Hc; cbv beta iota.
    - rewrite run_sendResultsToAPI.
      unfold log_scores. rewrite run_bind, run_perform, unit_answer. cbv beta iota.
      rewrite run_bind, run_lift. reflexivity.
    - reflexivity. }
  split; [exact Hrun |]. unfold trace. rewrite Hrun. cbn [fst].
  destruct (o _ (Close b)) as [[] | e]; [reflexivity |].
  destruct (get e "message"); reflexivity.
Qed.

End Runner.


(** ** Strings *)

Lemma prefix_append (x s b : string) :
  prefix x s = true -> prefix x (s ++ b) = true.
Proof.
  revert s. induction x as [| c x IH]; intros s Hp;
    [destruct (s ++ b)%string; reflexivity |].
  destruct s as [| c' s]; simpl in *; [discriminate |].
  destruct (ascii_dec c c'); [apply IH; exact Hp | discriminate].
Qed.

Lemma prefix_refl (x : string) : prefix x x = true.
Proof.
  induction x as [| c x IH]; simpl; [reflexivity |].
  destruct (ascii_dec c c); [exact IH | contradiction].
Qed.

Lemma contains_prefix (x s : string) : prefix x s = true -> contains x s = true.
Proof. intros Hp. destruct s; cbn [contains]; rewrite Hp; reflexivity. Qed.

Lemma contains_cons (x s : string) (c : ascii) :
  contains x s = true -> contains x (String c s) = true.
Proof. intros Hc. cbn [contains]. rewrite Hc. apply orb_true_r. Qed.

Lemma contains_append_l (x a s : string) :
  contains x s = true -> contains x (a ++ s) = true.
Proof.
  intros Hc. induction a as [| c a IH]; simpl append; [exact Hc |].
  apply contains_cons, IH.
Qed.

Lemma contains_append_r (x s b : string) :
  contains x s = true -> contains x (s ++ b) = true.
Proof.
  induction s as [| c s IH]; intros Hc.
  - cbn [contains] in Hc. rewrite orb_false_r in Hc.
    apply contains_prefix. apply (prefix_append x "" b Hc).
  - cbn [contains] in Hc. apply orb_prop in Hc. destruct Hc as [Hp | Hr].
    + apply contains_prefix. apply (prefix_append x (String c s) b Hp).
    + simpl append. apply contains_cons, IH, Hr.
Qed.

Lemma contains_concat (x sep h : string) (t : list string) :
  contains x h = true -> contains x (String.concat sep (h :: t)) = true.
Proof.
  intros Hc. destruct t as [| h' t]; [exact Hc |].
  change (String.concat sep (h :: h' :: t))
    with (h ++ sep ++ String.concat sep (h' :: t))%string.
  apply contains_append_r, Hc.
Qed.

Lemma json_escape_char_plain (c : ascii) :
  json_plain c = true -> json_escape_char c = String c "".
Proof.
  unfold json_plain, json_escape_char. cbv zeta.
  destruct (Nat.ltb (nat_of_ascii c) 32) eqn:Hlt; [discriminate |].
  destruct (Nat.eqb (nat_of_ascii c) 34) eqn:H34; [discriminate |].
  destruct (Nat.eqb (nat_of_ascii c) 92) eqn:H92; [discriminate |].
  intros _. apply Nat.ltb_ge in Hlt.
  repeat match goal with
         | |- context [Nat.eqb (nat_of_ascii c) ?k] =>
             let E := fresh "E" in
             destruct (Nat.eqb (nat_of_ascii c) k) eqn:E;
             [apply Nat.eqb_eq in E; lia |]
         end.
  reflexivity.
Qed.

Lemma json_escape_plain (s : string) :
  forallb json_plain (list_ascii_of_string s) = true -> json_escape s = s.
Proof.
  induction s as [| c s IH]; simpl; [reflexivity |].
  intros Hall. apply andb_prop in Hall. destruct Hall as [Hc Hs].
  rewrite (json_escape_char_plain c Hc), (IH Hs). reflexivity.
Qed.

Lemma mentions_field (needle k : string) (v x : value) :
  field v k = Some x -> mentions needle x = true -> mentions needle v = true.
Proof.
  destruct v as [| | | | | | fields]; try discriminate. cbn [field mentions].
  induction fields as [| [k' v'] rest IH]; simpl; [discriminate |].
  destruct (String.eqb k k').
  - intros [= ->] Hm. rewrite Hm, orb_true_r. reflexivity.
  - intros Hl Hm. rewrite (IH Hl Hm). apply orb_true_r.
Qed.

(** The JSON text of an object whose first property is a string contains
    that string, escaped. *)
Lemma JSON_stringify_mentions `{Runtime} (k id text : string)
      (rest : list (string * value)) :
  JSON_stringify (VObj ((k, VStr id) :: rest)) = Some text ->
  contains (json_escape id) text = true.
Proof.
  set (body := String.concat ","
                 ((json_quote k ++ ":" ++ json_quote id)%string
                    :: json_members JSON_stringify rest)).
  change (JSON_stringify (VObj ((k, VStr id) :: rest)))
    with (Some ("{" ++ body ++ "}")%string).
  intros Ht. assert (Ht' : ("{" ++ body ++ "}")%string = text) by congruence.
  rewrite <- Ht'. clear Ht Ht'. unfold body.
  assert (Hm : contains (json_escape id) (json_quote k ++ ":" ++ json_quote id) = true).
  { apply contains_append_l. apply (contains_append_l _ ":").
    unfold json_quote. apply contains_cons, contains_prefix.
    apply prefix_append, prefix_refl. }
  apply (contains_append_l _ "{"), contains_append_r, contains_concat, Hm.
Qed.


(** ** The summary and the delivery *)

Section Delivery.
Context `{Runtime} (o : oracle).

Lemma console_is_no_post (ev : event) : is_console ev = true -> is_post ev = false.
Proof. destruct ev as [X op x]. destruct op; (discriminate || reflexivity). Qed.

Lemma posts_log_scores (testId : string) (results : value) :
  posts (fst (run o (log_scores testId results))) = [].
Proof. apply no_post_posts. apply every_log_scores. exact console_is_no_post. Qed.

Lemma posts_log_metrics (results : value) :
  posts (fst (run o (log_metrics results))) = [].
Proof. apply no_post_posts. apply every_log_metrics. exact console_is_no_post. Qed.

Lemma posts_sendResultsToAPI (testId : string) (results : value) :
  (List.length (posts (fst (run o (sendResultsToAPI testId results)))) <= 1)%nat.
Proof.
  rewrite run_sendResultsToAPI.
  pose proof (posts_log_scores testId results) as Hs.
  pose proof (posts_log_metrics results) as Hm.
  destruct (run o (log_scores testId results)) as [scores [[] | e]]; cbn [fst] in *.
  - destruct (run o (log_metrics results)) as [metrics [[] | e]]; cbn [fst] in *.
    + rewrite run_post_results. cbv zeta.
      destruct (o _ (AxiosPost _ _)) as [a | e]; cbn [fst];
        rewrite !posts_app, Hs, Hm; simpl; lia.
    + rewrite !posts_app, Hs, Hm. simpl. lia.
  - rewrite posts_app, Hs. simpl. lia.
Qed.

Lemma posts_executeLighthouse (url options : value) :
  posts (fst (run o (executeLighthouse url options))) = [].
Proof.
  apply no_post_posts. apply every_executeLighthouse.
  - intros [X op x] Hev. destruct op; (discriminate || reflexivity).
  - reflexivity.
Qed.

Lemma collector_address_eq : collector_endpoint = collector_address.
Proof.
  unfold collector_endpoint, collector_address, API_URL.
  destruct (process_env "API_URL") as [[| c base] |]; reflexivity.
Qed.

(** The summary comes first in every run of the delivery routine. *)
Lemma sendResultsToAPI_begins_with_scores (testId : string) (results : value) :
  exists rest,
    trace o (sendResultsToAPI testId results) =
    fst (run o (log_scores testId results)) ++ rest.
Proof.
  unfold trace. rewrite run_sendResultsToAPI.
  destruct (run o (log_scores testId results)) as [scores [[] | e]]; cbn [fst].
  - destruct (run o (log_metrics results)) as [metrics [[] | e]].
    + destruct (run o (post_results testId results)) as [sent r]. cbn [fst].
      eexists. reflexivity.
    + cbn [fst]. eexists. reflexivity.
  - eexists. reflexivity.
Qed.

(** C5.  A job sends at most one request to the collector, whatever the
    environment answers, also when some promise never settles.  The
    delivery routine never throws, reports no
    unhandled rejection and does not write to the response.  When the
    request to the collector is rejected, the routine ends with that single
    request, whose payload is [{testId, results, timestamp}], followed by
    one error entry made of a fixed text and the error.  The job id is not
    an argument of that entry; it is in it through the error, when this is
    a rejection of axios, which carries the configuration of the request:
    the entry then contains the job id as JSON writes it in the serialized
    payload, which is the job id itself when none of its characters is
    escaped. *)
Theorem delivery_at_most_once (testId : string) (url options results : value) :
  (List.length (posts (trace o (background_job testId url options))) <= 1)%nat /\
  (forall never : forall X : Type, effect X -> bool,
     (List.length (posts (fst (run_pending o never
                                 (background_job testId url options)))) <= 1)%nat) /\
  completion o (sendResultsToAPI testId results) = Normal tt /\
  Forall (fun ev => is_unhandled ev = false /\ writes_response ev = false)
         (trace o (sendResultsToAPI testId results)) /\
  (forall err,
     let payload := VObj [("testId", VStr testId);
                          ("results", results);
                          ("timestamp", VStr (o _ DateToISOString))] in
     o _ (AxiosPost collector_address payload) = Thrown err ->
     posts (trace o (sendResultsToAPI testId results)) = [] \/
     exists before entry,
       trace o (sendResultsToAPI testId results) =
       before ++ [Event (AxiosPost collector_address payload) (Thrown err);
                  Event (ConsoleError entry) tt] /\
       posts before = [] /\
       entry = [VStr "❌ Erreur lors de l'envoi des résultats à l'API:"; err] /\
       (axios_rejection payload err ->
        existsb (mentions (json_escape testId)) entry = true /\
        (forallb json_plain (list_ascii_of_string testId) = true ->
         existsb (mentions testId) entry = true))).
Proof.
  assert (Hone : (List.length (posts (trace o (background_job testId url options)))
                  <= 1)%nat).
  { unfold trace. rewrite run_background_job.
    pose proof (posts_executeLighthouse url options) as He.
    destruct (run o (executeLighthouse url options)) as [tr [res | error]];
      cbn [fst] in *.
    - rewrite posts_app, He. simpl. apply posts_sendResultsToAPI.
    - rewrite posts_app, He.
      destruct (get error "message"); simpl; lia. }
  split; [exact Hone |]. split; [| split; [| split]].
  - intros never.
    destruct (run_pending_prefix o never (background_job testId url options))
      as [rest Hrest].
    unfold trace in Hone. rewrite Hrest, posts_app, List.length_app in Hone. lia.
  - apply sendResultsToAPI_completes.
  - change (every o (fun ev => is_unhandled ev = false /\ writes_response ev = false)
                  (sendResultsToAPI testId results)).
    assert (Hc : forall ev, is_console ev = true ->
                            is_unhandled ev = false /\ writes_response ev = false).
    { intros [X op x] Hev. destruct op; (discriminate || (split; reflexivity)). }
    unfold sendResultsToAPI. apply every_try_catch.
    + apply every_bind; [apply every_log_scores, Hc | intros _].
      apply every_bind; [apply every_log_metrics, Hc | intros _].
      unfold post_results.
      apply every_bind; [apply every_perform; split; reflexivity | intros timestamp].
      apply every_bind; [apply every_await; split; reflexivity | intros _].
      apply every_perform. split; reflexivity.
    + intros e. apply every_perform. split; reflexivity.
  - intros err payload Herr.
    assert (Hin : axios_rejection payload err ->
                  mentions (json_escape testId) err = true).
    { intros (config & text & Hconfig & Hdata & Htext).
      apply (mentions_field _ "config" err config Hconfig).
      apply (mentions_field _ "data" config (VStr text) Hdata).
      cbn [mentions]. exact (JSON_stringify_mentions _ _ _ _ Htext). }
    unfold trace. rewrite run_sendResultsToAPI.
    pose proof (posts_log_scores testId results) as Hs.
    pose proof (posts_log_metrics results) as Hm.
    destruct (run o (log_scores testId results)) as [scores [[] | e]]; cbn [fst] in *.
    + destruct (run o (log_metrics results)) as [metrics [[] | e]]; cbn [fst] in *.
      * right. rewrite run_post_results. cbv zeta.
        rewrite collector_address_eq. unfold envelope. fold payload.
        rewrite Herr. cbn [fst].
        exists (scores ++ metrics ++ [Event DateToISOString (o _ DateToISOString)]).
        eexists.
        split; [rewrite <- !List.app_assoc; reflexivity |].
        split; [rewrite !posts_app, Hs, Hm; reflexivity |].
        split; [reflexivity |].
        intros Haxios. specialize (Hin Haxios). split.
        -- cbn [existsb]. apply orb_true_iff. right.
           apply orb_true_iff. left. exact Hin.
        -- intros Hplain. cbn [existsb]. apply orb_true_iff. right.
           apply orb_true_iff. left.
           rewrite <- (json_escape_plain testId Hplain). exact Hin.
      * left. rewrite !posts_app, Hs, Hm. reflexivity.
    + left. rewrite posts_app, Hs. reflexivity.
Qed.

(** *** Scores *)

Lemma get_get_opt (v : value) (k : string) :
  nullish v = false -> get v k = Normal (get_opt v k).
Proof.
  destruct v; simpl; intros E; try discriminate; try reflexivity.
  destruct (lookup k fields); reflexivity.
Qed.

Lemma get_not_nullish (v x : value) (k : string) :
  get v k = Normal x -> nullish v = false /\ get_opt v k = x.
Proof.
  intros Hg. assert (Hn : nullish v = false) by (destruct v; try discriminate; reflexivity).
  split; [exact Hn |]. rewrite (get_get_opt v k Hn) in Hg. injection Hg as Hg. exact Hg.
Qed.

Lemma run_log_category (category : string) (data : value) :
  run o (log_category (category, data)) =
  match get data "score" with
  | Thrown e => ([], Thrown e)
  | Normal raw =>
      match score_of raw with
      | Thrown e => ([], Thrown e)
      | Normal score =>
          ([Event (ConsoleLog
                     [VStr ("  " ++ emoji_of score ++ " " ++ category ++ ": "
                            ++ number_to_string score ++ "/100")%string]) tt],
           Normal tt)
      end
  end.
Proof.
  unfold log_category. rewrite run_bind, run_lift.
  destruct (get data "score") as [raw | e]; cbv beta iota; [| reflexivity].
  rewrite run_bind, run_lift.
  destruct (score_of raw) as [score | e]; cbv beta iota zeta; [| reflexivity].
  rewrite run_perform, unit_answer. reflexivity.
Qed.

Lemma run_log_category_percent (category : string) (data raw : value) (n : Z) :
  get data "score" = Normal raw -> score_of raw = Normal (of_Z n) -> 0 <= n <= 100 ->
  run o (log_category (category, data)) =
  ([Event (ConsoleLog [VStr (score_line category n)]) tt], Normal tt).
Proof.
  intros Hg Hs Hn. rewrite run_log_category, Hg, Hs.
  destruct (percent_rendering n Hn) as [-> ->]. reflexivity.
Qed.

(** A score that is missing, [null], zero or otherwise falsy counts as 0. *)
Lemma score_of_falsy (raw : value) :
  truthy raw = false -> score_of raw = Normal (of_Z 0).
Proof. intros Ht. unfold score_of, or_else. rewrite Ht. reflexivity. Qed.

Lemma run_log_category_falsy (category : string) (data : value) :
  nullish data = false -> truthy (get_opt data "score") = false ->
  run o (log_category (category, data)) =
  ([Event (ConsoleLog [VStr ("  🔴 " ++ category ++ ": 0/100")%string]) tt],
   Normal tt).
Proof.
  intros Hn Ht.
  rewrite (run_log_category_percent category data (get_opt data "score") 0);
    [reflexivity | apply get_get_opt, Hn | apply score_of_falsy, Ht | lia].
Qed.

Lemma run_log_category_scored (category : string) (data : value) :
  well_scored data ->
  exists n, 0 <= n <= 100 /\ percentage data n /\
            run o (log_category (category, data)) =
            ([Event (ConsoleLog [VStr (score_line category n)]) tt], Normal tt).
Proof.
  intros [[x Hx] | [Hn Hs]].
  - destruct Hx as (Hg & Hv & H0 & H1).
    destruct (score_of_percent x Hv H0 H1) as (n & Hn & Hs & Hnear).
    exists n. split; [exact Hn |]. split.
    + left. exists x. split; [repeat split; assumption | exact Hnear].
    + exact (run_log_category_percent category data (VNum x) n Hg Hs Hn).
  - exists 0. split; [lia |]. split.
    + right. repeat split; assumption.
    + apply (run_log_category_percent category data (get_opt data "score") 0);
        [apply get_get_opt, Hn | | lia].
      apply score_of_falsy. destruct (get_opt data "score"); try discriminate; reflexivity.
Qed.

Lemma run_forEach_scored (entries : list (string * value)) :
  Forall (fun entry => well_scored (snd entry)) entries ->
  exists percents : list Z,
    Forall2 (fun entry n => 0 <= n <= 100 /\ percentage (snd entry) n) entries percents /\
    run o (forEach entries log_category) =
    (map (fun en => Event (ConsoleLog [VStr (score_line (fst (fst en)) (snd en))]) tt)
         (combine entries percents),
     Normal tt).
Proof.
  induction 1 as [| [category data] rest Hd _ IH].
  - exists []. split; [constructor | reflexivity].
  - destruct IH as (percents & Hp & Hrun).
    destruct (run_log_category_scored category data Hd) as (n & Hn & Hpc & Hline).
    exists (n :: percents). split; [constructor; [split; assumption | exact Hp] |].
    cbn [forEach]. rewrite run_bind, Hline. cbv beta iota. rewrite Hrun. reflexivity.
Qed.

(** The summary of the scores of a report: the three header lines, then
    the lines of the categories. *)
Lemma run_log_scores (testId : string) (results : value) :
  nullish results = false ->
  run o (log_scores testId results) =
  let categories := get_opt results "categories" in
  let (lines, r) :=
    if truthy categories
    then run o (forEach (Object_entries categories) log_category)
    else ([], Normal tt) in
  (summary_header testId results ++ lines, r).
Proof.
  intros Hn. unfold log_scores, summary_header, or_else.
  rewrite run_bind, run_perform, unit_answer. cbv beta iota.
  rewrite run_bind, run_lift, (get_get_opt results "finalUrl" Hn). cbv beta iota.
  rewrite run_bind.
  assert (Htested : run o (if truthy (get_opt results "finalUrl")
                           then Ret (get_opt results "finalUrl")
                           else lift (get results "requestedUrl")) =
                    ([], Normal (if truthy (get_opt results "finalUrl")
                                 then get_opt results "finalUrl"
                                 else get_opt results "requestedUrl"))).
  { destruct (truthy (get_opt results "finalUrl")); [reflexivity |].
    rewrite (get_get_opt results "requestedUrl" Hn). reflexivity. }
  rewrite Htested. cbv beta iota.
  rewrite run_bind, run_perform, unit_answer. cbv beta iota.
  rewrite run_bind, run_perform, unit_answer. cbv beta iota.
  rewrite run_bind, run_lift, (get_get_opt results "categories" Hn). cbv beta iota zeta.
  destruct (truthy (get_opt results "categories")); [| reflexivity].
  destruct (run o (forEach (Object_entries (get_opt results "categories")) log_category))
    as [lines r]. reflexivity.
Qed.

(** C6.  For a report whose categories are as the data model has them (a
    score between 0 and 1, or none), the summary prints, right after its
    three header lines, one line per category, in order: the tier mark, the
    name and [n/100], where [n] is the integer nearest to the double
    [score * 100] (a half going up; 0 without a score), between 0 and 100,
    and the mark is the green one from 90, the yellow one from 50 and the
    red one below.  A score of 0.95 prints [95/100] with the green mark,
    0.40 prints [40/100] with the red one, and 0.57, whose product with 100
    is the double just below 57, prints [57/100] with the yellow one. *)
Theorem category_score_rendering (testId : string) :
  (forall (results : value) (entries : list (string * value)),
     get results "categories" = Normal (VObj entries) ->
     Forall (fun entry => well_scored (snd entry)) entries ->
     exists (percents : list Z) (after : list event),
       Forall2 (fun entry n => 0 <= n <= 100 /\ percentage (snd entry) n)
               entries percents /\
       trace o (sendResultsToAPI testId results) =
       summary_header testId results
       ++ map (fun en => Event (ConsoleLog
                                  [VStr ("  " ++ tier (snd en) ++ " " ++ fst (fst en) ++ ": "
                                         ++ decimal (snd en) ++ "/100")%string]) tt)
              (combine entries percents)
       ++ after) /\
  (forall n, tier n = if 90 <=? n then "🟢" else if 50 <=? n then "🟡" else "🔴") /\
  (exists after,
     trace o (sendResultsToAPI testId
                (VObj [("categories",
                        VObj [("performance", VObj [("score", VNum double_0_95)]);
                              ("seo", VObj [("score", VNum double_0_40)]);
                              ("accessibility", VObj [("score", VNum double_0_57)])])])) =
     [Event (ConsoleLog [VStr "📊 Résultats Lighthouse pour"; VStr testId; VStr ":"]) tt;
      Event (ConsoleLog [VStr "URL testée:"; VUndefined]) tt;
      Event (ConsoleLog [VStr "Scores:"]) tt;
      Event (ConsoleLog [VStr "  🟢 performance: 95/100"]) tt;
      Event (ConsoleLog [VStr "  🔴 seo: 40/100"]) tt;
      Event (ConsoleLog [VStr "  🟡 accessibility: 57/100"]) tt] ++ after).
Proof.
  split; [| split; [reflexivity |]].
  - intros results entries Hg Hall.
    destruct (get_not_nullish _ _ _ Hg) as [Hn Hc].
    destruct (run_forEach_scored entries Hall) as (percents & Hp & Hrun).
    destruct (sendResultsToAPI_begins_with_scores testId results) as [rest Hrest].
    exists percents, rest. split; [exact Hp |].
    rewrite Hrest, (run_log_scores testId results Hn). cbv zeta. rewrite Hc.
    cbn [truthy Object_entries]. rewrite Hrun. cbn [fst].
    rewrite <- List.app_assoc. reflexivity.
  - set (report := VObj [("categories",
                          VObj [("performance", VObj [("score", VNum double_0_95)]);
                                ("seo", VObj [("score", VNum double_0_40)]);
                                ("accessibility", VObj [("score", VNum double_0_57)])])]).
    destruct (sendResultsToAPI_begins_with_scores testId report) as [rest Hrest].
    exists rest. rewrite Hrest, (run_log_scores testId report eq_refl). cbv zeta.
    cbn [report get_opt lookup String.eqb Ascii.eqb Bool.eqb truthy Object_entries forEach].
    rewrite run_bind,
      (run_log_category_percent "performance" _ (VNum double_0_95) 95);
      [| reflexivity | vm_compute; reflexivity | lia].
    cbv beta iota.
    rewrite run_bind, (run_log_category_percent "seo" _ (VNum double_0_40) 40);
      [| reflexivity | vm_compute; reflexivity | lia].
    cbv beta iota.
    rewrite run_bind, (run_log_category_percent "accessibility" _ (VNum double_0_57) 57);
      [| reflexivity | vm_compute; reflexivity | lia].
    reflexivity.
Qed.

Lemma run_forEach_app {A : Type} (before after : list A) (f : A -> prog unit) :
  run o (forEach (before ++ after) f) =
  match run o (forEach before f) with
  | (tr, Normal _) => let (tr', r) := run o (forEach after f) in (tr ++ tr', r)
  | (tr, Thrown e) => (tr, Thrown e)
  end.
Proof.
  induction before as [| x before IH]; cbn [forEach app].
  - cbn [run]. destruct (run o (forEach after f)); reflexivity.
  - rewrite !run_bind. destruct (run o (f x)) as [tr [[] | e]]; [| reflexivity].
    rewrite IH. destruct (run o (forEach before f)) as [tr1 [[] | e1]].
    + destruct (run o (forEach after f)) as [tr2 r2]. rewrite List.app_assoc. reflexivity.
    + reflexivity.
Qed.

(** Entries whose lines can be printed are printed, one line each, all of
    them [console.log] lines. *)
Lemma run_forEach_printable (entries : list (string * value)) :
  Forall (fun entry => printable (snd entry)) entries ->
  exists lines,
    run o (forEach entries log_category) = (lines, Normal tt) /\
    List.length lines = List.length entries /\
    Forall (fun ev => is_console ev = true /\ errors_logged [ev] = []) lines.
Proof.
  induction 1 as [| [category data] rest [Hn [x Hx]] _ (lines & Hrun & Hlen & Hall)].
  - exists []. repeat split. constructor.
  - cbn [forEach]. rewrite run_bind, run_log_category.
    cbn [snd] in Hn, Hx. rewrite (get_get_opt data "score" Hn).
    unfold score_of. rewrite Hx. cbv beta iota. rewrite Hrun.
    eexists. split; [reflexivity |]. split; [simpl; rewrite Hlen; reflexivity |].
    constructor; [split; reflexivity | exact Hall].
Qed.

(** C10, amended.  In a report, a category entry that is not itself
    [undefined] or [null], whose score is missing, [null], zero or
    otherwise falsy, and before which every entry can be printed, has its
    line in the summary, at its place among the lines of the categories:
    [0/100] with the red mark.  It is neither skipped nor printed as
    "N/A". *)
Theorem missing_score_renders_zero
        (testId : string) (results : value) (before after : list (string * value))
        (category : string) (data : value) :
  get results "categories" = Normal (VObj (before ++ (category, data) :: after)) ->
  Forall (fun entry => printable (snd entry)) before ->
  nullish data = false ->
  truthy (get_opt data "score") = false ->
  exists lines rest,
    trace o (sendResultsToAPI testId results) =
    summary_header testId results
    ++ lines
    ++ Event (ConsoleLog [VStr ("  🔴 " ++ category ++ ": 0/100")%string]) tt :: rest /\
    List.length lines = List.length before.
Proof.
  intros Hg Hb Hn Ht.
  destruct (get_not_nullish _ _ _ Hg) as [Hr Hc].
  destruct (run_forEach_printable before Hb) as (lines & Hrun & Hlen & _).
  destruct (sendResultsToAPI_begins_with_scores testId results) as [rest Hrest].
  rewrite Hrest, (run_log_scores testId results Hr). cbv zeta. rewrite Hc.
  cbn [truthy Object_entries]. rewrite run_forEach_app, Hrun.
  cbn [forEach]. rewrite run_bind, (run_log_category_falsy category data Hn Ht).
  cbv beta iota.
  destruct (run o (forEach after log_category)) as [tr r]. cbn [fst].
  exists lines, (tr ++ rest). split; [| exact Hlen].
  rewrite <- !List.app_assoc. reflexivity.
Qed.

(** *** Metrics *)

Lemma to_string_metric (results : value) (id : string) :
  to_string (metric (get_opt results "audits") id) = metric_text results id.
Proof.
  unfold metric_text, display_value, metric, field, or_else.
  destruct results as [| | | | | | fields]; try reflexivity. cbn [get_opt].
  destruct (lookup "audits" fields) as [audits |]; [| reflexivity].
  destruct audits as [| | | | | | afields]; try reflexivity. cbn [get_opt].
  destruct (lookup id afields) as [audit |]; [| reflexivity].
  destruct audit as [| | | | | | dfields]; try reflexivity. cbn [get_opt].
  destruct (lookup "displayValue" dfields) as [d |]; [| reflexivity].
  destruct (truthy d); reflexivity.
Qed.

Lemma run_log_metrics (results : value) :
  nullish results = false ->
  run o (log_metrics results) =
  metrics_summary (metric_text results "first-contentful-paint")
                  (metric_text results "largest-contentful-paint")
                  (metric_text results "total-byte-weight").
Proof.
  intros Hn. unfold log_metrics, metrics_summary.
  rewrite run_bind, run_lift, (get_get_opt results "audits" Hn). cbv beta iota zeta.
  rewrite run_bind, run_perform, unit_answer. cbv beta iota.
  rewrite run_bind, run_lift, to_string_metric.
  destruct (metric_text results "first-contentful-paint") as [a | e];
    cbv beta iota; [| reflexivity].
  rewrite run_bind, run_perform, unit_answer. cbv beta iota.
  rewrite run_bind, run_lift, to_string_metric.
  destruct (metric_text results "largest-contentful-paint") as [b | e];
    cbv beta iota; [| reflexivity].
  rewrite run_bind, run_perform, unit_answer. cbv beta iota.
  rewrite run_bind, run_lift, to_string_metric.
  destruct (metric_text results "total-byte-weight") as [c | e];
    cbv beta iota; [| reflexivity].
  rewrite run_bind, run_perform, unit_answer. cbv beta iota.
  rewrite run_perform, unit_answer. reflexivity.
Qed.

Lemma metric_text_missing (results : value) (id : string) :
  missing results id -> metric_text results id = Normal "N/A".
Proof.
  unfold missing, metric_text.
  destruct (display_value results id) as [v |]; [| reflexivity].
  intros ->. reflexivity.
Qed.

(** C7.  For a report that is not [undefined] or [null], the summary of the
    metrics prints its lines from the three texts of the metrics, each
    looked up on its own: the text of a metric that is missing (no
    [audits], no such audit, no [displayValue] in it, or one that is
    [undefined], [null] or empty) is "N/A", and computing it raises no
    error; the text of a metric with a display value is that value as a
    string.  When the three metrics are missing the five lines are printed
    with "N/A" three times and the summary completes.  When the scores were
    printed without error, these lines come next in the run of the
    delivery routine, and the one request to the collector follows when
    they were all printed. *)
Theorem missing_metric_renders_NA (testId : string) (results : value) :
  nullish results = false ->
  run o (log_metrics results) =
  metrics_summary (metric_text results "first-contentful-paint")
                  (metric_text results "largest-contentful-paint")
                  (metric_text results "total-byte-weight") /\
  (forall id, missing results id -> metric_text results id = Normal "N/A") /\
  (forall id v, display_value results id = Some v -> truthy v = true ->
                metric_text results id = to_string v) /\
  (missing results "first-contentful-paint" ->
   missing results "largest-contentful-paint" ->
   missing results "total-byte-weight" ->
   run o (log_metrics results) =
   ([Event (ConsoleLog [VStr "⚡ Métriques de performance:"]) tt;
     Event (ConsoleLog [VStr "  First Contentful Paint: N/A"]) tt;
     Event (ConsoleLog [VStr "  Largest Contentful Paint: N/A"]) tt;
     Event (ConsoleLog [VStr "  Taille totale: N/A"]) tt;
     Event (ConsoleLog [VStr "---"]) tt], Normal tt)) /\
  (forall scores,
     run o (log_scores testId results) = (scores, Normal tt) ->
     exists after,
       trace o (sendResultsToAPI testId results) =
       scores
       ++ fst (metrics_summary (metric_text results "first-contentful-paint")
                               (metric_text results "largest-contentful-paint")
                               (metric_text results "total-byte-weight"))
       ++ after /\
       (snd (metrics_summary (metric_text results "first-contentful-paint")
                             (metric_text results "largest-contentful-paint")
                             (metric_text results "total-byte-weight")) = Normal tt ->
        List.length (posts after) = 1%nat)).
Proof.
  intros Hn. pose proof (run_log_metrics results Hn) as Hrun.
  split; [exact Hrun |].
  split; [exact (metric_text_missing results) |].
  split; [intros id v Hd Ht; unfold metric_text; rewrite Hd, Ht; reflexivity |].
  split.
  - intros H1 H2 H3.
    rewrite Hrun, (metric_text_missing _ _ H1), (metric_text_missing _ _ H2),
      (metric_text_missing _ _ H3). reflexivity.
  - intros scores Hs. unfold trace. rewrite run_sendResultsToAPI, Hs, Hrun.
    destruct (metrics_summary _ _ _) as [metrics [[] | e]]; cbn [fst snd].
    + rewrite run_post_results. cbv zeta. cbn [fst].
      eexists. split; [reflexivity |]. intros _.
      destruct (o _ (AxiosPost _ _)); reflexivity.
    + eexists. split; [reflexivity | discriminate].
Qed.

End Delivery.


(** ** The statements at the sample inputs *)

Lemma response_before_audit_witness :
  exists testId before after,
    trace (oracle_of sample_answers) (@on_request sample_runtime sample_request) =
    before
    ++ [Event (WriteHead 200 [("Content-Type", "application/json")]) tt;
        Event (End (Some (VObj [("id", VStr testId);
                                ("status", VStr "pending");
                                ("message", VStr "Test Lighthouse en cours...")]))) tt]
    ++ after /\
    Forall (fun ev => audit_operation ev = false) before /\
    after = trace (oracle_of sample_answers)
                  (@background_job sample_runtime testId (VStr "https://example.com")
                     (get_opt sample_body "options")) /\
    (exists rest,
       after = Event (Launch launch_options)
                     (oracle_of sample_answers _ (Launch launch_options)) :: rest) /\
    Forall (fun ev => writes_response ev = false) after /\
    completion (oracle_of sample_answers) (@on_request sample_runtime sample_request)
    = Normal tt.
Proof.
  apply (@response_before_audit sample_runtime (oracle_of sample_answers)
           sample_request sample_home sample_target sample_body
           (VStr "https://example.com")); reflexivity.
Defined.

Lemma invalid_url_rejected_witness :
  let o := oracle_of (with_body (Normal (VObj [("url", VStr "example")])) sample_answers) in
  run o (@on_request sample_runtime sample_request) =
  (preamble sample_request (Normal sample_home)
     ++ Event ParseJSONBody (Normal (VObj [("url", VStr "example")]))
     :: Event (NewURL (VStr "example") None) (Thrown (TypeError "Invalid URL"))
     :: response (VObj [("error", VStr "URL invalide")]) 400,
   Normal tt).
Proof.
  cbv zeta.
  apply (proj2 (@invalid_url_rejected sample_runtime
                  (oracle_of (with_body (Normal (VObj [("url", VStr "example")]))
                                        sample_answers))
                  sample_request sample_home (VObj [("url", VStr "example")])
                  (VStr "example") eq_refl eq_refl eq_refl eq_refl eq_refl));
    reflexivity.
Defined.

(** C2 as stated fails: a body without [url] is answered with the error
    "URL requise", not "URL required"; an unparsable [url] with "URL
    invalide"; and a body that is [null] is answered with status 500. *)
Lemma url_required_message_differs :
  let answer (body : value) :=
    trace (oracle_of (with_body (Normal body) sample_answers))
          (@on_request sample_runtime sample_request) in
  bodies (answer (VObj [])) = [Some (VObj [("error", VStr "URL requise")])] /\
  bodies (answer (VObj [])) <> [Some (VObj [("error", VStr "URL required")])] /\
  bodies (answer (VObj [("url", VStr "example")]))
    = [Some (VObj [("error", VStr "URL invalide")])] /\
  statuses (answer VNull) = [500].
Proof.
  cbv zeta. split; [vm_compute; reflexivity |].
  split; [vm_compute; discriminate |].
  split; vm_compute; reflexivity.
Qed.

Lemma job_ids_differ_iff_witness :
  statuses (trace (oracle_of sample_answers) (@on_request sample_runtime sample_request))
    = [200] /\
  bodies (trace (oracle_of sample_answers) (@on_request sample_runtime sample_request)) =
  [Some (VObj [("id", VStr (@make_testId sample_runtime
                              (oracle_of sample_answers _ DateNow)
                              (oracle_of sample_answers _ MathRandom)));
               ("status", VStr "pending");
               ("message", VStr "Test Lighthouse en cours...")])].
Proof.
  apply (proj2 (proj2 (@job_ids_differ_iff sample_runtime (oracle_of sample_answers)
                         sample_request sample_home sample_target sample_body
                         (VStr "https://example.com"))));
    reflexivity.
Defined.

(** C8 as stated fails: two accepted requests for different pages that
    arrive in the same millisecond and draw the same random number receive
    the same identifier. *)
Lemma same_instant_same_id :
  let first := oracle_of sample_answers in
  let second :=
    oracle_of (with_body (Normal (VObj [("url", VStr "https://example.org")]))
                         sample_answers) in
  first _ ParseJSONBody <> second _ ParseJSONBody /\
  bodies (trace first (@on_request sample_runtime sample_request))
    = [Some (accepted sample_id)] /\
  bodies (trace second (@on_request sample_runtime sample_request))
    = [Some (accepted sample_id)].
Proof.
  cbv zeta. split; [vm_compute; discriminate |].
  split; vm_compute; reflexivity.
Qed.

Lemma engine_failure_is_logged_not_delivered_witness :
  let o := oracle_of (with_lighthouse (Thrown engine_error) sample_answers) in
  run o (@background_job sample_runtime sample_id (VStr "https://example.com") VUndefined) =
  ([Event (Launch launch_options) (Normal 1%nat);
    Event (WsEndpoint 1%nat) (o _ (WsEndpoint 1%nat));
    Event (NewURL (VStr (o _ (WsEndpoint 1%nat))) None) (Normal sample_endpoint);
    Event (Lighthouse (VStr "https://example.com")
             (@lighthouse_flags sample_runtime sample_endpoint (default_options VUndefined)))
          (Thrown engine_error);
    Event (Close 1%nat) (o _ (Close 1%nat));
    audit_error sample_id (VStr "net::ERR_NAME_NOT_RESOLVED")], Normal tt) /\
  posts (trace o (@background_job sample_runtime sample_id (VStr "https://example.com")
                    VUndefined)) = [] /\
  lines_logged (trace o (@background_job sample_runtime sample_id
                           (VStr "https://example.com") VUndefined)) = [] /\
  statuses (trace o (@background_job sample_runtime sample_id
                       (VStr "https://example.com") VUndefined)) = [].
Proof.
  cbv zeta.
  apply (@engine_failure_is_logged_not_delivered sample_runtime
           (oracle_of (with_lighthouse (Thrown engine_error) sample_answers))
           sample_id (VStr "https://example.com") VUndefined 1%nat sample_endpoint
           engine_error);
    reflexivity.
Defined.

(** C3 as stated fails.  When the engine rejects and [browser.close]
    rejects too, the entry logged under the job id carries the message of
    the close, and the message of the engine failure is in no entry; and
    when the engine rejects with [undefined] no entry is logged at all and
    the chain ends in an unhandled rejection. *)
Lemma engine_message_lost_when_close_fails :
  let job (a : answers) :=
    trace (oracle_of a)
          (@background_job sample_runtime sample_id (VStr "https://example.com")
             VUndefined) in
  let both_fail :=
    job (with_close (Thrown close_error)
           (with_lighthouse (Thrown engine_error) sample_answers)) in
  let no_reason := job (with_lighthouse (Thrown VUndefined) sample_answers) in
  errors_logged both_fail =
    [[VStr "❌ Erreur Lighthouse pour"; VStr sample_id; VStr ":";
      VStr "Protocol error: Connection closed"]] /\
  existsb (mentions "net::ERR_NAME_NOT_RESOLVED") (List.concat (errors_logged both_fail))
    = false /\
  errors_logged no_reason = [] /\
  existsb is_unhandled no_reason = true.
Proof. cbv zeta. repeat split; vm_compute; reflexivity. Qed.

Lemma browser_closed_on_every_path_witness :
  closed (trace (oracle_of sample_answers)
                (@executeLighthouse sample_runtime (VStr "https://example.com") VUndefined))
  = [1%nat].
Proof.
  apply (@browser_closed_on_every_path sample_runtime (oracle_of sample_answers)
           (VStr "https://example.com") VUndefined 1%nat).
  reflexivity.
Defined.

(** C4 as stated fails.  With the option [port: 9333] the engine is sent to
    port 9333, whichever browser listens there, and not to port 9222 of
    the browser that this execution launched, and closes. *)
Lemma caller_port_redirects_engine :
  let tr := trace (oracle_of sample_answers)
                  (@executeLighthouse sample_runtime (VStr "https://example.com")
                     (VObj [("port", VNum (of_Z 9333))])) in
  map (fun call => field (snd call) "port") (engine_calls tr)
    = [Some (VNum (of_Z 9333))] /\
  @StringToNumber sample_runtime (port sample_endpoint) = of_Z 9222 /\
  of_Z 9333 <> of_Z 9222 /\
  closed tr = [1%nat].
Proof.
  cbv zeta. split; [vm_compute; reflexivity |].
  split; [vm_compute; reflexivity |].
  split; [vm_compute; discriminate | vm_compute; reflexivity].
Qed.

Lemma delivery_at_most_once_witness :
  let o := oracle_of (with_post (Thrown refused_delivery) sample_answers) in
  let payload := VObj [("testId", VStr sample_id);
                       ("results", sample_report);
                       ("timestamp", VStr "2024-04-05T19:34:38.901Z")] in
  exists before entry,
    trace o (@sendResultsToAPI sample_runtime sample_id sample_report) =
    before ++ [Event (AxiosPost "http://localhost:3000/api/lighthouse/results" payload)
                     (Thrown refused_delivery);
               Event (ConsoleError entry) tt] /\
    posts before = [] /\
    entry = [VStr "❌ Erreur lors de l'envoi des résultats à l'API:"; refused_delivery] /\
    existsb (mentions sample_id) entry = true.
Proof.
  cbv zeta.
  destruct (proj2 (proj2 (proj2 (proj2
              (@delivery_at_most_once sample_runtime
                 (oracle_of (with_post (Thrown refused_delivery) sample_answers))
                 sample_id VUndefined VUndefined sample_report))))
              refused_delivery eq_refl)
    as [Hnone | (before & entry & Htr & Hposts & Hentry & Hid)].
  - vm_compute in Hnone. discriminate.
  - exists before, entry.
    split; [exact Htr |]. split; [exact Hposts |]. split; [exact Hentry |].
    apply Hid; [| reflexivity].
    eexists. eexists. split; [reflexivity |]. split; reflexivity.
Defined.

Lemma category_score_rendering_witness :
  exists (percents : list Z) (after : list event),
    Forall2 (fun entry n => 0 <= n <= 100 /\ percentage (snd entry) n)
            sample_entries percents /\
    trace (oracle_of sample_answers) (@sendResultsToAPI sample_runtime sample_id sample_report) =
    summary_header sample_id sample_report
    ++ map (fun en => Event (ConsoleLog
                               [VStr ("  " ++ tier (snd en) ++ " " ++ fst (fst en) ++ ": "
                                      ++ decimal (snd en) ++ "/100")%string]) tt)
           (combine sample_entries percents)
    ++ after.
Proof.
  apply (proj1 (@category_score_rendering sample_runtime (oracle_of sample_answers)
                  sample_id) sample_report sample_entries).
  - reflexivity.
  - apply Forall_cons;
      [left; exists double_0_95; repeat split; vm_compute; reflexivity |].
    apply Forall_cons;
      [left; exists double_0_40; repeat split; vm_compute; reflexivity |].
    apply Forall_nil.
Defined.

Lemma missing_metric_renders_NA_witness :
  run (oracle_of sample_answers) (@log_metrics sample_runtime sample_report) =
  ([Event (ConsoleLog [VStr "⚡ Métriques de performance:"]) tt;
    Event (ConsoleLog [VStr "  First Contentful Paint: N/A"]) tt;
    Event (ConsoleLog [VStr "  Largest Contentful Paint: 1.2 s"]) tt;
    Event (ConsoleLog [VStr "  Taille totale: N/A"]) tt;
    Event (ConsoleLog [VStr "---"]) tt], Normal tt).
Proof.
  apply (@missing_metric_renders_NA sample_runtime (oracle_of sample_answers)
           sample_id sample_report).
  reflexivity.
Defined.

Lemma missing_report_is_caught_witness :
  let o := oracle_of (with_lighthouse (Normal (VObj [("artifacts", VObj [])]))
                                      sample_answers) in
  posts (trace o (@background_job sample_runtime sample_id
                    (VStr "https://example.com") VUndefined)) = [].
Proof.
  cbv zeta.
  apply (@missing_report_is_caught sample_runtime
           (oracle_of (with_lighthouse (Normal (VObj [("artifacts", VObj [])]))
                                       sample_answers))
           sample_id (VStr "https://example.com") VUndefined 1%nat sample_endpoint
           (VObj [("artifacts", VObj [])]));
    try reflexivity.
  right. reflexivity.
Defined.

(** C9 as stated fails.  When the engine resolves without a report and
    [browser.close] rejects, the delivery routine is not called: nothing is
    printed by [console.log], and the only entry is the error of the close
    under the job id. *)
Lemma missing_report_close_failure_skips_delivery :
  let o := oracle_of (with_close (Thrown close_error)
                        (with_lighthouse (Normal (VObj [("artifacts", VObj [])]))
                                         sample_answers)) in
  let tr := trace o (@background_job sample_runtime sample_id
                       (VStr "https://example.com") VUndefined) in
  lines_logged tr = [] /\
  errors_logged tr =
    [[VStr "❌ Erreur Lighthouse pour"; VStr sample_id; VStr ":";
      VStr "Protocol error: Connection closed"]].
Proof. cbv zeta. split; vm_compute; reflexivity. Qed.

Lemma missing_score_renders_zero_witness :
  exists lines rest,
    trace (oracle_of sample_answers)
          (@sendResultsToAPI sample_runtime sample_id
             (VObj [("categories",
                     VObj [("performance", VObj [("score", VNum double_0_95)]);
                           ("pwa", VObj [("title", VStr "PWA")])])])) =
    summary_header sample_id
      (VObj [("categories",
              VObj [("performance", VObj [("score", VNum double_0_95)]);
                    ("pwa", VObj [("title", VStr "PWA")])])])
    ++ lines
    ++ Event (ConsoleLog [VStr "  🔴 pwa: 0/100"]) tt :: rest /\
    List.length lines = 1%nat.
Proof.
  apply (@missing_score_renders_zero sample_runtime (oracle_of sample_answers)
           sample_id _ [("performance", VObj [("score", VNum double_0_95)])] []
           "pwa" (VObj [("title", VStr "PWA")])).
  - reflexivity.
  - repeat constructor. eexists. reflexivity.
  - reflexivity.
  - reflexivity.
Defined.

(** C10 as stated fails.  In a report whose first category is [null] and
    whose second has no score, the read of the score of the first throws:
    the summary stops after its three header lines, the second category is
    skipped, the error is logged and nothing is sent. *)
Lemma null_category_hides_later_ones :
  let tr := trace (oracle_of sample_answers)
                  (@sendResultsToAPI sample_runtime sample_id report_with_null_category) in
  lines_logged tr =
    [[VStr "📊 Résultats Lighthouse pour"; VStr sample_id; VStr ":"];
     [VStr "URL testée:"; VStr "https://example.com/"];
     [VStr "Scores:"]] /\
  errors_logged tr =
    [[VStr "❌ Erreur lors de l'envoi des résultats à l'API:";
      cannot_read VNull "score"]] /\
  posts tr = [].
Proof. cbv zeta. repeat split; vm_compute; reflexivity. Qed.

(** * Further properties of the program *)

Section Routing.
Context `{Runtime} (o : oracle).

(** ** Routing *)

Lemma run_requestHandler_routed (req : request) (home : URL) :
  String.eqb (req_method req) "OPTIONS" = false ->
  o _ (NewURL (VStr (req_url req)) (Some (request_base req))) = Normal home ->
  run o (on_request req) =
  let p := if is_analyze req home then analyze
           else if is_health req home then health else not_found in
  (preamble req (Normal home) ++ fst (run o p) ++
     match snd (run o p) with
     | Normal _ => []
     | Thrown e => server_error e
     end, Normal tt).
Proof.
  intros Hm Hhome. unfold on_request. rewrite run_fire_and_forget.
  unfold requestHandler.
  rewrite run_bind, run_perform, unit_answer. cbv beta iota.
  rewrite run_bind, run_perform, unit_answer. cbv beta iota.
  rewrite run_bind, run_perform, unit_answer. cbv beta iota.
  rewrite Hm.
  rewrite run_bind, run_call, Hhome. cbv beta iota zeta.
  rewrite run_try_catch. fold (is_analyze req home). fold (is_health req home).
  destruct (run o (if is_analyze req home then analyze
                   else if is_health req home then health else not_found))
    as [tr [[] | e]]; cbn [fst snd].
  - rewrite List.app_nil_r. reflexivity.
  - rewrite run_bind, run_perform, unit_answer. cbv beta iota.
    rewrite run_sendJSONResponse. reflexivity.
Qed.

Lemma run_on_request_options (req : request) :
  req_method req = "OPTIONS" ->
  run o (on_request req) =
  (cors_headers ++ [Event (WriteHead 200 []) tt; Event (End None) tt], Normal tt).
Proof.
  intros Hm. unfold on_request. rewrite run_fire_and_forget. unfold requestHandler.
  rewrite run_bind, run_perform, unit_answer. cbv beta iota.
  rewrite run_bind, run_perform, unit_answer. cbv beta iota.
  rewrite run_bind, run_perform, unit_answer. cbv beta iota.
  rewrite Hm. cbn [String.eqb Ascii.eqb Bool.eqb].
  rewrite run_bind, !run_perform, !unit_answer. reflexivity.
Qed.

Lemma run_on_request_unparsable (req : request) (e : value) :
  String.eqb (req_method req) "OPTIONS" = false ->
  o _ (NewURL (VStr (req_url req)) (Some (request_base req))) = Thrown e ->
  run o (on_request req) =
  (preamble req (Thrown e) ++ [Event (UnhandledRejection e) tt], Normal tt).
Proof.
  intros Hm He.
  unfold on_request. rewrite run_fire_and_forget. unfold requestHandler.
  rewrite run_bind, run_perform, unit_answer. cbv beta iota.
  rewrite run_bind, run_perform, unit_answer. cbv beta iota.
  rewrite run_bind, run_perform, unit_answer. cbv beta iota.
  rewrite Hm. rewrite run_bind, run_call, He. reflexivity.
Qed.

Lemma run_health :
  run o health =
  (Event DateToISOString (o _ DateToISOString)
     :: response (health_body (o _ DateToISOString)) 200, Normal tt).
Proof.
  unfold health. rewrite run_bind, run_perform. cbv beta iota.
  rewrite run_sendJSONResponse. reflexivity.
Qed.

Lemma run_not_found : run o not_found = (response not_found_body 404, Normal tt).
Proof. unfold not_found. rewrite run_sendJSONResponse. reflexivity. Qed.

(** The five ways [analyze] can go. *)
Lemma run_analyze :
  run o analyze =
  match o _ ParseJSONBody with
  | Thrown e => ([Event ParseJSONBody (Thrown e)], Thrown e)
  | Normal body =>
      match get body "url" with
      | Thrown e => ([Event ParseJSONBody (Normal body)], Thrown e)
      | Normal url =>
          if truthy url then
            match o _ (NewURL url None) with
            | Thrown e =>
                (Event ParseJSONBody (Normal body)
                   :: Event (NewURL url None) (Thrown e)
                   :: response (VObj [("error", VStr "URL invalide")]) 400,
                 Normal tt)
            | Normal target =>
                let testId := make_testId (o _ DateNow) (o _ MathRandom) in
                (acceptance body url target (o _ DateNow) (o _ MathRandom) testId
                   ++ response (accepted testId) 200
                   ++ fst (run o (background_job testId url (get_opt body "options"))),
                 Normal tt)
            end
          else
            (Event ParseJSONBody (Normal body)
               :: response (VObj [("error", VStr "URL requise")]) 400, Normal tt)
      end
  end.
Proof.
  destruct (o _ ParseJSONBody) as [body | e] eqn:Hb.
  - destruct (get body "url") as [url | e] eqn:Hu.
    + destruct (truthy url) eqn:Ht.
      * destruct (o _ (NewURL url None)) as [target | e] eqn:Hn.
        -- exact (run_analyze_accepted o body url target Hb Hu Ht Hn).
        -- unfold analyze.
           rewrite run_bind, run_await, Hb. cbv beta iota.
           rewrite run_bind, run_lift, Hu. cbv beta iota.
           rewrite Ht. cbn [negb].
           rewrite run_bind, run_try_catch, run_bind, run_call, Hn. cbv beta iota.
           cbn [run negb]. rewrite run_sendJSONResponse. reflexivity.
      * unfold analyze.
        rewrite run_bind, run_await, Hb. cbv beta iota.
        rewrite run_bind, run_lift, Hu. cbv beta iota.
        rewrite Ht. cbn [negb]. rewrite run_sendJSONResponse. reflexivity.
    + unfold analyze.
      rewrite run_bind, run_await, Hb. cbv beta iota.
      rewrite run_bind, run_lift, Hu. reflexivity.
  - unfold analyze. rewrite run_bind, run_await, Hb. reflexivity.
Qed.

End Routing.


Section Routes.
Context `{Runtime} (o : oracle).

(** X1.  [GET /health] is answered with status 200 and
    [{status: "OK", timestamp, service}], the timestamp being the current
    time; the clock is the only thing the request consults. *)
Theorem health_is_answered (req : request) (home : URL) :
  req_method req = "GET" ->
  o _ (NewURL (VStr (req_url req)) (Some (request_base req))) = Normal home ->
  pathname home = "/health" ->
  run o (on_request req) =
  (preamble req (Normal home)
     ++ Event DateToISOString (o _ DateToISOString)
     :: response (health_body (o _ DateToISOString)) 200, Normal tt).
Proof.
  intros Hm Hhome Hp.
  rewrite (run_requestHandler_routed o req home); [| rewrite Hm; reflexivity | exact Hhome].
  unfold is_analyze, is_health. rewrite Hm, Hp. cbn [String.eqb Ascii.eqb Bool.eqb andb].
  cbv zeta. rewrite run_health. cbn [fst snd]. rewrite List.app_nil_r. reflexivity.
Qed.

(** X2.  An [OPTIONS] request, whatever its target, is answered with status
    200 and no body right after the three CORS headers: the target is not
    parsed and the body is not read. *)
Theorem options_is_answered_empty (req : request) :
  req_method req = "OPTIONS" ->
  run o (on_request req) =
  (cors_headers ++ [Event (WriteHead 200 []) tt; Event (End None) tt], Normal tt).
Proof.
  intros Hm. unfold on_request. rewrite run_fire_and_forget. unfold requestHandler.
  rewrite run_bind, run_perform, unit_answer. cbv beta iota.
  rewrite run_bind, run_perform, unit_answer. cbv beta iota.
  rewrite run_bind, run_perform, unit_answer. cbv beta iota.
  rewrite Hm. cbn [String.eqb Ascii.eqb Bool.eqb].
  rewrite run_bind, !run_perform, !unit_answer. reflexivity.
Qed.

(** X3.  A request that is neither [OPTIONS], nor [POST /analyze], nor
    [GET /health] is answered with status 404 and the list of the two
    endpoints; nothing else happens. *)
Theorem unknown_route_is_404 (req : request) (home : URL) :
  String.eqb (req_method req) "OPTIONS" = false ->
  o _ (NewURL (VStr (req_url req)) (Some (request_base req))) = Normal home ->
  is_analyze req home = false ->
  is_health req home = false ->
  run o (on_request req) =
  (preamble req (Normal home) ++ response not_found_body 404, Normal tt).
Proof.
  intros Hm Hhome Ha Hh.
  rewrite (run_requestHandler_routed o req home Hm Hhome), Ha, Hh.
  cbv zeta. rewrite run_not_found. cbn [fst snd]. rewrite List.app_nil_r. reflexivity.
Qed.

(** X4.  On [POST /analyze], a body that cannot be read as JSON, and a body
    that is [null], end in the outer [catch]: the error is logged, the
    answer is status 500 with a generic message, and no job is started. *)
Theorem unreadable_body_is_500 (req : request) (home : URL) :
  req_method req = "POST" ->
  o _ (NewURL (VStr (req_url req)) (Some (request_base req))) = Normal home ->
  pathname home = "/analyze" ->
  (forall e,
     o _ ParseJSONBody = Thrown e ->
     run o (on_request req) =
     (preamble req (Normal home)
        ++ Event ParseJSONBody (Thrown e) :: server_error e, Normal tt)) /\
  (forall body,
     o _ ParseJSONBody = Normal body -> nullish body = true ->
     run o (on_request req) =
     (preamble req (Normal home)
        ++ Event ParseJSONBody (Normal body)
        :: server_error (cannot_read body "url"), Normal tt)).
Proof.
  intros Hm Hhome Hp.
  pose proof (run_on_request_analyze o req home Hm Hhome Hp) as Hrun.
  rewrite run_analyze in Hrun. split.
  - intros e He. rewrite Hrun, He. reflexivity.
  - intros body Hb Hn. rewrite Hrun, Hb.
    destruct body; try discriminate; reflexivity.
Qed.

(** X5.  When the request target cannot be parsed (and the method is not
    [OPTIONS]), the listener throws outside its [try]: after the CORS
    headers nothing is written to the response, and the rejection of the
    listener is left unhandled. *)
Theorem unparsable_target_is_unanswered (req : request) (e : value) :
  String.eqb (req_method req) "OPTIONS" = false ->
  o _ (NewURL (VStr (req_url req)) (Some (request_base req))) = Thrown e ->
  run o (on_request req) =
  (preamble req (Thrown e) ++ [Event (UnhandledRejection e) tt], Normal tt) /\
  statuses (trace o (on_request req)) = [] /\
  bodies (trace o (on_request req)) = [].
Proof.
  intros Hm He.
  assert (Hrun : run o (on_request req) =
                 (preamble req (Thrown e) ++ [Event (UnhandledRejection e) tt],
                  Normal tt)).
  { unfold on_request. rewrite run_fire_and_forget. unfold requestHandler.
    rewrite run_bind, run_perform, unit_answer. cbv beta iota.
    rewrite run_bind, run_perform, unit_answer. cbv beta iota.
    rewrite run_bind, run_perform, unit_answer. cbv beta iota.
    rewrite Hm. rewrite run_bind, run_call, He. reflexivity. }
  split; [exact Hrun |]. unfold trace. rewrite Hrun. split; reflexivity.
Qed.

End Routes.


Section Invariants.
Context `{Runtime} (o : oracle).

(** What a routed request writes: one status line and one body, followed by
    nothing but the job; and a job only behind the answer 200. *)
Lemma routed_answers_once (p : prog unit) :
  p = analyze \/ p = health \/ p = not_found ->
  let tr := fst (run o p) ++ match snd (run o p) with
                             | Normal _ => []
                             | Thrown e => server_error e
                             end in
  List.length (statuses tr) = 1%nat /\ List.length (bodies tr) = 1%nat /\
  (existsb audit_operation tr = true ->
   statuses tr = [200] /\ exists testId, bodies tr = [Some (accepted testId)]).
Proof.
  intros [-> | [-> | ->]]; cbv zeta.
  - rewrite run_analyze.
    destruct (o _ ParseJSONBody) as [body | e]; [| repeat split; discriminate].
    destruct (get body "url") as [url | e]; [| repeat split; discriminate].
    destruct (truthy url); [| repeat split; discriminate].
    destruct (o _ (NewURL url None)) as [target | e]; [| repeat split; discriminate].
    cbv zeta. cbn [fst snd]. rewrite List.app_nil_r.
    destruct (no_writes_no_answer _
                (background_job_leaves_response o
                   (make_testId (o _ DateNow) (o _ MathRandom)) url
                   (get_opt body "options"))) as [Hs Hb].
    unfold trace in Hs, Hb.
    rewrite !statuses_app, !bodies_app, Hs, Hb.
    split; [reflexivity |]. split; [reflexivity |]. intros _.
    split; [reflexivity |]. eexists. reflexivity.
  - rewrite run_health. repeat split; discriminate.
  - rewrite run_not_found. repeat split; discriminate.
Qed.

(** X6.  A request is answered at most once, also when a promise that its
    handling awaits never settles: at most one status line and one body are
    written.  A [POST /analyze] whose body never ends is not answered at
    all: after the CORS headers and the parsing of the target the listener
    stays suspended.  When every promise settles, the three CORS headers
    come first and exactly one status line and one body are written, unless
    the request target could not be parsed, in which case none is. *)
Theorem one_response_per_request (req : request) :
  (forall never : forall X : Type, effect X -> bool,
     (List.length (statuses (fst (run_pending o never (on_request req)))) <= 1)%nat /\
     (List.length (bodies (fst (run_pending o never (on_request req)))) <= 1)%nat) /\
  (forall (never : forall X : Type, effect X -> bool) (home : URL),
     req_method req = "POST" ->
     o _ (NewURL (VStr (req_url req)) (Some (request_base req))) = Normal home ->
     pathname home = "/analyze" ->
     never _ ParseJSONBody = true ->
     run_pending o never (on_request req) = (preamble req (Normal home), None)) /\
  (exists rest, trace o (on_request req) = cors_headers ++ rest) /\
  List.length (statuses (trace o (on_request req))) =
  List.length (bodies (trace o (on_request req))) /\
  List.length (statuses (trace o (on_request req))) =
  (if String.eqb (req_method req) "OPTIONS" then 1
   else match o _ (NewURL (VStr (req_url req)) (Some (request_base req))) with
        | Normal _ => 1
        | Thrown _ => 0
        end)%nat.
Proof.
  assert (Hfull :
    (exists rest, trace o (on_request req) = cors_headers ++ rest) /\
    List.length (statuses (trace o (on_request req))) =
    List.length (bodies (trace o (on_request req))) /\
    List.length (statuses (trace o (on_request req))) =
    (if String.eqb (req_method req) "OPTIONS" then 1
     else match o _ (NewURL (VStr (req_url req)) (Some (request_base req))) with
          | Normal _ => 1
          | Thrown _ => 0
          end)%nat).
  { unfold trace.
    destruct (String.eqb (req_method req) "OPTIONS") eqn:Hm.
    - apply String.eqb_eq in Hm. rewrite (run_on_request_options o req Hm).
      cbn [fst]. split; [eexists; reflexivity | split; reflexivity].
    - destruct (o _ (NewURL (VStr (req_url req)) (Some (request_base req))))
        as [home | e] eqn:Hu.
      + rewrite (run_requestHandler_routed o req home Hm Hu). cbv zeta. cbn [fst].
        split; [eexists; unfold preamble, cors_headers; reflexivity |].
        destruct (routed_answers_once
                    (if is_analyze req home then analyze
                     else if is_health req home then health else not_found))
          as (Hs & Hb & _).
        { destruct (is_analyze req home); [left; reflexivity |].
          destruct (is_health req home); right; [left | right]; reflexivity. }
        rewrite statuses_app, bodies_app, !List.length_app, Hs, Hb.
        split; reflexivity.
      + rewrite (run_on_request_unparsable o req e Hm Hu). cbn [fst].
        split; [eexists; unfold preamble, cors_headers; reflexivity | split; reflexivity]. }
  split; [| split; [| exact Hfull]].
  - intros never.
    destruct (run_pending_prefix o never (on_request req)) as [rest Hrest].
    destruct Hfull as (_ & Hsame & Hcount). unfold trace in Hsame, Hcount.
    assert (Hone : (List.length (statuses (fst (run o (on_request req)))) <= 1)%nat).
    { rewrite Hcount. destruct (String.eqb (req_method req) "OPTIONS"); [lia |].
      destruct (o _ (NewURL _ _)); lia. }
    pose proof Hone as Hone'. rewrite Hsame in Hone'.
    rewrite Hrest, statuses_app, List.length_app in Hone.
    rewrite Hrest, bodies_app, List.length_app in Hone'.
    split; lia.
  - intros never home Hm Hhome Hp Hnever.
    unfold on_request, fire_and_forget.
    rewrite run_pending_try_catch, run_pending_bind. unfold requestHandler.
    rewrite run_pending_bind, run_pending_perform by reflexivity. rewrite unit_answer.
    cbv beta iota.
    rewrite run_pending_bind, run_pending_perform by reflexivity. rewrite unit_answer.
    cbv beta iota.
    rewrite run_pending_bind, run_pending_perform by reflexivity. rewrite unit_answer.
    cbv beta iota.
    rewrite Hm. cbn [String.eqb Ascii.eqb Bool.eqb].
    rewrite run_pending_bind, run_pending_call by reflexivity. rewrite Hhome.
    cbv beta iota zeta.
    rewrite run_pending_try_catch, Hp. cbn [String.eqb Ascii.eqb Bool.eqb andb].
    unfold analyze.
    rewrite run_pending_bind, (run_pending_await_never o never ParseJSONBody eq_refl Hnever).
    reflexivity.
Qed.

Lemma existsb_audit_app (a b : list event) :
  existsb audit_operation (a ++ b) =
  existsb audit_operation a || existsb audit_operation b.
Proof. apply existsb_app. Qed.

(** X7.  No browser, engine or collector operation takes place unless the
    request was accepted: whenever a run of the listener contains one, the
    request was answered with status 200 and an identifier. *)
Theorem job_only_behind_acceptance (req : request) :
  existsb audit_operation (trace o (on_request req)) = true ->
  statuses (trace o (on_request req)) = [200] /\
  exists testId, bodies (trace o (on_request req)) = [Some (accepted testId)].
Proof.
  unfold trace.
  destruct (String.eqb (req_method req) "OPTIONS") eqn:Hm.
  - apply String.eqb_eq in Hm. rewrite (run_on_request_options o req Hm).
    discriminate.
  - destruct (o _ (NewURL (VStr (req_url req)) (Some (request_base req))))
      as [home | e] eqn:Hu.
    + rewrite (run_requestHandler_routed o req home Hm Hu). cbv zeta. cbn [fst].
      destruct (routed_answers_once
                  (if is_analyze req home then analyze
                   else if is_health req home then health else not_found))
        as (_ & _ & Hjob).
      { destruct (is_analyze req home); [left; reflexivity |].
        destruct (is_health req home); right; [left | right]; reflexivity. }
      cbv zeta in Hjob. rewrite existsb_audit_app. cbn [preamble existsb audit_operation orb].
      intros Hex. destruct (Hjob Hex) as (Hs & testId & Hb).
      rewrite statuses_app, bodies_app, Hs, Hb.
      split; [reflexivity | exists testId; reflexivity].
    + rewrite (run_on_request_unparsable o req e Hm Hu). discriminate.
Qed.

End Invariants.


(** ** The flags of the engine *)

Section Flags.
Context `{Runtime}.


End Flags.


Section Paths.
Context `{Runtime} (o : oracle).

(** X9.  When the audit itself succeeds but [browser.close] rejects, the
    rejection of the [finally] block replaces the report: the job logs the
    error of the close under its id and delivers nothing. *)
Theorem close_failure_drops_report
        (testId : string) (url options : value) (b : browser) (endpoint : URL)
        (runnerResult report e message : value) :
  o _ (Launch launch_options) = Normal b ->
  o _ (NewURL (VStr (o _ (WsEndpoint b))) None) = Normal endpoint ->
  o _ (Lighthouse url (lighthouse_flags endpoint (default_options options)))
    = Normal runnerResult ->
  lhr_of runnerResult = Normal report ->
  o _ (Close b) = Thrown e ->
  get e "message" = Normal message ->
  run o (background_job testId url options) =
  ([Event (Launch launch_options) (Normal b);
    Event (WsEndpoint b) (o _ (WsEndpoint b));
    Event (NewURL (VStr (o _ (WsEndpoint b))) None) (Normal endpoint);
    Event (Lighthouse url (lighthouse_flags endpoint (default_options options)))
          (Normal runnerResult);
    Event (Close b) (Thrown e);
    audit_error testId message], Normal tt) /\
  posts (trace o (background_job testId url options)) = [].
Proof.
  intros Hl Hu He Hr Hc Hm.
  assert (Hrun : run o (background_job testId url options) =
    ([Event (Launch launch_options) (Normal b);
      Event (WsEndpoint b) (o _ (WsEndpoint b));
      Event (NewURL (VStr (o _ (WsEndpoint b))) None) (Normal endpoint);
      Event (Lighthouse url (lighthouse_flags endpoint (default_options options)))
            (Normal runnerResult);
      Event (Close b) (Thrown e);
      audit_error testId message], Normal tt)).
  { rewrite run_background_job, (run_executeLighthouse o url options b Hl).
    rewrite run_executeLighthouse_try. cbv zeta. rewrite Hu. cbv beta iota.
    rewrite He. cbv beta iota. rewrite Hr, Hc, Hm. reflexivity. }
  split; [exact Hrun |]. unfold trace. rewrite Hrun. reflexivity.
Qed.

(** X10.  When the browser cannot be launched there is nothing to release:
    the job consists of the failed launch and of one error entry with the
    job id and the message; no browser is closed, the engine is not called
    and nothing is delivered. *)
Theorem launch_failure_is_logged (testId : string) (url options e message : value) :
  o _ (Launch launch_options) = Thrown e ->
  get e "message" = Normal message ->
  run o (background_job testId url options) =
  ([Event (Launch launch_options) (Thrown e); audit_error testId message],
   Normal tt) /\
  closed (trace o (background_job testId url options)) = [] /\
  posts (trace o (background_job testId url options)) = [].
Proof.
  intros Hl Hm.
  assert (Hrun : run o (background_job testId url options) =
                 ([Event (Launch launch_options) (Thrown e);
                   audit_error testId message], Normal tt)).
  { rewrite run_background_job, (run_executeLighthouse_no_browser o url options e Hl).
    rewrite Hm. reflexivity. }
  split; [exact Hrun |]. unfold trace. rewrite Hrun. split; reflexivity.
Qed.

(** X11.  When the audit rejects with [undefined] or [null], the [catch]
    callback itself throws on [error.message]: no error entry is logged and
    the job ends in an unhandled rejection carrying that type error. *)
Theorem nullish_rejection_is_unhandled (testId : string) (url options e : value) :
  completion o (executeLighthouse url options) = Thrown e ->
  nullish e = true ->
  run o (background_job testId url options) =
  (trace o (executeLighthouse url options)
     ++ [Event (UnhandledRejection (cannot_read e "message")) tt], Normal tt) /\
  errors_logged (trace o (background_job testId url options)) = [].
Proof.
  intros Hc Hn. unfold completion, trace in *.
  rewrite run_background_job.
  pose proof (every_executeLighthouse o (fun ev => errors_logged [ev] = []) url options)
    as Hev.
  unfold every in Hev.
  destruct (run o (executeLighthouse url options)) as [tr r]. cbn [fst snd] in *.
  subst r.
  assert (Hg : get e "message" = Thrown (cannot_read e "message"))
    by (destruct e; try discriminate; reflexivity).
  rewrite Hg. split; [reflexivity |]. cbn [fst].
  assert (Hnone : forall l, Forall (fun ev => errors_logged [ev] = []) l ->
                            errors_logged l = []).
  { induction 1 as [| [X op x] l Hx _ IH]; [reflexivity |].
    destruct op; simpl in *; try discriminate; assumption. }
  assert (Happ : forall a b, errors_logged (a ++ b) = errors_logged a ++ errors_logged b).
  { induction a as [| [X op x] a IH]; intros b0; simpl; [reflexivity |].
    destruct op; simpl; rewrite IH; reflexivity. }
  rewrite Happ, Hnone; [reflexivity |].
  apply Hev.
  - intros [X op x] Hop. destruct op; (discriminate || reflexivity).
  - reflexivity.
Qed.

(** *** Delivery of a report *)

Lemma quiet_lines (l : list event) :
  Forall (fun ev => is_console ev = true /\ errors_logged [ev] = []) l ->
  posts l = [] /\ errors_logged l = [] /\
  List.length (lines_logged l) = List.length l.
Proof.
  induction 1 as [| [X op x] l [Hc He] _ (IHp & IHe & IHl)]; [repeat split |].
  destruct op; simpl in *; try discriminate; repeat split; try assumption.
  rewrite IHl. reflexivity.
Qed.

(** X12.  A category whose entry is [undefined] or [null] makes the read of
    its score throw: the categories before it, when each of them can be
    printed, have their lines after the three header lines, the error is
    caught and logged by the delivery routine, and the report is not sent
    to the collector. *)
Theorem nullish_category_blocks_delivery
        (testId : string) (results categories : value)
        (before after : list (string * value)) (category : string) (data : value) :
  nullish results = false ->
  get results "categories" = Normal categories ->
  truthy categories = true ->
  Object_entries categories = before ++ (category, data) :: after ->
  Forall (fun entry => printable (snd entry)) before ->
  nullish data = true ->
  posts (trace o (sendResultsToAPI testId results)) = [] /\
  errors_logged (trace o (sendResultsToAPI testId results)) =
  [[VStr "❌ Erreur lors de l'envoi des résultats à l'API:"; cannot_read data "score"]] /\
  List.length (lines_logged (trace o (sendResultsToAPI testId results)))
    = (3 + List.length before)%nat /\
  completion o (sendResultsToAPI testId results) = Normal tt.
Proof.
  intros Hn Hc Ht He Hb Hd.
  destruct (get_not_nullish _ _ _ Hc) as [_ Hcat].
  destruct (run_forEach_printable o before Hb) as (lines & Hrun & Hlen & Hall).
  destruct (quiet_lines lines Hall) as (Hp & Herr & Hl).
  assert (Hthrow : run o (log_category (category, data)) =
                   ([], Thrown (cannot_read data "score"))).
  { rewrite run_log_category. destruct data; try discriminate; reflexivity. }
  assert (Hscores : run o (log_scores testId results) =
                    (summary_header testId results ++ lines,
                     Thrown (cannot_read data "score"))).
  { rewrite (run_log_scores o testId results Hn). cbv zeta.
    rewrite Hcat, Ht, He, run_forEach_app, Hrun.
    cbn [forEach]. rewrite run_bind, Hthrow. rewrite List.app_nil_r. reflexivity. }
  unfold trace, completion. rewrite run_sendResultsToAPI, Hscores. cbn [fst snd].
  rewrite !posts_app, !errors_logged_app, !lines_logged_app, !List.length_app,
    Hp, Herr, Hl, Hlen.
  repeat split; try reflexivity. simpl. lia.
Qed.

End Paths.


Section EndToEnd.
Context `{Runtime} (o : oracle).

Lemma log_scores_needs_report (testId : string) (results : value) :
  snd (run o (log_scores testId results)) = Normal tt -> nullish results = false.
Proof.
  destruct results; try reflexivity; unfold log_scores;
    rewrite run_bind, run_perform, unit_answer; cbv beta iota;
    rewrite run_bind, run_lift; discriminate.
Qed.

(** X13.  For an accepted request whose audit yields a report (the [lhr]
    property of what the engine resolved with), whose browser closes and whose summary (scores and metrics) prints without
    error, exactly one request is sent to the collector, at the address
    made from [API_URL]; its payload is [{testId, results, timestamp}],
    where [testId] is the very identifier that was returned to the caller
    with status "pending", [results] is the report as the engine produced
    it and [timestamp] the time of sending. *)
Theorem report_delivered_under_returned_id
        (req : request) (home target endpoint : URL) (body url : value)
        (b : browser) (runnerResult report : value) :
  req_method req = "POST" ->
  o _ (NewURL (VStr (req_url req)) (Some (request_base req))) = Normal home ->
  pathname home = "/analyze" ->
  o _ ParseJSONBody = Normal body ->
  get body "url" = Normal url ->
  truthy url = true ->
  o _ (NewURL url None) = Normal target ->
  o _ (Launch launch_options) = Normal b ->
  o _ (NewURL (VStr (o _ (WsEndpoint b))) None) = Normal endpoint ->
  o _ (Lighthouse url
         (lighthouse_flags endpoint (default_options (get_opt body "options"))))
    = Normal runnerResult ->
  field runnerResult "lhr" = Some report ->
  o _ (Close b) = Normal tt ->
  (forall testId, completion o (log_scores testId report) = Normal tt) ->
  completion o (log_metrics report) = Normal tt ->
  exists testId,
    bodies (trace o (on_request req))
      = [Some (VObj [("id", VStr testId);
                     ("status", VStr "pending");
                     ("message", VStr "Test Lighthouse en cours...")])] /\
    posts (trace o (on_request req))
      = [(collector_address,
          VObj [("testId", VStr testId);
                ("results", report);
                ("timestamp", VStr (o _ DateToISOString))])].
Proof.
  intros Hm Hhome Hpath Hb Hu Ht Hn Hl Hws He Hf Hc Hs Hmet.
  assert (Hr : lhr_of runnerResult = Normal report).
  { destruct runnerResult as [| | | | | | fields]; try discriminate.
    unfold lhr_of. cbn [field] in Hf. cbn [truthy has_property get]. rewrite Hf.
    reflexivity. }
  set (testId := make_testId (o _ DateNow) (o _ MathRandom)) in *.
  exists testId. specialize (Hs testId).
  pose proof (run_on_request_analyze o req home Hm Hhome Hpath) as Hrun.
  rewrite (run_analyze_accepted o body url target Hb Hu Ht Hn) in Hrun.
  cbv zeta in Hrun. cbn [fst snd] in Hrun. fold testId in Hrun.
  destruct (no_writes_no_answer _
              (background_job_leaves_response o testId url (get_opt body "options")))
    as [_ Hbd].
  unfold trace in *. rewrite Hrun. cbn [fst].
  rewrite !bodies_app, !posts_app, Hbd. split; [reflexivity |].
  cbn [acceptance response preamble posts app]. rewrite List.app_nil_r.
  rewrite run_background_job,
    (run_executeLighthouse o url (get_opt body "options") b Hl).
  rewrite run_executeLighthouse_try. cbv zeta. rewrite Hws. cbv beta iota.
  rewrite He. cbv beta iota. rewrite Hr, Hc. cbv beta iota. cbn [fst app posts].
  rewrite run_sendResultsToAPI.
  unfold completion in Hs, Hmet.
  pose proof (posts_log_scores o testId report) as Hps.
  pose proof (posts_log_metrics o report) as Hpm.
  destruct (run o (log_scores testId report)) as [scores r]. cbn [fst snd] in *.
  subst r.
  destruct (run o (log_metrics report)) as [metrics r]. cbn [fst snd] in *.
  subst r. rewrite run_post_results. cbv zeta.
  rewrite <- collector_address_eq. unfold envelope.
  cbn [fst]. rewrite !posts_app, Hps, Hpm.
  destruct (o _ (AxiosPost _ _)); reflexivity.
Qed.

(** X14.  The delivery routine prints its success line only when the
    request to the collector was sent and fulfilled; no error entry is
    logged in that run. *)
Theorem success_line_means_fulfilled (testId : string) (results : value) :
  existsb is_success (trace o (sendResultsToAPI testId results)) = true ->
  (exists a,
     o _ (AxiosPost collector_endpoint
            (envelope testId results (o _ DateToISOString))) = Normal a) /\
  posts (trace o (sendResultsToAPI testId results))
    = [(collector_endpoint, envelope testId results (o _ DateToISOString))] /\
  errors_logged (trace o (sendResultsToAPI testId results)) = [].
Proof.
  assert (Hscores : every o (fun ev => is_success ev = false /\
                                       errors_logged [ev] = [] /\ is_post ev = false)
                          (log_scores testId results)).
  { unfold log_scores.
    apply every_bind; [apply every_perform; repeat split | intros _].
    apply every_bind; [apply every_lift | intros finalUrl].
    apply every_bind;
      [destruct (truthy finalUrl); [apply every_ret | apply every_lift] | intros tested].
    apply every_bind; [apply every_perform; repeat split | intros _].
    apply every_bind; [apply every_perform; repeat split | intros _].
    apply every_bind; [apply every_lift | intros cats].
    destruct (truthy cats); [| apply every_ret].
    apply every_forEach. intros [c d]. unfold log_category.
    apply every_bind; [apply every_lift | intros raw].
    apply every_bind; [apply every_lift | intros score].
    apply every_perform. repeat split. }
  assert (Hmetrics : every o (fun ev => is_success ev = false /\
                                        errors_logged [ev] = [] /\ is_post ev = false)
                           (log_metrics results)).
  { unfold log_metrics.
    apply every_bind; [apply every_lift | intros audits].
    repeat (apply every_bind;
            [first [apply every_lift | apply every_perform; repeat split] | intros ?]).
    apply every_perform. repeat split. }
  assert (Hquiet : forall l,
             Forall (fun ev => is_success ev = false /\
                               errors_logged [ev] = [] /\ is_post ev = false) l ->
             existsb is_success l = false /\ errors_logged l = [] /\ posts l = []).
  { induction 1 as [| [X op x] l (Hs & He & Hp) _ (IHs & IHe & IHp)];
      [repeat split |].
    cbn [existsb]. rewrite Hs. cbn [orb]. split; [exact IHs |].
    destruct op; simpl in *; try discriminate; split; assumption. }
  pose proof errors_logged_app as Happ.
  unfold every in Hscores, Hmetrics. unfold trace.
  rewrite run_sendResultsToAPI.
  destruct (run o (log_scores testId results)) as [scores rs]. cbn [fst] in Hscores.
  destruct (Hquiet scores Hscores) as (Hs1 & He1 & Hp1).
  destruct rs as [[] | e]; cbn [fst].
  - destruct (run o (log_metrics results)) as [metrics rm]. cbn [fst] in Hmetrics.
    destruct (Hquiet metrics Hmetrics) as (Hs2 & He2 & Hp2).
    destruct rm as [[] | e]; cbn [fst].
    + rewrite run_post_results. cbv zeta.
      destruct (o _ (AxiosPost collector_endpoint
                       (envelope testId results (o _ DateToISOString))))
        as [a | e] eqn:Hpost; cbn [fst].
      * intros _. rewrite !posts_app, !Happ, Hp1, Hp2, He1, He2.
        split; [exists a; reflexivity | split; reflexivity].
      * rewrite !existsb_app, Hs1, Hs2. discriminate.
    + rewrite !existsb_app, Hs1, Hs2. discriminate.
  - rewrite existsb_app, Hs1. discriminate.
Qed.

(** X16.  A display value that cannot be converted to a string, such as
    an object with an own [toString] property (a value, which cannot be
    called), makes the template literal of its line throw a type error.
    When the text of a metric throws, the lines before it are the last
    ones of the summary: the error is caught and logged, and the report
    is not sent to the collector. *)
Theorem unprintable_metric_blocks_delivery
        (testId : string) (results : value) (scores : list event) (e : value) :
  (forall id fields x,
     display_value results id = Some (VObj fields) ->
     lookup "toString" fields = Some x ->
     metric_text results id =
     Thrown (VObj [("name", VStr "TypeError");
                   ("message", VStr "Cannot convert object to primitive value")])) /\
  (run o (log_scores testId results) = (scores, Normal tt) ->
   snd (metrics_summary (metric_text results "first-contentful-paint")
                        (metric_text results "largest-contentful-paint")
                        (metric_text results "total-byte-weight")) = Thrown e ->
   trace o (sendResultsToAPI testId results) =
   scores
   ++ fst (metrics_summary (metric_text results "first-contentful-paint")
                           (metric_text results "largest-contentful-paint")
                           (metric_text results "total-byte-weight"))
   ++ [Event (ConsoleError
                [VStr "❌ Erreur lors de l'envoi des résultats à l'API:"; e]) tt] /\
   posts (trace o (sendResultsToAPI testId results)) = []).
Proof.
  split.
  - intros id fields x Hd Ht. unfold metric_text. rewrite Hd.
    cbn [truthy to_string]. rewrite Ht. reflexivity.
  - intros Hs He.
    assert (Hn : nullish results = false).
    { apply (log_scores_needs_report testId). rewrite Hs. reflexivity. }
    pose proof (posts_log_scores o testId results) as Hps.
    pose proof (posts_log_metrics o results) as Hpm.
    unfold trace. rewrite run_sendResultsToAPI.
    rewrite Hs in *. rewrite (run_log_metrics o results Hn) in *.
    destruct (metrics_summary _ _ _) as [metrics r]. cbn [fst snd] in *. subst r.
    cbn [fst]. split; [reflexivity |].
    rewrite !posts_app, Hps, Hpm. reflexivity.
Qed.

(** X17.  Nothing bounds the time of the engine: when the promise of
    [lighthouse] never settles, the job stays suspended in the [try] block
    after the launch of the browser, the reading of its endpoint and the
    call of the engine (a call without answer, which the trace does not
    show): the browser is not closed, nothing is logged and nothing is
    delivered. *)
Theorem hung_engine_keeps_browser
        (never : forall X : Type, effect X -> bool)
        (testId : string) (url options : value) (b : browser) (endpoint : URL) :
  o _ (Launch launch_options) = Normal b ->
  never _ (Launch launch_options) = false ->
  o _ (NewURL (VStr (o _ (WsEndpoint b))) None) = Normal endpoint ->
  never _ (Lighthouse url (lighthouse_flags endpoint (default_options options))) = true ->
  run_pending o never (background_job testId url options) =
  ([Event (Launch launch_options) (Normal b);
    Event (WsEndpoint b) (o _ (WsEndpoint b));
    Event (NewURL (VStr (o _ (WsEndpoint b))) None) (Normal endpoint)], None) /\
  closed (fst (run_pending o never (background_job testId url options))) = [].
Proof.
  intros Hl Hnl Hu Hne.
  assert (Hrun : run_pending o never (background_job testId url options) =
    ([Event (Launch launch_options) (Normal b);
      Event (WsEndpoint b) (o _ (WsEndpoint b));
      Event (NewURL (VStr (o _ (WsEndpoint b))) None) (Normal endpoint)], None)).
  { unfold background_job, fire_and_forget.
    rewrite run_pending_try_catch, run_pending_bind, run_pending_try_catch,
      run_pending_bind.
    unfold executeLighthouse. cbv zeta.
    rewrite run_pending_bind, (run_pending_await o never _ Hnl), Hl. cbv beta iota.
    rewrite run_pending_try_finally. unfold executeLighthouse_try.
    rewrite run_pending_bind, run_pending_perform by reflexivity. cbv beta iota.
    rewrite run_pending_bind, run_pending_call by reflexivity. rewrite Hu.
    cbv beta iota.
    rewrite run_pending_bind,
      (run_pending_await_never o never
         (Lighthouse url (lighthouse_flags endpoint (default_options options)))
         eq_refl Hne).
    reflexivity. }
  split; [exact Hrun |]. rewrite Hrun. reflexivity.
Qed.

End EndToEnd.


Lemma health_is_answered_witness :
  run (oracle_of sample_answers) (@on_request sample_runtime health_request) =
  (preamble health_request (Normal {| pathname := "/health"; port := "" |})
     ++ Event DateToISOString "2024-04-05T19:34:38.901Z"
     :: response (health_body "2024-04-05T19:34:38.901Z") 200, Normal tt).
Proof.
  apply (@health_is_answered sample_runtime (oracle_of sample_answers) health_request
           {| pathname := "/health"; port := "" |}); reflexivity.
Defined.

Lemma options_is_answered_empty_witness :
  run (oracle_of sample_answers) (@on_request sample_runtime options_request) =
  (cors_headers ++ [Event (WriteHead 200 []) tt; Event (End None) tt], Normal tt).
Proof.
  apply (@options_is_answered_empty sample_runtime (oracle_of sample_answers)
           options_request); reflexivity.
Defined.

Lemma unknown_route_is_404_witness :
  run (oracle_of sample_answers) (@on_request sample_runtime unknown_request) =
  (preamble unknown_request (Normal {| pathname := "/status"; port := "" |})
     ++ response not_found_body 404, Normal tt).
Proof.
  apply (@unknown_route_is_404 sample_runtime (oracle_of sample_answers)
           unknown_request {| pathname := "/status"; port := "" |}); reflexivity.
Defined.

Lemma unreadable_body_is_500_witness :
  let o := oracle_of (with_body (Thrown (TypeError "Unexpected token")) sample_answers) in
  run o (@on_request sample_runtime sample_request) =
  (preamble sample_request (Normal sample_home)
     ++ Event ParseJSONBody (Thrown (TypeError "Unexpected token"))
     :: server_error (TypeError "Unexpected token"), Normal tt).
Proof.
  cbv zeta.
  apply (proj1 (@unreadable_body_is_500 sample_runtime
                  (oracle_of (with_body (Thrown (TypeError "Unexpected token"))
                                        sample_answers))
                  sample_request sample_home eq_refl eq_refl eq_refl)).
  reflexivity.
Defined.

Lemma unparsable_target_is_unanswered_witness :
  let o := oracle_of (with_url (fun _ _ => Thrown (TypeError "Invalid URL"))
                               sample_answers) in
  statuses (trace o (@on_request sample_runtime sample_request)) = [].
Proof.
  cbv zeta.
  apply (@unparsable_target_is_unanswered sample_runtime
           (oracle_of (with_url (fun _ _ => Thrown (TypeError "Invalid URL"))
                                sample_answers))
           sample_request (TypeError "Invalid URL")); reflexivity.
Defined.

Lemma job_only_behind_acceptance_witness :
  statuses (trace (oracle_of sample_answers) (@on_request sample_runtime sample_request))
  = [200].
Proof.
  apply (@job_only_behind_acceptance sample_runtime (oracle_of sample_answers)
           sample_request).
  vm_compute. reflexivity.
Defined.


Lemma close_failure_drops_report_witness :
  let o := oracle_of (with_close (Thrown close_error) sample_answers) in
  posts (trace o (@background_job sample_runtime sample_id
                    (VStr "https://example.com") VUndefined)) = [].
Proof.
  cbv zeta.
  apply (@close_failure_drops_report sample_runtime
           (oracle_of (with_close (Thrown close_error) sample_answers))
           sample_id (VStr "https://example.com") VUndefined 1%nat sample_endpoint
           (VObj [("lhr", sample_report)]) sample_report close_error
           (VStr "Protocol error: Connection closed")); reflexivity.
Defined.

Lemma launch_failure_is_logged_witness :
  let o := oracle_of (with_launch (Thrown engine_error) sample_answers) in
  run o (@background_job sample_runtime sample_id (VStr "https://example.com") VUndefined) =
  ([Event (Launch launch_options) (Thrown engine_error);
    audit_error sample_id (VStr "net::ERR_NAME_NOT_RESOLVED")], Normal tt).
Proof.
  cbv zeta.
  apply (@launch_failure_is_logged sample_runtime
           (oracle_of (with_launch (Thrown engine_error) sample_answers))
           sample_id (VStr "https://example.com") VUndefined engine_error
           (VStr "net::ERR_NAME_NOT_RESOLVED")); reflexivity.
Defined.

Lemma nullish_rejection_is_unhandled_witness :
  let o := oracle_of (with_lighthouse (Thrown VUndefined) sample_answers) in
  errors_logged (trace o (@background_job sample_runtime sample_id
                            (VStr "https://example.com") VUndefined)) = [].
Proof.
  cbv zeta.
  apply (@nullish_rejection_is_unhandled sample_runtime
           (oracle_of (with_lighthouse (Thrown VUndefined) sample_answers))
           sample_id (VStr "https://example.com") VUndefined VUndefined); reflexivity.
Defined.

Lemma nullish_category_blocks_delivery_witness :
  posts (trace (oracle_of sample_answers)
               (@sendResultsToAPI sample_runtime sample_id broken_report)) = [].
Proof.
  apply (@nullish_category_blocks_delivery sample_runtime (oracle_of sample_answers)
           sample_id broken_report
           (VObj [("performance", VObj [("score", VNum double_0_95)]); ("seo", VNull)])
           [("performance", VObj [("score", VNum double_0_95)])] [] "seo" VNull);
    try reflexivity.
  apply Forall_cons; [| apply Forall_nil].
  split; [reflexivity |]. exists double_0_95. reflexivity.
Defined.

Lemma report_delivered_under_returned_id_witness :
  exists testId,
    bodies (trace (oracle_of sample_answers) (@on_request sample_runtime sample_request))
      = [Some (VObj [("id", VStr testId);
                     ("status", VStr "pending");
                     ("message", VStr "Test Lighthouse en cours...")])] /\
    posts (trace (oracle_of sample_answers) (@on_request sample_runtime sample_request))
      = [("http://localhost:3000/api/lighthouse/results",
          VObj [("testId", VStr testId);
                ("results", sample_report);
                ("timestamp", VStr "2024-04-05T19:34:38.901Z")])].
Proof.
  apply (@report_delivered_under_returned_id sample_runtime (oracle_of sample_answers)
           sample_request sample_home sample_target sample_endpoint sample_body
           (VStr "https://example.com") 1%nat (VObj [("lhr", sample_report)])
           sample_report); first [reflexivity | intros testId; reflexivity].
Defined.

Lemma unprintable_metric_blocks_delivery_witness :
  let report :=
    VObj [("audits",
           VObj [("first-contentful-paint",
                  VObj [("displayValue", VObj [("toString", VNum (of_Z 1))])])])] in
  trace (oracle_of sample_answers) (@sendResultsToAPI sample_runtime sample_id report) =
  [Event (ConsoleLog [VStr "📊 Résultats Lighthouse pour"; VStr sample_id; VStr ":"]) tt;
   Event (ConsoleLog [VStr "URL testée:"; VUndefined]) tt;
   Event (ConsoleLog [VStr "Scores:"]) tt]
  ++ [Event (ConsoleLog [VStr "⚡ Métriques de performance:"]) tt]
  ++ [Event (ConsoleError
               [VStr "❌ Erreur lors de l'envoi des résultats à l'API:";
                TypeError "Cannot convert object to primitive value"]) tt] /\
  posts (trace (oracle_of sample_answers)
               (@sendResultsToAPI sample_runtime sample_id report)) = [].
Proof.
  cbv zeta.
  apply (proj2 (@unprintable_metric_blocks_delivery sample_runtime
                  (oracle_of sample_answers) sample_id
                  (VObj [("audits",
                          VObj [("first-contentful-paint",
                                 VObj [("displayValue",
                                        VObj [("toString", VNum (of_Z 1))])])])])
                  [Event (ConsoleLog [VStr "📊 Résultats Lighthouse pour";
                                      VStr sample_id; VStr ":"]) tt;
                   Event (ConsoleLog [VStr "URL testée:"; VUndefined]) tt;
                   Event (ConsoleLog [VStr "Scores:"]) tt]
                  (TypeError "Cannot convert object to primitive value")));
    reflexivity.
Defined.

Lemma hung_engine_keeps_browser_witness :
  let never (X : Type) (op : effect X) :=
    match op with Lighthouse _ _ => true | _ => false end in
  closed (fst (run_pending (oracle_of sample_answers) never
                 (@background_job sample_runtime sample_id
                    (VStr "https://example.com") VUndefined))) = [].
Proof.
  cbv zeta.
  apply (@hung_engine_keeps_browser sample_runtime (oracle_of sample_answers)
           (fun X op => match op with Lighthouse _ _ => true | _ => false end)
           sample_id (VStr "https://example.com") VUndefined 1%nat sample_endpoint);
    reflexivity.
Defined.

Lemma one_response_per_request_witness :
  let never (X : Type) (op : effect X) :=
    match op with ParseJSONBody => true | _ => false end in
  run_pending (oracle_of sample_answers) never (@on_request sample_runtime sample_request)
  = (preamble sample_request (Normal sample_home), None).
Proof.
  cbv zeta.
  apply (proj1 (proj2 (@one_response_per_request sample_runtime
                         (oracle_of sample_answers) sample_request)));
    reflexivity.
Defined.

Lemma success_line_means_fulfilled_witness :
  errors_logged (trace (oracle_of sample_answers)
                       (@sendResultsToAPI sample_runtime sample_id sample_report)) = [].
Proof.
  apply (@success_line_means_fulfilled sample_runtime (oracle_of sample_answers)
           sample_id sample_report).
  vm_compute. reflexivity.
Defined.


Lemma substring_length (n m : nat) (s : string) :
  (String.length (substring n m s) <= m)%nat.
Proof.
  revert n m. induction s as [| c s IH]; intros [| n] [| m]; simpl; try lia.
  - specialize (IH 0%nat m). lia.
  - apply IH.
  - apply IH.
Qed.

Lemma substring_short (n m : nat) (s : string) :
  (String.length s <= n)%nat -> substring n m s = "".
Proof.
  revert n m. induction s as [| c s IH]; intros [| n] [| m] Hl; simpl in *;
    try reflexivity; try lia; apply IH; lia.
Qed.

Section Shape.
Context `{Runtime}.

(** X15.  The random part of an identifier has at most nine characters,
    and it is empty when the base-36 numeral of the random number has no
    more than two characters (as for the number 0, printed "0"): the
    identifier is then the prefix, the time and an underscore. *)
Theorem random_suffix_is_short (now : Z) (random : number) :
  (String.length (suffix random) <= 9)%nat /\
  ((String.length (Number_toString36 random) <= 2)%nat ->
   make_testId now random = ("test_" ++ decimal now ++ "_")%string).
Proof.
  split; [apply substring_length |].
  intros Hs. unfold make_testId, suffix. rewrite (substring_short 2 9 _ Hs). reflexivity.
Qed.

End Shape.

Lemma random_suffix_is_short_witness :
  @make_testId zero_runtime 1712345678901 (S754_zero false) = "test_1712345678901_".
Proof.
  apply (@random_suffix_is_short zero_runtime 1712345678901 (S754_zero false)).
  simpl. lia.
Defined.
